(** * Brooks GF1xx EtherCAT control core: a shallow embedding of [main.py]

    The development follows the Python source class by class:
    [BrooksDriver] (scale discovery, frame decode, setpoint encode),
    [DataRecorder], [EtherCATManager] (connect / disconnect) and
    [DataManager] (bounded history).  Python floats are IEEE-754 binary64
    values, modelled by the Standard Library's [spec_float] with
    [prec = 53] and [emax = 1024]; the [struct] format character [f] is
    binary32 ([prec = 24], [emax = 128]).  Calls into the fieldbus master
    stack, the file system and the thread library are external: their
    outcomes are supplied by explicit scripts, so every function below is
    an executable, total function of its inputs. *)

From Stdlib Require Import ZArith List Bool Lia String.
From Stdlib Require Import Floats.SpecFloat Strings.Byte.
From stdpp Require Import base list strings pretty.
Import ListNotations.
Open Scope Z_scope.

(* ===================================================================== *)
(** * Python run-time values: exceptions and results                     *)
(* ===================================================================== *)

(** The exception classes that the modelled code can meet.  All of them
    derive from [Exception]. *)
Inductive PyExc : Type :=
  | AttributeError
  | StructError        (* struct.error *)
  | ValueError
  | IndexError
  | OverflowError
  | RuntimeError
  | OSError
  | OtherError (msg : string).

(** Outcome of a call: a returned value or a raised exception. *)
Inductive Result (A : Type) : Type :=
  | Returns (a : A)
  | Raises (e : PyExc).
Arguments Returns {A} a.
Arguments Raises {A} e.

(** Sequencing [x ← c; k]: an exception raised by [c] skips [k]. *)
#[global] Instance Result_ret : MRet Result := fun _ a => Returns a.
#[global] Instance Result_bind : MBind Result := fun _ _ k r =>
  match r with
  | Returns a => k a
  | Raises e => Raises e
  end.

(** Code that both mutates an object of state type [S] and may raise:
    the state reached when the exception is raised is kept, as in Python,
    so that a handler sees the assignments made before the failure. *)
Definition Action (S A : Type) : Type := S -> S * Result A.

#[global] Instance Action_ret {S} : MRet (Action S) :=
  fun _ a s => (s, Returns a).
#[global] Instance Action_bind {S} : MBind (Action S) := fun _ _ k c s =>
  match c s with
  | (s', Returns a) => k a s'
  | (s', Raises e) => (s', Raises e)
  end.

(** An external call with a scripted outcome. *)
Definition call {S A} (r : Result A) : Action S A := fun s => (s, r).
(** An attribute assignment. *)
Definition update {S} (f : S -> S) : Action S unit := fun s => (f s, Returns tt).
(** An attribute read. *)
Definition read {S A} (f : S -> A) : Action S A := fun s => (s, Returns (f s)).
(** [try: c except Exception as e: h e]. *)
Definition except_Exception {S A} (c : Action S A) (h : PyExc -> Action S A)
  : Action S A := fun s =>
  match c s with
  | (s', Returns a) => (s', Returns a)
  | (s', Raises e) => h e s'
  end.

(** [try: c except h]: every modelled exception derives from [Exception],
    so a handler [except Exception] is total; narrower handlers select on
    the class and re-raise the rest. *)
Definition try_except {A} (c : Result A) (h : PyExc -> Result A) : Result A :=
  match c with
  | Returns a => Returns a
  | Raises e => h e
  end.

(** Python [bytes] seen through an attribute that may also be [None]. *)
Definition bytes := list byte.

(** Truthiness of an optional byte string: [None] and [b''] are falsy. *)
Definition truthy_bytes (b : option bytes) : bool :=
  match b with
  | None => false
  | Some [] => false
  | Some (_ :: _) => true
  end.

(** [len(b)] as a Python int. *)
Definition len {A} (l : list A) : Z := Z.of_nat (length l).

(** The slice [l[a:b]] for literal bounds [0 <= a <= b]. *)
Definition slice {A} (a b : nat) (l : list A) : list A :=
  firstn (b - a) (skipn a l).

(* ===================================================================== *)
(** * Python floats                                                      *)
(* ===================================================================== *)

Module PyFloat.

(** A Python float is a binary64 value. *)
Definition float : Type := spec_float.

Definition prec : Z := 53.
Definition emax : Z := 1024.

Definition div (x y : float) : float := SFdiv prec emax x y.
Definition mul (x y : float) : float := SFmul prec emax x y.

(** [x < y], [x <= y], [x > y] with IEEE semantics: every comparison
    with a NaN is false. *)
Definition lt (x y : float) : bool := SFltb x y.
Definition le (x y : float) : bool := SFleb x y.
Definition gt (x y : float) : bool := SFltb y x.

(** The float written as the integer literal [z] followed by [.0]. *)
Definition of_Z (z : Z) : float := binary_normalize prec emax z 0 false.

Definition zero : float := S754_zero false.          (* 0.0 *)
Definition nan : float := S754_nan.
Definition inf : float := S754_infinity false.
Definition neg_inf : float := S754_infinity true.

(** [min(a, b)] and [max(a, b)] of the builtins: the first argument is
    kept unless the second compares strictly below (resp. above) it. *)
Definition min (a b : float) : float := if lt b a then b else a.
Definition max (a b : float) : float := if gt b a then b else a.

Definition is_nan (x : float) : bool :=
  match x with S754_nan => true | _ => false end.
Definition is_inf (x : float) : bool :=
  match x with S754_infinity _ => true | _ => false end.

(** Well-formed binary64 datum. *)
Definition valid (x : float) : bool := valid_binary prec emax x.

End PyFloat.

Abbreviation float := PyFloat.float.

(** Float arithmetic is evaluated by [vm_compute] on closed terms only. *)
#[global] Arguments PyFloat.of_Z : simpl never.
#[global] Arguments PyFloat.div : simpl never.
#[global] Arguments PyFloat.mul : simpl never.
#[global] Arguments PyFloat.lt : simpl never.
#[global] Arguments PyFloat.le : simpl never.
#[global] Arguments PyFloat.gt : simpl never.

(* ===================================================================== *)
(** * The [struct] module, formats ['<f'] and ['<fBfI']                  *)
(* ===================================================================== *)

Module Struct.

Definition prec32 : Z := 24.
Definition emax32 : Z := 128.

(** Little-endian assembly of four bytes into a 32-bit word. *)
Definition word_of_bytes (b0 b1 b2 b3 : byte) : Z :=
  Z.lor (Z.of_N (Byte.to_N b0))
    (Z.lor (Z.shiftl (Z.of_N (Byte.to_N b1)) 8)
       (Z.lor (Z.shiftl (Z.of_N (Byte.to_N b2)) 16)
              (Z.shiftl (Z.of_N (Byte.to_N b3)) 24))).

(** The binary32 datum with bit pattern [w], widened to binary64 (the
    widening is exact). *)
Definition float_of_word (w : Z) : float :=
  let s := Z.testbit w 31 in
  let e := Z.land (Z.shiftr w 23) 255 in
  let m := Z.land w (Z.ones 23) in
  if e =? 255 then
    if m =? 0 then S754_infinity s else S754_nan
  else if e =? 0 then
    match m with
    | Zpos p => binary_round PyFloat.prec PyFloat.emax s p (-149)
    | _ => S754_zero s
    end
  else
    match m + 2 ^ 23 with
    | Zpos p => binary_round PyFloat.prec PyFloat.emax s p (e - 150)
    | _ => S754_nan
    end.

(** [struct.unpack('<f', b)[0]]: [struct.error] unless [b] has exactly
    four bytes. *)
Definition unpack_f (b : bytes) : Result float :=
  match b with
  | [b0; b1; b2; b3] => Returns (float_of_word (word_of_bytes b0 b1 b2 b3))
  | _ => Raises StructError
  end.

(** The C conversion [(float)x], round to nearest even. *)
Definition to_single (x : float) : float :=
  match x with
  | S754_finite s m e => binary_round prec32 emax32 s m e
  | _ => x
  end.

Definition sign_bit (s : bool) : Z := if s then Z.shiftl 1 31 else 0.

(** Bit pattern of a binary32 datum (NaN is the quiet NaN). *)
Definition word_of_single (y : float) : Z :=
  match y with
  | S754_zero s => sign_bit s
  | S754_infinity s => Z.lor (sign_bit s) (Z.shiftl 255 23)
  | S754_nan => Z.lor (Z.shiftl 255 23) (Z.shiftl 1 22)
  | S754_finite s m e =>
      if Zpos (digits2_pos m) =? prec32
      then Z.lor (sign_bit s)
             (Z.lor (Z.shiftl (e + 150) 23) (Z.land (Zpos m) (Z.ones 23)))
      else Z.lor (sign_bit s) (Zpos m)
  end.

Definition byte_of_Z (z : Z) : byte :=
  match Byte.of_N (Z.to_N (Z.land z 255)) with
  | Some b => b
  | None => x00
  end.

(** The [n] low bytes of [w], least significant first. *)
Fixpoint le_bytes (n : nat) (w : Z) : bytes :=
  match n with
  | O => []
  | S n' => byte_of_Z w :: le_bytes n' (Z.shiftr w 8)
  end.

(** Format [f]: [OverflowError] when a finite double rounds to an
    infinite single. *)
Definition pack_f (x : float) : Result bytes :=
  let y := to_single x in
  if PyFloat.is_inf y && negb (PyFloat.is_inf x)
  then Raises OverflowError
  else Returns (le_bytes 4 (word_of_single y)).

(** Format [B]: an unsigned byte, range checked. *)
Definition pack_B (v : Z) : Result bytes :=
  if (0 <=? v) && (v <=? 255) then Returns (le_bytes 1 v)
  else Raises StructError.

(** Format [I] with [<]: an unsigned 32-bit integer, range checked. *)
Definition pack_I (v : Z) : Result bytes :=
  if (0 <=? v) && (v <? 2 ^ 32) then Returns (le_bytes 4 v)
  else Raises StructError.

(** [struct.pack('<fBfI', a, b, c, d)]: no padding with [<]. *)
Definition pack_fBfI (a : float) (b : Z) (c : float) (d : Z) : Result bytes :=
  ba ← pack_f a;
  bb ← pack_B b;
  bc ← pack_f c;
  bd ← pack_I d;
  Returns (ba ++ bb ++ bc ++ bd).

End Struct.

#[global] Arguments Struct.float_of_word : simpl never.
#[global] Arguments Struct.word_of_bytes : simpl never.
#[global] Arguments Struct.to_single : simpl never.
#[global] Arguments Struct.word_of_single : simpl never.
#[global] Arguments Struct.pack_f : simpl never.
#[global] Arguments Struct.pack_fBfI : simpl never.

(* ===================================================================== *)
(** * Configuration and data models                                      *)
(* ===================================================================== *)

Module Config.
Definition MAX_HISTORY_POINTS : Z := 200.
Definition TIMEOUT_SAFEOP : Z := 50000.
Definition TIMEOUT_OP : Z := 50000.
Definition TIMEOUT_RECEIVE : Z := 2000.
Definition SDO_FULL_SCALE_INDEX : Z := 0x2103.
Definition SDO_FULL_SCALE_SUBINDEX : Z := 0x00.
End Config.

(** [ControllerData]: one decoded sample. *)
Record ControllerData : Type := mkControllerData {
  timestamp : float;
  flow : float;          (* SCCM *)
  pressure : float;      (* psi *)
  temperature : float;   (* degrees C *)
  setpoint : float       (* SCCM *)
}.

Inductive ConnectionState : Type :=
  | DISCONNECTED
  | CONNECTING
  | CONNECTED
  | ERROR.

(** A slave object of the master stack, as far as this program touches
    it: the two process-data buffers and the acyclic object read.  The
    reply of [sdo_read(index, subindex, size)] is decided by the device. *)
Record Slave : Type := mkSlave {
  input : option bytes;
  output : option bytes;
  sdo_read : Z -> Z -> Z -> Result (option bytes)
}.

Definition set_output (sl : Slave) (data : bytes) : Slave :=
  mkSlave (input sl) (Some data) (sdo_read sl).

(* ===================================================================== *)
(** * BrooksDriver                                                       *)
(* ===================================================================== *)

Module BrooksDriver.

(** Instance attributes.  The lock only serialises callers; the model
    is sequential, one call at a time. *)
Record t : Type := mk {
  slave : option Slave;
  controller_id : Z;
  full_scale : float;
  _setpoint : float
}.

Definition default_full_scale : float := PyFloat.of_Z 30000.

Definition set_full_scale (self : t) (fs : float) : t :=
  mk (slave self) (controller_id self) fs (_setpoint self).

Definition set_setpoint (self : t) (sp : float) : t :=
  mk (slave self) (controller_id self) (full_scale self) sp.

Definition set_slave (self : t) (sl : option Slave) : t :=
  mk sl (controller_id self) (full_scale self) (_setpoint self).

(** The body of the [try] block of [_read_full_scale]: [Some fs] when a
    value was accepted and stored, [None] when the code falls through
    to the default. *)
Definition read_full_scale_try (self : t) : Result (option float) :=
  data ← match slave self with
         | None => Raises AttributeError
         | Some sl => sdo_read sl Config.SDO_FULL_SCALE_INDEX
                                 Config.SDO_FULL_SCALE_SUBINDEX 4
         end;
  match data with
  | Some d =>
      if truthy_bytes data && (4 <=? len d) then
        full_scale ← Struct.unpack_f (firstn 4 d);
        if PyFloat.le (PyFloat.of_Z 1) full_scale
           && PyFloat.le full_scale (PyFloat.of_Z 1000000)
        then Returns (Some full_scale)
        else Returns None
      else Returns None
  | None => Returns None
  end.

(** [_read_full_scale]: both handlers ([AttributeError], [Exception])
    only log, so every exception ends in the default branch. *)
Definition _read_full_scale (self : t) : t * bool :=
  match read_full_scale_try self with
  | Returns (Some fs) => (set_full_scale self fs, true)
  | Returns None => (self, false)
  | Raises _ => (self, false)
  end.

Definition __init__ (slave : option Slave) (controller_id : Z) : t :=
  fst (_read_full_scale (mk slave controller_id default_full_scale PyFloat.zero)).

(** The body of the [try] block of [read_data] on the input frame. *)
Definition read_data_try (now : float) (self : t) (frame : bytes)
  : Result (option ControllerData) :=
  flow_raw ← Struct.unpack_f (slice 1 5 frame);
  pressure_psi ← Struct.unpack_f (slice 5 9 frame);
  temperature ← Struct.unpack_f (slice 9 13 frame);
  let flow_percent := PyFloat.div flow_raw (PyFloat.of_Z 100) in
  let flow_sccm :=
    PyFloat.div (PyFloat.mul flow_percent (full_scale self)) (PyFloat.of_Z 100) in
  Returns (Some (mkControllerData now flow_sccm pressure_psi temperature
                   (_setpoint self))).

(** [read_data]; [now] is the value of [time.time()]. *)
Definition read_data (now : float) (self : t) : Result (option ControllerData) :=
  match slave self with
  | None => Returns None
  | Some sl =>
      match input sl with
      | None => Returns None
      | Some frame =>
          if negb (truthy_bytes (Some frame)) || (len frame <? 13)
          then Returns None
          else
            try_except (read_data_try now self frame)
              (fun e => match e with
                        | StructError | IndexError => Returns None
                        | _ => Raises e
                        end)
      end
  end.

(** [write_setpoint]: the new driver state and the outcome. *)
Definition write_setpoint (self : t) (setpoint : float) : t * Result bool :=
  match slave self with
  | None => (self, Returns false)
  | Some sl =>
      if negb (truthy_bytes (output sl)) then (self, Returns false)
      else
        let setpoint := PyFloat.max PyFloat.zero
                          (PyFloat.min setpoint (full_scale self)) in
        let self := set_setpoint self setpoint in
        match Struct.pack_fBfI setpoint 0 PyFloat.zero 0 with
        | Returns output_data =>
            (set_slave self (Some (set_output sl output_data)), Returns true)
        | Raises e =>
            match e with
            | StructError | ValueError => (self, Returns false)
            | _ => (self, Raises e)
            end
        end
  end.

Definition get_setpoint (self : t) : float := _setpoint self.

End BrooksDriver.

#[global] Arguments BrooksDriver.default_full_scale : simpl never.

(* ===================================================================== *)
(** * DataRecorder                                                       *)
(* ===================================================================== *)

Module DataRecorder.

Definition row : Type := list string.

(** A text file object opened for writing. *)
Record File : Type := mkFile {
  f_path : string;
  f_closed : bool;
  f_rows : list row        (* rows handed to the file, oldest first *)
}.

(** [csv.writer(self._file)]: the writer wraps the file object held in
    [_file] at the time it is created; both attributes are always
    assigned together. *)
Inductive CsvWriter : Type := csv_writer.

(** Outcomes of the file-system calls made during one method call. *)
Record FsScript : Type := mkFsScript {
  open_result : Result unit;       (* open(path, 'w', ...) *)
  writerow_result : Result unit;   (* writer.writerow / writerows *)
  flush_result : Result unit;      (* file.flush() *)
  close_result : Result unit       (* file.close() on an open file *)
}.

Record t : Type := mk {
  buffer_size : Z;
  _file : option File;
  _writer : option CsvWriter;
  _buffer : list row;
  _is_recording : bool;
  _filepath : option string
}.

Definition __init__ (buffer_size : Z) : t :=
  mk buffer_size None None [] false None.

Definition set_filepath (p : option string) (self : t) : t :=
  mk (buffer_size self) (_file self) (_writer self) (_buffer self)
     (_is_recording self) p.
Definition set_file (f : option File) (self : t) : t :=
  mk (buffer_size self) f (_writer self) (_buffer self)
     (_is_recording self) (_filepath self).
Definition set_writer (w : option CsvWriter) (self : t) : t :=
  mk (buffer_size self) (_file self) w (_buffer self)
     (_is_recording self) (_filepath self).
Definition set_buffer (b : list row) (self : t) : t :=
  mk (buffer_size self) (_file self) (_writer self) b
     (_is_recording self) (_filepath self).
Definition set_is_recording (r : bool) (self : t) : t :=
  mk (buffer_size self) (_file self) (_writer self) (_buffer self)
     r (_filepath self).

Definition file_write (rows : list row) (f : File) : File :=
  mkFile (f_path f) (f_closed f) (f_rows f ++ rows).
Definition file_close (f : File) : File :=
  mkFile (f_path f) true (f_rows f).

(** The header row: two time columns, then four columns per controller,
    numbered from 1. *)
Definition header (num_controllers : Z) : row :=
  ["Timestamp"; "DateTime"]%string ++
  flat_map (fun i : nat =>
    let k := pretty (Z.of_nat i + 1) in
    [ "Controller" +:+ k +:+ "_Flow_SCCM";
      "Controller" +:+ k +:+ "_Pressure_psi";
      "Controller" +:+ k +:+ "_Temperature_C";
      "Controller" +:+ k +:+ "_Setpoint_SCCM" ]%string)
    (seq 0 (Z.to_nat num_controllers)).

(** [self._file.close()]: closing a closed file does nothing; closing an
    open file marks it closed and may still raise (the final flush). *)
Definition close_file (fs : FsScript) : Action t unit :=
  f ← read _file;
  match f with
  | Some f =>
      if f_closed f then mret tt
      else update (set_file (Some (file_close f)));; call (close_result fs)
  | None => mret tt
  end.

Definition start_recording (fs : FsScript) (filepath : string)
    (num_controllers : Z) : Action t bool :=
  except_Exception
    (update (set_filepath (Some filepath));;
     call (open_result fs);;
     update (set_file (Some (mkFile filepath false [])));;
     update (set_writer (Some csv_writer));;
     call (writerow_result fs);;
     update (fun self => set_file (file_write [header num_controllers] <$> _file self) self);;
     call (flush_result fs);;
     update (set_is_recording true);;
     update (set_buffer []);;
     mret true)
    (fun _ =>
       f ← read _file;
       match f with
       | Some _ => close_file fs;; mret false
       | None => mret false
       end).

(** [_flush_buffer]: failures are swallowed and leave the buffer as it
    was. *)
Definition _flush_buffer (fs : FsScript) : Action t unit :=
  except_Exception
    (w ← read _writer;
     b ← read _buffer;
     match w, b with
     | Some _, _ :: _ =>
         call (writerow_result fs);;
         update (fun self => set_file (file_write b <$> _file self) self);;
         call (flush_result fs);;
         update (set_buffer [])
     | _, _ => mret tt
     end)
    (fun _ => mret tt).

Definition stop_recording (fs : FsScript) : Action t unit :=
  update (set_is_recording false);;
  b ← read _buffer;
  (match b with _ :: _ => _flush_buffer fs | [] => mret tt end);;
  f ← read _file;
  match f with
  | Some _ =>
      close_file fs;;
      update (set_file None);;
      update (set_writer None)
  | None => mret tt
  end.

Definition is_recording (self : t) : bool := _is_recording self.

(** The text conversions used for a row: [fixed n x] is the format
    [f'{x:.nf}'], [datetime_str t] the local date and time of the
    timestamp [t] cut to milliseconds; the conversion of a timestamp to a
    date can raise. *)
Record Formats : Type := mkFormats {
  fixed : nat -> float -> string;
  datetime_str : float -> Result string
}.

(** The four fields of one controller. *)
Definition data_fields (fm : Formats) (data : option ControllerData) : row :=
  match data with
  | Some d =>
      [fixed fm 2 (flow d); fixed fm 4 (pressure d);
       fixed fm 2 (temperature d); fixed fm 2 (setpoint d)]
  | None => [""; ""; ""; ""]%string
  end.

(** The row built by [record_data] at time [now]. *)
Definition make_row (fm : Formats) (now : float)
    (controllers_data : list (option ControllerData)) : Result row :=
  dt ← datetime_str fm now;
  Returns ([fixed fm 3 now; dt] ++ flat_map (data_fields fm) controllers_data).

(** [record_data]; [now] is the value of [time.time()].  Every exception
    is swallowed. *)
Definition record_data (fs : FsScript) (fm : Formats) (now : float)
    (controllers_data : list (option ControllerData)) : Action t unit :=
  rec ← read _is_recording;
  w ← read _writer;
  match rec, w with
  | true, Some _ =>
      except_Exception
        (r ← call (make_row fm now controllers_data);
         update (fun self => set_buffer (_buffer self ++ [r]) self);;
         b ← read _buffer;
         n ← read buffer_size;
         if n <=? len b then _flush_buffer fs else mret tt)
        (fun _ => mret tt)
  | _, _ => mret tt
  end.

End DataRecorder.

(* ===================================================================== *)
(** * EtherCATManager                                                    *)
(* ===================================================================== *)

Module EtherCATManager.

(** State codes of the master stack ([pysoem.INIT_STATE], ...). *)
Definition INIT_STATE : Z := 1.
Definition SAFEOP_STATE : Z := 4.
Definition OP_STATE : Z := 8.

(** The [pysoem.Master] object: its slave list, the requested bus state
    and whether the adapter is open. *)
Record Master : Type := mkMaster {
  slaves : list Slave;
  state : Z;
  is_open : bool
}.

(** A [threading.Thread] handle; whether the thread is alive is decided
    by the environment. *)
Inductive Thread : Type := cyclic_thread.

(** Status messages returned by [connect], one constructor per format
    string of the source. *)
Inductive Message : Type :=
  | MsgFound (slave_count num_controllers : Z)
  | MsgConnected (num_controllers : Z)
  | MsgState (actual_state : Z)
  | MsgError (e : PyExc).

Record t : Type := mk {
  adapter : string;
  master : option Master;
  drivers : list BrooksDriver.t;
  _cyclic_thread : option Thread;
  _stop_event : bool;
  _state : ConnectionState
}.

Definition __init__ (adapter : string) : t :=
  mk adapter None [] None false DISCONNECTED.

Definition set_master (m : option Master) (self : t) : t :=
  mk (adapter self) m (drivers self) (_cyclic_thread self)
     (_stop_event self) (_state self).
Definition set_drivers (d : list BrooksDriver.t) (self : t) : t :=
  mk (adapter self) (master self) d (_cyclic_thread self)
     (_stop_event self) (_state self).
Definition set_cyclic_thread (th : option Thread) (self : t) : t :=
  mk (adapter self) (master self) (drivers self) th
     (_stop_event self) (_state self).
Definition set_stop_event (b : bool) (self : t) : t :=
  mk (adapter self) (master self) (drivers self) (_cyclic_thread self)
     b (_state self).
Definition set_state (st : ConnectionState) (self : t) : t :=
  mk (adapter self) (master self) (drivers self) (_cyclic_thread self)
     (_stop_event self) st.

(** Assignments through [self.master]. *)
Definition on_master (f : Master -> Master) (self : t) : t :=
  set_master (f <$> master self) self.
Definition master_set_slaves (l : list Slave) (m : Master) : Master :=
  mkMaster l (state m) (is_open m).
Definition master_set_state (st : Z) (m : Master) : Master :=
  mkMaster (slaves m) st (is_open m).
Definition master_set_open (b : bool) (m : Master) : Master :=
  mkMaster (slaves m) (state m) b.

(** Outcomes of the master-stack and thread calls made by [connect], in
    call order.  [config_init] fills [master.slaves] and returns their
    number; [config_map] assigns the process-data buffers of every
    slave object, which the drivers share with [master.slaves]. *)
Record ConnectScript : Type := mkConnectScript {
  open_result : Result unit;
  config_init_result : Result (list Slave);
  config_map_result : Result (Slave -> Slave);
  config_dc_result : Result unit;
  safeop_check_result : Result Z;
  thread_start_result : Result unit;
  write_state_result : Result unit;
  op_check_result : Result Z;
  close_result : Result unit
}.

(** [self.master.close()]. *)
Definition master_close (r : Result unit) : Action t unit :=
  call r;; update (on_master (master_set_open false)).

(** The loop that creates one driver per expected controller. *)
Fixpoint create_drivers (slaves : list Slave) (ids : list nat)
    (acc : list BrooksDriver.t) : Action t unit :=
  match ids with
  | [] => mret tt
  | i :: rest =>
      match slaves !! i with
      | Some sl =>
          let driver := BrooksDriver.__init__ (Some sl) (Z.of_nat i) in
          update (set_drivers (acc ++ [driver]));;
          create_drivers slaves rest (acc ++ [driver])
      | None => call (Raises IndexError)
      end
  end.

(** The effect of [config_map] on the shared slave objects. *)
Definition remap (f : Slave -> Slave) (self : t) : t :=
  set_drivers
    ((fun d => BrooksDriver.set_slave d (f <$> BrooksDriver.slave d))
       <$> drivers self)
    (on_master (fun m => master_set_slaves (f <$> slaves m) m) self).

(** The [try] block of [connect]. *)
Definition connect_try (sc : ConnectScript) (num_controllers : Z)
  : Action t (bool * Message) :=
  update (set_state CONNECTING);;
  update (set_master (Some (mkMaster [] 0 false)));;
  call (open_result sc);;
  update (on_master (master_set_open true));;
  found ← call (config_init_result sc);
  update (on_master (master_set_slaves found));;
  let slave_count := len found in
  if slave_count <? num_controllers then
    master_close (close_result sc);;
    update (set_state ERROR);;
    mret (false, MsgFound slave_count num_controllers)
  else
    update (set_drivers []);;
    create_drivers found (seq 0 (Z.to_nat num_controllers)) [];;
    mapping ← call (config_map_result sc);
    update (remap mapping);;
    call (config_dc_result sc);;
    call (safeop_check_result sc);;
    update (set_stop_event false);;
    update (set_cyclic_thread (Some cyclic_thread));;
    call (thread_start_result sc);;
    update (on_master (master_set_state OP_STATE));;
    call (write_state_result sc);;
    actual_state ← call (op_check_result sc);
    if actual_state =? OP_STATE then
      update (set_state CONNECTED);;
      mret (true, MsgConnected num_controllers)
    else
      update (set_state CONNECTED);;
      mret (true, MsgState actual_state).

Definition connect (sc : ConnectScript) (num_controllers : Z)
  : Action t (bool * Message) :=
  except_Exception (connect_try sc num_controllers)
    (fun e =>
       update (set_state ERROR);;
       m ← read master;
       (match m with
        | Some _ =>
            except_Exception (master_close (close_result sc))
                             (fun _ => mret tt)
        | None => mret tt
        end);;
       mret (false, MsgError e)).

(** Outcomes of the master-stack calls made by [disconnect].
    [zero_write_fault i] is an exception raised while the zero setpoint
    is written to driver [i], if any.  Whether the cyclic thread is
    alive before and after the bounded [join] decides only whether a
    warning is printed, so it is not part of the script. *)
Record DisconnectScript : Type := mkDisconnectScript {
  zero_write_fault : nat -> option PyExc;
  init_write_state_result : Result unit;
  final_close_result : Result unit
}.

(** The slave object of a driver is the one held in [master.slaves] at
    the driver's index: a buffer assigned through the driver is seen
    through the master as well. *)
Definition share_slave (d : BrooksDriver.t) (self : t) : t :=
  match BrooksDriver.slave d with
  | Some sl =>
      on_master
        (fun m =>
           master_set_slaves
             (<[Z.to_nat (BrooksDriver.controller_id d) := sl]> (slaves m)) m)
        self
  | None => self
  end.

(** [for driver in self.drivers: driver.write_setpoint(0.0)]. *)
Fixpoint zero_setpoints (sc : DisconnectScript) (i : nat)
    (todo : list BrooksDriver.t) (done : list BrooksDriver.t)
  : Action t unit :=
  match todo with
  | [] => mret tt
  | driver :: rest =>
      match zero_write_fault sc i with
      | Some e => call (Raises e)
      | None =>
          let '(driver', r) := BrooksDriver.write_setpoint driver PyFloat.zero in
          update (set_drivers (done ++ driver' :: rest));;
          update (share_slave driver');;
          call r;;
          zero_setpoints sc (S i) rest (done ++ [driver'])
      end
  end.

(** The guarded block of [disconnect]: its handler only logs. *)
Definition teardown (sc : DisconnectScript) : Action t unit :=
  except_Exception
    (ds ← read drivers;
     zero_setpoints sc 0 ds [];;
     update (on_master (master_set_state INIT_STATE));;
     call (init_write_state_result sc);;
     master_close (final_close_result sc))
    (fun _ => mret tt).

Definition disconnect (sc : DisconnectScript) : Action t unit :=
  update (set_stop_event true);;
  (* [is_alive()], [join(timeout=3)] and the warning assign nothing *)
  m ← read master;
  (match m with
   | Some _ => teardown sc
   | None => mret tt
   end);;
  update (set_drivers []);;
  update (set_master None);;
  update (set_state DISCONNECTED).

Definition get_full_scale (self : t) (controller_index : Z) : float :=
  if (0 <=? controller_index) && (controller_index <? len (drivers self)) then
    match drivers self !! Z.to_nat controller_index with
    | Some d => BrooksDriver.full_scale d
    | None => BrooksDriver.default_full_scale
    end
  else BrooksDriver.default_full_scale.

(** [set_setpoint]: the subscript is guarded by the range test. *)
Definition set_setpoint (controller_index : Z) (setpoint : float)
  : Action t bool :=
  ds ← read drivers;
  if (0 <=? controller_index) && (controller_index <? len ds) then
    match ds !! Z.to_nat controller_index with
    | Some driver =>
        let '(driver', r) := BrooksDriver.write_setpoint driver setpoint in
        update (set_drivers (<[Z.to_nat controller_index := driver']> ds));;
        update (share_slave driver');;
        call r
    | None => call (Raises IndexError)
    end
  else mret false.

(** The two callback attributes, set by [set_data_callback] and
    [set_error_callback]; a callback may itself raise.  The error
    callback receives the exception (the source passes its text). *)
Record Callbacks : Type := mkCallbacks {
  _on_data_callback : option (list (option ControllerData) -> Result unit);
  _on_error_callback : option (PyExc -> Result unit)
}.

(** Outcomes of the master-stack calls of one cycle: the transmission,
    and the reception, which gives the slave object at each position of
    [master.slaves] its new buffer contents; [clock i] is the value of
    [time.time()] when driver [i] is read. *)
Record CycleScript : Type := mkCycleScript {
  send_result : Result unit;
  receive_result : Result (nat -> Slave -> Slave);
  clock : nat -> float
}.

(** The effect of [receive_processdata] on the shared slave objects: a
    driver sees the slave object at the position of its controller id. *)
Definition refresh (f : nat -> Slave -> Slave) (self : t) : t :=
  set_drivers
    ((fun d =>
        BrooksDriver.set_slave d
          (f (Z.to_nat (BrooksDriver.controller_id d)) <$> BrooksDriver.slave d))
       <$> drivers self)
    (on_master (fun m => master_set_slaves (imap f (slaves m)) m) self).

(** [for driver in self.drivers:
        driver.write_setpoint(driver.get_setpoint())]. *)
Fixpoint resend_setpoints (todo : list BrooksDriver.t)
    (done : list BrooksDriver.t) : Action t unit :=
  match todo with
  | [] => mret tt
  | driver :: rest =>
      let '(driver', r) :=
        BrooksDriver.write_setpoint driver (BrooksDriver.get_setpoint driver) in
      update (set_drivers (done ++ driver' :: rest));;
      update (share_slave driver');;
      call r;;
      resend_setpoints rest (done ++ [driver'])
  end.

(** [for driver in self.drivers:
        controllers_data.append(driver.read_data())]. *)
Fixpoint read_all (clock : nat -> float) (i : nat) (ds : list BrooksDriver.t)
  : Result (list (option ControllerData)) :=
  match ds with
  | [] => Returns []
  | driver :: rest =>
      data ← BrooksDriver.read_data (clock i) driver;
      more ← read_all clock (S i) rest;
      Returns (data :: more)
  end.

(** The [try] block of the loop body of [_cyclic_task], up to the batch
    that is handed to the data callback. *)
Definition cycle_body (sc : CycleScript)
  : Action t (list (option ControllerData)) :=
  ds ← read drivers;
  resend_setpoints ds [];;
  m ← read master;
  match m with
  | None => call (Raises AttributeError)
  | Some _ =>
      call (send_result sc);;
      received ← call (receive_result sc);
      update (refresh received);;
      ds ← read drivers;
      call (read_all (clock sc) 0 ds)
  end.

(** One pass of the loop body of [_cyclic_task]. *)
Definition cyclic_iteration (sc : CycleScript) (cb : Callbacks) : Action t unit :=
  except_Exception
    (controllers_data ← cycle_body sc;
     match _on_data_callback cb with
     | Some on_data => call (on_data controllers_data)
     | None => mret tt
     end)
    (fun e =>
       match _on_error_callback cb with
       | Some on_error => call (on_error e)
       | None => mret tt
       end).

(** [_cyclic_task] over the cycles for which scripts are given: the stop
    flag is tested before every pass. *)
Fixpoint _cyclic_task (cb : Callbacks) (cycles : list CycleScript)
  : Action t unit :=
  match cycles with
  | [] => mret tt
  | sc :: rest =>
      stop ← read _stop_event;
      if (stop : bool) then mret tt
      else (cyclic_iteration sc cb;; _cyclic_task cb rest)
  end.

End EtherCATManager.

(* ===================================================================== *)
(** * DataManager                                                        *)
(* ===================================================================== *)

(** [collections.deque(maxlen=n)]. *)
Module Deque.

Record t (A : Type) : Type := mk { items : list A; maxlen : Z }.
Arguments mk {A} items maxlen.
Arguments items {A} _.
Arguments maxlen {A} _.

(** The constructor rejects a negative bound. *)
Definition create (A : Type) (maxlen : Z) : Result (t A) :=
  if maxlen <? 0 then Raises ValueError else Returns (mk [] maxlen).

(** [append]: the element is added on the right, then the leftmost
    element is dropped when the bound is exceeded. *)
Definition append {A} (d : t A) (x : A) : t A :=
  let l := items d ++ [x] in
  if maxlen d <? len l then mk (tail l) (maxlen d) else mk l (maxlen d).

End Deque.

Module DataManager.

(** One entry of [self.history]: the dict with keys ['time'], ['flow'],
    ['pressure'], ['temperature'], ['setpoint']. *)
Record History : Type := mkHistory {
  h_time : Deque.t float;
  h_flow : Deque.t float;
  h_pressure : Deque.t float;
  h_temperature : Deque.t float;
  h_setpoint : Deque.t float
}.

Record t : Type := mk {
  num_controllers : Z;
  max_points : Z;
  history : list History;
  current_data : list (option ControllerData);
  recorder : DataRecorder.t
}.

Definition new_history (max_points : Z) : Result History :=
  a ← Deque.create float max_points;
  b ← Deque.create float max_points;
  c ← Deque.create float max_points;
  d ← Deque.create float max_points;
  e ← Deque.create float max_points;
  Returns (mkHistory a b c d e).

Fixpoint init_history (n : nat) (max_points : Z) : Result (list History) :=
  match n with
  | O => Returns []
  | S n' =>
      h ← new_history max_points;
      rest ← init_history n' max_points;
      Returns (h :: rest)
  end.

Definition __init__ (num_controllers max_points : Z) : Result t :=
  hs ← init_history (Z.to_nat num_controllers) max_points;
  Returns (mk num_controllers max_points hs
             (replicate (Z.to_nat num_controllers) None)
             (DataRecorder.__init__ 100)).

Definition append_sample (data : ControllerData) (h : History) : History :=
  mkHistory (Deque.append (h_time h) (timestamp data))
            (Deque.append (h_flow h) (flow data))
            (Deque.append (h_pressure h) (pressure data))
            (Deque.append (h_temperature h) (temperature data))
            (Deque.append (h_setpoint h) (setpoint data)).

(** The body of the loop of [update_data] for one [(i, data)]. *)
Definition update_one (i : nat) (data : option ControllerData) (self : t) : t :=
  match data with
  | Some d =>
      if Z.of_nat i <? num_controllers self then
        mk (num_controllers self) (max_points self)
           (alter (append_sample d) i (history self))
           (<[i := Some d]> (current_data self))
           (recorder self)
      else self
  | None => self
  end.

Fixpoint update_from (i : nat) (controllers_data : list (option ControllerData))
    (self : t) : t :=
  match controllers_data with
  | [] => self
  | data :: rest => update_from (S i) rest (update_one i data self)
  end.

Definition update_data (self : t)
    (controllers_data : list (option ControllerData)) : t :=
  update_from 0 controllers_data self.

(** [get_current_data]: the subscript raises [IndexError] past the end
    of the list. *)
Definition get_current_data (self : t) (controller_index : Z)
  : Result (option ControllerData) :=
  if (0 <=? controller_index) && (controller_index <? num_controllers self)
  then match current_data self !! Z.to_nat controller_index with
       | Some data => Returns data
       | None => Raises IndexError
       end
  else Returns None.




End DataManager.

(* ===================================================================== *)
(** * Scenarios                                                          *)
(* ===================================================================== *)

(** What can happen to a driver between its construction and a later
    observation: a caller invokes [write_setpoint], or the master stack
    rewrites the buffers of the slave object the driver refers to
    (process-data mapping, a cyclic exchange). *)
Inductive DriverCall : Type :=
  | WriteSetpoint (setpoint : float)
  | BusExchange (sl : option Slave).

Definition driver_step (d : BrooksDriver.t) (c : DriverCall) : BrooksDriver.t :=
  match c with
  | WriteSetpoint sp => fst (BrooksDriver.write_setpoint d sp)
  | BusExchange sl => BrooksDriver.set_slave d sl
  end.

Definition driver_run (d : BrooksDriver.t) (calls : list DriverCall) : BrooksDriver.t :=
  foldl driver_step d calls.

(** The input frame a driver currently sees, if any. *)
Definition input_frame (d : BrooksDriver.t) : option bytes :=
  sl ← BrooksDriver.slave d; input sl.

(** The output buffer a driver currently sees, if any. *)
Definition output_buffer (d : BrooksDriver.t) : option bytes :=
  sl ← BrooksDriver.slave d; output sl.

(** A usable device scale: a well-formed number in [[1.0, 1000000.0]]. *)
Definition scale_ok (fs : float) : Prop :=
  PyFloat.valid fs = true
  /\ PyFloat.le (PyFloat.of_Z 1) fs = true
  /\ PyFloat.le fs (PyFloat.of_Z 1000000) = true.

(** The stored setpoint lies in [[0, full_scale]]. *)
Definition in_range (d : BrooksDriver.t) : Prop :=
  PyFloat.le PyFloat.zero (BrooksDriver.get_setpoint d) = true
  /\ PyFloat.le (BrooksDriver.get_setpoint d) (BrooksDriver.full_scale d) = true.

(** The clamp that [write_setpoint] applies to its argument. *)
Definition clamp (fs sp : float) : float :=
  PyFloat.max PyFloat.zero (PyFloat.min sp fs).

(** A stored setpoint in the form the clamp produces: 0.0 itself, or a
    positive number not above the scale. *)
Definition settled (d : BrooksDriver.t) : Prop :=
  BrooksDriver.get_setpoint d = PyFloat.zero
  \/ (PyFloat.lt PyFloat.zero (BrooksDriver.get_setpoint d) = true
      /\ PyFloat.le (BrooksDriver.get_setpoint d) (BrooksDriver.full_scale d) = true).

(** The last [n] elements of [l], in order. *)
Definition last_n {A} (n : nat) (l : list A) : list A :=
  drop (length l - n)%nat l.

(** What one batch delivers for channel [i]. *)
Definition delivered (batch : list (option ControllerData)) (i : nat)
  : option ControllerData := mjoin (batch !! i).

(** The samples delivered for channel [i] by a series of batches, oldest
    first. *)
Definition channel_samples (i : nat)
    (batches : list (list (option ControllerData))) : list ControllerData :=
  omap (fun batch => delivered batch i) batches.

(** A series of [update_data] calls. *)
Definition run_updates (dm : DataManager.t)
    (batches : list (list (option ControllerData))) : DataManager.t :=
  foldl DataManager.update_data dm batches.

(** A history entry holds the last [cap] of the given samples, field by
    field. *)
Definition holds_last (cap : nat) (h : DataManager.History)
    (samples : list ControllerData) : Prop :=
  let ok (d : Deque.t float) (field : ControllerData -> float) :=
    Deque.maxlen d = Z.of_nat cap
    /\ Deque.items d = last_n cap (field <$> samples) in
  ok (DataManager.h_time h) timestamp
  /\ ok (DataManager.h_flow h) flow
  /\ ok (DataManager.h_pressure h) pressure
  /\ ok (DataManager.h_temperature h) temperature
  /\ ok (DataManager.h_setpoint h) setpoint.

(** A recorder between sessions: not recording, and no open file. *)
Definition idle (r : DataRecorder.t) : Prop :=
  DataRecorder.is_recording r = false
  /\ match DataRecorder._file r with
     | None => True
     | Some f => DataRecorder.f_closed f = true
     end.

(** Attributes of the manager that the bus teardown does not touch. *)
Definition same_frame (s s' : EtherCATManager.t) : Prop :=
  EtherCATManager.adapter s' = EtherCATManager.adapter s
  /\ EtherCATManager._cyclic_thread s' = EtherCATManager._cyclic_thread s
  /\ EtherCATManager._stop_event s' = EtherCATManager._stop_event s
  /\ EtherCATManager._state s' = EtherCATManager._state s.

(** The manager is disconnected: no master, no drivers, state
    [DISCONNECTED]. *)
Definition disconnected (s : EtherCATManager.t) : Prop :=
  EtherCATManager.master s = None
  /\ EtherCATManager.drivers s = []
  /\ EtherCATManager._state s = DISCONNECTED.

(** A file system on which every call succeeds. *)
Definition healthy (fs : DataRecorder.FsScript) : Prop :=
  DataRecorder.open_result fs = Returns tt
  /\ DataRecorder.writerow_result fs = Returns tt
  /\ DataRecorder.flush_result fs = Returns tt
  /\ DataRecorder.close_result fs = Returns tt.

(** The rows that have reached the recorder's current file. *)
Definition written (r : DataRecorder.t) : list DataRecorder.row :=
  match DataRecorder._file r with
  | Some f => DataRecorder.f_rows f
  | None => []
  end.

(** File, writer and flag agree: either a session is active on an open
    file with its writer, or there is no file, no writer and no session. *)
Definition consistent (r : DataRecorder.t) : Prop :=
  match DataRecorder._file r, DataRecorder._writer r with
  | Some f, Some _ =>
      DataRecorder.f_closed f = false /\ DataRecorder._is_recording r = true
  | None, None =>
      DataRecorder._is_recording r = false /\ DataRecorder._buffer r = []
  | _, _ => False
  end.

(** The calls a recorder receives. *)
Inductive RecorderCall : Type :=
  | CallStart (filepath : string) (num_controllers : Z)
  | CallRecord (now : float) (controllers_data : list (option ControllerData))
  | CallStop.

Definition recorder_step (fs : DataRecorder.FsScript) (fm : DataRecorder.Formats)
    (r : DataRecorder.t) (c : RecorderCall) : DataRecorder.t :=
  match c with
  | CallStart filepath n => fst (DataRecorder.start_recording fs filepath n r)
  | CallRecord now data => fst (DataRecorder.record_data fs fm now data r)
  | CallStop => fst (DataRecorder.stop_recording fs r)
  end.

Definition recorder_run (fs : DataRecorder.FsScript) (fm : DataRecorder.Formats)
    (r : DataRecorder.t) (calls : list RecorderCall) : DataRecorder.t :=
  foldl (recorder_step fs fm) r calls.

(** A series of recording ticks, each with its time and its batch. *)
Definition record_all (fs : DataRecorder.FsScript) (fm : DataRecorder.Formats)
    (r : DataRecorder.t) (ticks : list (float * list (option ControllerData)))
  : DataRecorder.t :=
  foldl (fun r tick => fst (DataRecorder.record_data fs fm tick.1 tick.2 r)) r ticks.

(** The rows of those ticks whose date conversion succeeds, in order. *)
Definition rows_of (fm : DataRecorder.Formats)
    (ticks : list (float * list (option ControllerData))) : list DataRecorder.row :=
  omap (fun tick => match DataRecorder.make_row fm tick.1 tick.2 with
                    | Returns r => Some r
                    | Raises _ => None
                    end) ticks.

(** A driver in the condition every constructed driver is in: a usable
    scale and a settled setpoint. *)
Definition steady (d : BrooksDriver.t) : Prop :=
  scale_ok (BrooksDriver.full_scale d) /\ settled d.

(** The calls a manager receives, from the foreground and from its own
    cyclic thread. *)
Inductive ManagerCall : Type :=
  | CallConnect (sc : EtherCATManager.ConnectScript) (num_controllers : Z)
  | CallDisconnect (sc : EtherCATManager.DisconnectScript)
  | CallSetSetpoint (controller_index : Z) (setpoint : float)
  | CallCycle (sc : EtherCATManager.CycleScript) (cb : EtherCATManager.Callbacks).

Definition manager_step (m : EtherCATManager.t) (c : ManagerCall)
  : EtherCATManager.t :=
  match c with
  | CallConnect sc n => fst (EtherCATManager.connect sc n m)
  | CallDisconnect sc => fst (EtherCATManager.disconnect sc m)
  | CallSetSetpoint i sp => fst (EtherCATManager.set_setpoint i sp m)
  | CallCycle sc cb => fst (EtherCATManager.cyclic_iteration sc cb m)
  end.

Definition manager_run (m : EtherCATManager.t) (calls : list ManagerCall)
  : EtherCATManager.t :=
  foldl manager_step m calls.

(** What holds of a manager between any two calls: its drivers are
    steady, a connected manager has a master object and a cyclic thread,
    a disconnected one has neither master nor drivers, and no completed
    call leaves the state at [CONNECTING]. *)
Definition sound (m : EtherCATManager.t) : Prop :=
  Forall steady (EtherCATManager.drivers m)
  /\ (EtherCATManager._state m = CONNECTED ->
      EtherCATManager.master m <> None
      /\ EtherCATManager._cyclic_thread m <> None)
  /\ (EtherCATManager._state m = DISCONNECTED ->
      EtherCATManager.master m = None /\ EtherCATManager.drivers m = [])
  /\ EtherCATManager._state m <> CONNECTING.

Module Examples.

(** An input frame: status byte 0, raw flow 5000.0, pressure 14.7,
    temperature 23.5 (binary32, little-endian). *)
Definition frame_5000 : bytes :=
  [x00; x00; x40; x9c; x45; x33; x33; x6b; x41; x00; x00; xbc; x41].

(** A device that does not answer object reads. *)
Definition no_sdo : Z -> Z -> Z -> Result (option bytes) :=
  fun _ _ _ => Raises (OtherError "SDO read timeout").

(** A device that reports the full scale 30000.0. *)
Definition sdo_30000 : Z -> Z -> Z -> Result (option bytes) :=
  fun _ _ _ => Returns (Some [x00; x60; xea; x46]).

(** A device that reports the full scale 0.5. *)
Definition sdo_half : Z -> Z -> Z -> Result (option bytes) :=
  fun _ _ _ => Returns (Some [x00; x00; x00; x3f]).

(** A slave before and after process-data mapping. *)
Definition unmapped_slave : Slave := mkSlave None None no_sdo.
Definition mapped_slave : Slave :=
  mkSlave (Some frame_5000) (Some (replicate 13 x00)) no_sdo.

Definition driver : BrooksDriver.t :=
  BrooksDriver.__init__ (Some mapped_slave) 0.
Definition unmapped_driver : BrooksDriver.t :=
  BrooksDriver.__init__ (Some unmapped_slave) 0.

Definition now : float := PyFloat.of_Z 1700000000.

(** The example driver holding the setpoint 100.0. *)
Definition driver_at_100 : BrooksDriver.t :=
  driver_run driver [WriteSetpoint (PyFloat.of_Z 100)].

(** The example driver after two setpoint commands. *)
Definition commanded_driver : BrooksDriver.t :=
  driver_run driver [WriteSetpoint (PyFloat.of_Z (-5)); WriteSetpoint PyFloat.nan].

(** A one-channel store of capacity 2 and three one-sample batches
    with flows 1.0, 2.0, 3.0. *)
Definition data_manager : DataManager.t :=
  DataManager.mk 1 2
    [DataManager.mkHistory (Deque.mk [] 2) (Deque.mk [] 2) (Deque.mk [] 2)
                           (Deque.mk [] 2) (Deque.mk [] 2)]
    [None] (DataRecorder.__init__ 100).

Definition sample (k : Z) : ControllerData :=
  mkControllerData (PyFloat.of_Z (100 + k)) (PyFloat.of_Z k)
                   (PyFloat.of_Z 14) (PyFloat.of_Z 23) PyFloat.zero.

Definition three_batches : list (list (option ControllerData)) :=
  [[Some (sample 1)]; [Some (sample 2)]; [Some (sample 3)]].

Definition final_history : DataManager.History :=
  DataManager.mkHistory
    (Deque.mk [PyFloat.of_Z 102; PyFloat.of_Z 103] 2)
    (Deque.mk [PyFloat.of_Z 2; PyFloat.of_Z 3] 2)
    (Deque.mk [PyFloat.of_Z 14; PyFloat.of_Z 14] 2)
    (Deque.mk [PyFloat.of_Z 23; PyFloat.of_Z 23] 2)
    (Deque.mk [PyFloat.zero; PyFloat.zero] 2).

(** A file system on which every call succeeds, and one on which the
    destination cannot be opened. *)
Definition ok_fs : DataRecorder.FsScript :=
  DataRecorder.mkFsScript (Returns tt) (Returns tt) (Returns tt) (Returns tt).
Definition no_open_fs : DataRecorder.FsScript :=
  DataRecorder.mkFsScript (Raises OSError) (Returns tt) (Returns tt) (Returns tt).

(** A recorder in the middle of a recording session. *)
Definition recording : DataRecorder.t :=
  fst (DataRecorder.start_recording ok_fs "a.csv" 2 (DataRecorder.__init__ 100)).

(** A bus with two mapped devices on which every call succeeds but the
    final state check reports Safe-Operational instead of Operational. *)
Definition degraded_bus : EtherCATManager.ConnectScript :=
  EtherCATManager.mkConnectScript
    (Returns tt) (Returns [unmapped_slave; unmapped_slave])
    (Returns (fun _ => mapped_slave)) (Returns tt)
    (Returns EtherCATManager.SAFEOP_STATE) (Returns tt) (Returns tt)
    (Returns EtherCATManager.SAFEOP_STATE) (Returns tt).

Definition fresh_manager : EtherCATManager.t :=
  EtherCATManager.__init__ "eth0".

Definition connected_manager : EtherCATManager.t :=
  fst (EtherCATManager.connect degraded_bus 2 fresh_manager).

(** Teardowns in which some or all bus calls fail. *)
Definition failing_teardown : EtherCATManager.DisconnectScript :=
  EtherCATManager.mkDisconnectScript (fun _ => Some RuntimeError)
    (Raises OSError) (Raises OSError).
Definition failing_close : EtherCATManager.DisconnectScript :=
  EtherCATManager.mkDisconnectScript (fun _ => None)
    (Returns tt) (Raises OSError).

(** Text conversions that always succeed, and 250 recording ticks of a
    two-channel batch without samples. *)
Definition formats : DataRecorder.Formats :=
  DataRecorder.mkFormats (fun _ _ => "0.00"%string)
                         (fun _ => Returns "2026-01-01 00:00:00.000"%string).
Definition ticks_250 : list (float * list (option ControllerData)) :=
  replicate 250 (now, [None; None]).

(** An input frame whose raw flow is 7.0. *)
Definition frame_7 : bytes :=
  [x00; x00; x00; xe0; x40; x33; x33; x6b; x41; x00; x00; xbc; x41].

(** A bus on which a single device answers. *)
Definition short_bus : EtherCATManager.ConnectScript :=
  EtherCATManager.mkConnectScript
    (Returns tt) (Returns [unmapped_slave])
    (Returns (fun _ => mapped_slave)) (Returns tt)
    (Returns EtherCATManager.SAFEOP_STATE) (Returns tt) (Returns tt)
    (Returns EtherCATManager.OP_STATE) (Returns tt).

(** A cycle in which both bus calls succeed and every device delivers
    the frame [frame_5000]. *)
Definition good_cycle : EtherCATManager.CycleScript :=
  EtherCATManager.mkCycleScript (Returns tt)
    (Returns (fun _ sl => mkSlave (Some frame_5000) (output sl) (sdo_read sl)))
    (fun _ => now).

(** A cycle in which the transmission fails. *)
Definition bad_cycle : EtherCATManager.CycleScript :=
  EtherCATManager.mkCycleScript (Raises OSError)
    (Returns (fun _ sl => sl)) (fun _ => now).

(** No data callback; an error callback that returns. *)
Definition quiet : EtherCATManager.Callbacks :=
  EtherCATManager.mkCallbacks None (Some (fun _ => Returns tt)).

End Examples.

(* ===================================================================== *)
(** * Theorems                                                           *)
(* ===================================================================== *)

(** ** Sequencing *)

Lemma bind_Returns {A B} (a : A) (k : A -> Result B) : (Returns a ≫= k) = k a.
Proof. reflexivity. Qed.

Lemma bind_Raises {A B} (e : PyExc) (k : A -> Result B) :
  (Raises e ≫= k) = Raises e.
Proof. reflexivity. Qed.

(** Stepping through an [Action]: unfold the sequencing operators only. *)
Ltac step_action :=
  cbv [mbind Action_bind mret Action_ret update call read except_Exception].

(** ** Float comparisons *)

Section FloatOrder.

Lemma SFcompare_antisym (x y : float) :
  SFcompare y x = option_map CompOpp (SFcompare x y).
Proof.
  destruct x as [sx|sx| |sx mx ex], y as [sy|sy| |sy my ey]; simpl;
    try reflexivity;
    try (destruct sx; reflexivity); try (destruct sy; reflexivity);
    try (destruct sx, sy; reflexivity).
  destruct sx, sy; simpl; try reflexivity;
    rewrite (Z.compare_antisym ex ey);
    destruct (ex ?= ey) eqn:E; simpl; try reflexivity;
    rewrite (Pos.compare_cont_antisym mx my Eq); simpl;
    try rewrite CompOpp_involutive; reflexivity.
Qed.

Lemma le_refl (x : float) : PyFloat.is_nan x = false -> PyFloat.le x x = true.
Proof.
  unfold PyFloat.le, SFleb.
  destruct x as [s|s| |s m e]; simpl; try discriminate; intros _.
  - reflexivity.
  - destruct s; reflexivity.
  - destruct s; rewrite Z.compare_refl, Pos.compare_cont_refl; reflexivity.
Qed.

Lemma lt_le (x y : float) : PyFloat.lt x y = true -> PyFloat.le x y = true.
Proof.
  unfold PyFloat.lt, PyFloat.le, SFltb, SFleb.
  destruct (SFcompare x y) as [[]|]; congruence.
Qed.

Lemma lt_not_nan_r (x y : float) : PyFloat.lt x y = true -> PyFloat.is_nan y = false.
Proof.
  unfold PyFloat.lt, SFltb.
  destruct x as [s|s| |s m e], y; simpl; congruence.
Qed.

Lemma le_not_nan_r (x y : float) : PyFloat.le x y = true -> PyFloat.is_nan y = false.
Proof.
  unfold PyFloat.le, SFleb.
  destruct x as [s|s| |s m e], y; simpl; congruence.
Qed.

(** Among numbers, "not strictly below" is "above or equal". *)
Lemma not_lt_le (x y : float) :
  PyFloat.is_nan x = false -> PyFloat.is_nan y = false ->
  PyFloat.lt x y = false -> PyFloat.le y x = true.
Proof.
  unfold PyFloat.lt, PyFloat.le, SFltb, SFleb. intros Hx Hy.
  rewrite (SFcompare_antisym x y).
  destruct (SFcompare x y) as [[]|] eqn:E; simpl; try congruence.
  destruct x, y; simpl in *; congruence.
Qed.

(** The clamp [max(0.0, min(s, fs))] lands in [[0, fs]] for every
    argument [s], NaN and infinities included. *)
Lemma clamp_in_range (s fs : float) :
  PyFloat.le PyFloat.zero fs = true ->
  let r := PyFloat.max PyFloat.zero (PyFloat.min s fs) in
  PyFloat.le PyFloat.zero r = true /\ PyFloat.le r fs = true.
Proof.
  intros Hfs r. subst r. unfold PyFloat.max, PyFloat.gt.
  pose proof (le_not_nan_r _ _ Hfs) as Hn.
  destruct (SFltb PyFloat.zero (PyFloat.min s fs)) eqn:Hpos.
  - split; [apply lt_le; exact Hpos|].
    unfold PyFloat.min in *.
    destruct (PyFloat.lt fs s) eqn:Hlt.
    + apply le_refl; exact Hn.
    + apply not_lt_le; auto. eapply lt_not_nan_r; exact Hpos.
  - split; [reflexivity | exact Hfs].
Qed.

End FloatOrder.

(** ** Binary32 and binary64 *)

Section Rounding.

Lemma digits2_pos_log2 (p : positive) :
  Zpos (digits2_pos p) = Z.log2 (Zpos p) + 1.
Proof.
  assert (Hsize : forall q, digits2_pos q = Pos.size q)
    by (induction q as [q IH|q IH|]; cbn; congruence).
  rewrite Hsize. destruct p as [p|p|]; cbn [Pos.size Z.log2]; lia.
Qed.

Lemma Zdigits2_log2 (m : Z) : 0 < m -> Zdigits2 m = Z.log2 m + 1.
Proof. destruct m as [|p|p]; try lia. intros _. apply digits2_pos_log2. Qed.

Lemma Zdigits2_nonneg (m : Z) : 0 <= Zdigits2 m.
Proof. destruct m; cbn; lia. Qed.

Lemma Zdigits2_mono (a b : Z) : 0 <= a <= b -> Zdigits2 a <= Zdigits2 b.
Proof.
  intros [Ha Hab].
  destruct (Z.eq_dec a 0) as [->|Hne]; [apply Zdigits2_nonneg|].
  rewrite !Zdigits2_log2 by lia.
  pose proof (Z.log2_le_mono a b Hab). lia.
Qed.

Lemma Zdigits2_succ (a : Z) : 0 <= a -> Zdigits2 (a + 1) <= Zdigits2 a + 1.
Proof.
  intros Ha. destruct (Z.eq_dec a 0) as [->|Hne]; [change (1 <= 1); lia|].
  rewrite !Zdigits2_log2 by lia.
  pose proof (Z.log2_succ_le a). unfold Z.succ in *. lia.
Qed.

Lemma digits_lt_pow2 (p : positive) (n : Z) :
  Zpos p < 2 ^ n -> Zpos (digits2_pos p) <= n.
Proof.
  intros H. rewrite digits2_pos_log2.
  apply Z.log2_lt_pow2 in H; lia.
Qed.

Lemma digits_iter_xO (p d : positive) :
  digits2_pos (Pos.iter xO p d) = (digits2_pos p + d)%positive.
Proof.
  induction d as [|d IH] using Pos.peano_ind.
  - cbn. rewrite Pos.add_1_r. reflexivity.
  - rewrite Pos.iter_succ. cbn [digits2_pos]. rewrite IH. lia.
Qed.

Lemma shr_1_bounds (mrs : shr_record) :
  0 <= shr_m mrs -> 0 <= shr_m (shr_1 mrs) <= shr_m mrs.
Proof.
  destruct mrs as [m r s]. destruct m as [|[p|p|]|p]; cbn; lia.
Qed.

Lemma iter_shr_1_bounds (n : positive) (mrs : shr_record) :
  0 <= shr_m mrs -> 0 <= shr_m (SpecFloat.iter_pos shr_1 n mrs) <= shr_m mrs.
Proof.
  revert mrs. induction n as [n IH|n IH|]; intros mrs H;
    cbn [SpecFloat.iter_pos].
  - pose proof (shr_1_bounds mrs H) as H1.
    pose proof (IH (shr_1 mrs) (proj1 H1)) as H2.
    pose proof (IH _ (proj1 H2)). lia.
  - pose proof (IH mrs H) as H1.
    pose proof (IH _ (proj1 H1)). lia.
  - apply shr_1_bounds; exact H.
Qed.

Lemma shr_m_of_loc (m : Z) (l : location) : shr_m (shr_record_of_loc m l) = m.
Proof. destruct l as [|[]]; reflexivity. Qed.

(** A right shift to the format's exponent never increases the
    significand, and the new exponent is the larger of the two. *)
Lemma shr_fexp_bounds (prec emax m e : Z) (l : location) :
  0 <= m ->
  0 <= shr_m (fst (shr_fexp prec emax m e l)) <= m
  /\ snd (shr_fexp prec emax m e l)
     = Z.max e (fexp prec emax (Zdigits2 m + e)).
Proof.
  intros Hm. unfold shr_fexp, shr.
  destruct (fexp prec emax (Zdigits2 m + e) - e) as [|n|n] eqn:En;
    cbn [fst snd]; rewrite ?shr_m_of_loc; try (split; lia).
  pose proof (iter_shr_1_bounds n (shr_record_of_loc m l)) as H.
  rewrite shr_m_of_loc in H. split; [apply H; exact Hm | lia].
Qed.

Lemma round_nearest_even_bounds (m : Z) (l : location) :
  m <= round_nearest_even m l <= m + 1.
Proof.
  unfold round_nearest_even.
  destruct l as [|[]]; try destruct (Z.even m); lia.
Qed.

(** Rounding a number below [2^20] to binary32 does not overflow. *)
Lemma round_single_finite (s : bool) (m e : Z) (l : location) :
  0 <= m -> Zdigits2 m <= 53 -> e <= -4 -> Zdigits2 m + e <= 20 ->
  PyFloat.is_inf (binary_round_aux Struct.prec32 Struct.emax32 s m e l) = false.
Proof.
  intros Hm Hd He Hk. unfold binary_round_aux.
  destruct (shr_fexp_bounds Struct.prec32 Struct.emax32 m e l Hm) as [Hm1 He1].
  destruct (shr_fexp Struct.prec32 Struct.emax32 m e l) as [mrs1 e1].
  cbn [fst snd] in Hm1, He1.
  set (mr := round_nearest_even (shr_m mrs1) (loc_of_shr_record mrs1)).
  pose proof (round_nearest_even_bounds (shr_m mrs1) (loc_of_shr_record mrs1))
    as Hr. fold mr in Hr.
  assert (Hmr : 0 <= mr) by lia.
  destruct (shr_fexp_bounds Struct.prec32 Struct.emax32 mr e1 loc_Exact Hmr)
    as [Hm2 He2].
  destruct (shr_fexp Struct.prec32 Struct.emax32 mr e1 loc_Exact) as [mrs2 e2].
  cbn [fst snd] in Hm2, He2.
  assert (Hdr : Zdigits2 mr <= 54).
  { pose proof (Zdigits2_mono mr (m + 1)).
    pose proof (Zdigits2_succ m Hm). lia. }
  assert (He2' : e2 <= 104).
  { unfold fexp, emin, Struct.prec32, Struct.emax32 in *. lia. }
  destruct (shr_m mrs2); try reflexivity.
  replace (e2 <=? Struct.emax32 - Struct.prec32) with true
    by (symmetry; apply Z.leb_le; unfold Struct.emax32, Struct.prec32; lia).
  reflexivity.
Qed.

Lemma to_single_finite (s : bool) (m : positive) (e : Z) :
  Zpos (digits2_pos m) <= 53 -> e <= -33 ->
  PyFloat.is_inf (Struct.to_single (S754_finite s m e)) = false.
Proof.
  intros Hd He. unfold Struct.to_single, binary_round, shl_align.
  destruct (fexp Struct.prec32 Struct.emax32 (Zpos (digits2_pos m) + e) - e)
    as [|d|d] eqn:Ed.
  - apply round_single_finite; cbn [Zdigits2]; lia.
  - apply round_single_finite; cbn [Zdigits2]; lia.
  - unfold fexp, emin, Struct.prec32, Struct.emax32 in Ed.
    apply round_single_finite; cbn [Zdigits2];
      rewrite ?digits_iter_xO, ?Pos2Z.inj_add;
      unfold fexp, emin, Struct.prec32, Struct.emax32; lia.
Qed.

(** Rounding an exactly represented canonical number changes nothing. *)
Lemma round_canonical (prec emax : Z) (s : bool) (m : positive) (e : Z) :
  canonical_mantissa prec emax m e = true -> e <= emax - prec ->
  binary_round_aux prec emax s (Zpos m) e loc_Exact = S754_finite s m e.
Proof.
  unfold canonical_mantissa. intros Hc He. apply Z.eqb_eq in Hc.
  unfold binary_round_aux, shr_fexp. cbn [Zdigits2 shr_record_of_loc].
  rewrite Hc, Z.sub_diag. cbn [shr shr_m loc_of_shr_record round_nearest_even].
  cbn [Zdigits2 shr_record_of_loc]. rewrite Hc, Z.sub_diag. cbn [shr shr_m].
  replace (e <=? emax - prec) with true by (symmetry; apply Z.leb_le; exact He).
  reflexivity.
Qed.

(** Widening a binary32 significand and exponent to binary64 is exact
    and yields a well-formed binary64 number. *)
Lemma widen_valid (s : bool) (p : positive) (ex : Z) :
  Zpos (digits2_pos p) <= 24 -> -149 <= ex <= 104 ->
  exists m e, binary_round PyFloat.prec PyFloat.emax s p ex = S754_finite s m e
              /\ PyFloat.valid (S754_finite s m e) = true.
Proof.
  intros Hd He. unfold binary_round, shl_align.
  pose proof (Pos2Z.is_pos (digits2_pos p)) as Hpos.
  assert (Hf : fexp PyFloat.prec PyFloat.emax (Zpos (digits2_pos p) + ex)
               = Zpos (digits2_pos p) + ex - 53)
    by (unfold fexp, emin, PyFloat.prec, PyFloat.emax; lia).
  rewrite Hf.
  destruct (Zpos (digits2_pos p) + ex - 53 - ex) as [|d|d] eqn:Ed; try lia.
  assert (Hcanon : canonical_mantissa PyFloat.prec PyFloat.emax
                     (Pos.iter xO p d) (Zpos (digits2_pos p) + ex - 53) = true).
  { unfold canonical_mantissa. apply Z.eqb_eq.
    rewrite digits_iter_xO, Pos2Z.inj_add.
    unfold fexp, emin, PyFloat.prec, PyFloat.emax. lia. }
  assert (Hle : Zpos (digits2_pos p) + ex - 53 <= PyFloat.emax - PyFloat.prec)
    by (unfold PyFloat.prec, PyFloat.emax; lia).
  exists (Pos.iter xO p d), (Zpos (digits2_pos p) + ex - 53).
  split; [apply round_canonical; assumption|].
  unfold PyFloat.valid, valid_binary, bounded. rewrite Hcanon.
  apply Z.leb_le in Hle. rewrite Hle. reflexivity.
Qed.

(** Every 32-bit pattern decodes to a well-formed binary64 number. *)
Lemma float_of_word_valid (w : Z) : PyFloat.valid (Struct.float_of_word w) = true.
Proof.
  unfold Struct.float_of_word.
  assert (Hm : 0 <= Z.land w (Z.ones 23) < 2 ^ 23).
  { rewrite Z.land_ones by lia. apply Z.mod_pos_bound. lia. }
  assert (He : 0 <= Z.land (Z.shiftr w 23) 255 < 2 ^ 8).
  { change 255 with (Z.ones 8). rewrite Z.land_ones by lia.
    apply Z.mod_pos_bound. lia. }
  set (m := Z.land w (Z.ones 23)) in *.
  set (e := Z.land (Z.shiftr w 23) 255) in *.
  destruct (Z.eqb_spec e 255) as [_|He255].
  { destruct (m =? 0); reflexivity. }
  destruct (Z.eqb_spec e 0) as [_|He0].
  - destruct m as [|p|p] eqn:Em; try reflexivity.
    destruct (widen_valid (Z.testbit w 31) p (-149)) as (m' & e' & -> & Hv);
      [|lia|exact Hv].
    pose proof (digits_lt_pow2 p 23). lia.
  - destruct (m + 2 ^ 23) as [|p|p] eqn:Em; try reflexivity.
    destruct (widen_valid (Z.testbit w 31) p (e - 150)) as (m' & e' & -> & Hv);
      [|lia|exact Hv].
    pose proof (digits_lt_pow2 p 24). lia.
Qed.

Lemma valid_digits (s : bool) (m : positive) (e : Z) :
  PyFloat.valid (S754_finite s m e) = true -> Zpos (digits2_pos m) <= 53.
Proof.
  unfold PyFloat.valid, valid_binary, bounded, canonical_mantissa.
  intros H. apply andb_prop in H as [H _]. apply Z.eqb_eq in H.
  unfold fexp, emin, PyFloat.prec, PyFloat.emax in H. lia.
Qed.

Lemma of_Z_million :
  PyFloat.of_Z 1000000 = S754_finite false 8589934592000000 (-33).
Proof. vm_compute. reflexivity. Qed.

Lemma of_Z_one : PyFloat.of_Z 1 = S754_finite false 4503599627370496 (-52).
Proof. vm_compute. reflexivity. Qed.

(** A usable scale is a positive finite number below [2^20]. *)
Lemma scale_ok_finite (fs : float) :
  scale_ok fs ->
  exists m e, fs = S754_finite false m e
              /\ Zpos (digits2_pos m) <= 53 /\ e <= -33.
Proof.
  intros (Hv & H1 & H2). rewrite of_Z_one in H1. rewrite of_Z_million in H2.
  destruct fs as [s|s| |s m e]; try destruct s;
    try (cbv [PyFloat.le SFleb SFcompare] in H1; discriminate H1);
    try (cbv [PyFloat.le SFleb SFcompare] in H2; discriminate H2).
  exists m, e. split; [reflexivity|]. split; [apply (valid_digits _ _ _ Hv)|].
  unfold PyFloat.le, SFleb, SFcompare in H2.
  destruct (Z.compare_spec e (-33)); try lia; discriminate H2.
Qed.

(** A usable scale always packs as a binary32 field. *)
Lemma pack_f_scale (fs : float) :
  scale_ok fs -> exists b, Struct.pack_f fs = Returns b.
Proof.
  intros Hok. destruct (scale_ok_finite fs Hok) as (m & e & -> & Hd & He).
  unfold Struct.pack_f. rewrite to_single_finite by assumption.
  eexists. reflexivity.
Qed.

Lemma pack_frame_scale (fs : float) :
  scale_ok fs -> exists b, Struct.pack_fBfI fs 0 PyFloat.zero 0 = Returns b.
Proof.
  intros Hok. destruct (pack_f_scale fs Hok) as [b Hb].
  unfold Struct.pack_fBfI. rewrite Hb, bind_Returns.
  eexists. vm_compute. reflexivity.
Qed.

Lemma scale_ok_positive (fs : float) :
  scale_ok fs ->
  PyFloat.lt PyFloat.zero fs = true /\ PyFloat.lt fs PyFloat.inf = true.
Proof.
  intros Hok. destruct (scale_ok_finite fs Hok) as (m & e & -> & _).
  split; reflexivity.
Qed.

End Rounding.

(** ** BrooksDriver *)

Section Driver.

Import BrooksDriver.

Lemma unpack_f_four (b0 b1 b2 b3 : byte) :
  Struct.unpack_f [b0; b1; b2; b3]
  = Returns (Struct.float_of_word (Struct.word_of_bytes b0 b1 b2 b3)).
Proof. reflexivity. Qed.

(** A frame of at least 13 bytes has the three 4-byte fields. *)
Lemma frame_fields (frame : bytes) :
  (13 <= length frame)%nat ->
  exists s0 r0 r1 r2 r3 p0 p1 p2 p3 t0 t1 t2 t3 rest,
    frame = s0 :: r0 :: r1 :: r2 :: r3 :: p0 :: p1 :: p2 :: p3
               :: t0 :: t1 :: t2 :: t3 :: rest.
Proof.
  intros H.
  do 13 (destruct frame as [|? frame]; [simpl in H; lia|]).
  repeat eexists.
Qed.

Lemma read_full_scale_fields (d : t) :
  slave (fst (_read_full_scale d)) = slave d
  /\ controller_id (fst (_read_full_scale d)) = controller_id d
  /\ _setpoint (fst (_read_full_scale d)) = _setpoint d.
Proof.
  unfold _read_full_scale.
  destruct (read_full_scale_try d) as [[fs|]|e]; simpl; auto.
Qed.

Lemma init_fields (slave : option Slave) (id : Z) :
  BrooksDriver.slave (__init__ slave id) = slave
  /\ controller_id (__init__ slave id) = id
  /\ get_setpoint (__init__ slave id) = PyFloat.zero.
Proof.
  unfold __init__, get_setpoint.
  match goal with |- context [_read_full_scale ?d0] =>
    destruct (read_full_scale_fields d0) as (Hs & Hc & Hp) end.
  rewrite Hs, Hc, Hp. repeat split.
Qed.

Lemma init_full_scale (slave : option Slave) (id : Z) :
  full_scale (__init__ slave id) =
    match slave with
    | None => default_full_scale
    | Some sl =>
        match sdo_read sl Config.SDO_FULL_SCALE_INDEX
                       Config.SDO_FULL_SCALE_SUBINDEX 4 with
        | Returns (Some (b0 :: b1 :: b2 :: b3 :: _)) =>
            let v := Struct.float_of_word (Struct.word_of_bytes b0 b1 b2 b3) in
            if PyFloat.le (PyFloat.of_Z 1) v && PyFloat.le v (PyFloat.of_Z 1000000)
            then v
            else default_full_scale
        | Returns (Some _) => default_full_scale
        | Returns None => default_full_scale
        | Raises _ => default_full_scale
        end
    end.
Proof.
  unfold __init__, _read_full_scale, read_full_scale_try.
  cbn [BrooksDriver.slave].
  destruct slave as [sl|]; [|reflexivity].
  destruct (sdo_read sl _ _ _) as [[data|]|e]; try reflexivity.
  rewrite bind_Returns.
  destruct data as [|b0 [|b1 [|b2 [|b3 rest]]]]; try reflexivity.
  replace (4 <=? len (b0 :: b1 :: b2 :: b3 :: rest)) with true
    by (symmetry; apply Z.leb_le; unfold len; simpl length; lia).
  cbn [truthy_bytes andb firstn].
  rewrite unpack_f_four, bind_Returns.
  destruct (PyFloat.le _ _ && PyFloat.le _ _); reflexivity.
Qed.

Lemma one_le_zero_le (x : float) :
  PyFloat.le (PyFloat.of_Z 1) x = true -> PyFloat.le PyFloat.zero x = true.
Proof.
  destruct x as [s|s| |s m e]; try destruct s; intros H;
    try reflexivity; vm_compute in H; discriminate.
Qed.

(** The scale of a constructed driver lies in [[1.0, 1000000.0]]. *)
Lemma init_full_scale_range (slave : option Slave) (id : Z) :
  PyFloat.le (PyFloat.of_Z 1) (full_scale (__init__ slave id)) = true
  /\ PyFloat.le (full_scale (__init__ slave id)) (PyFloat.of_Z 1000000) = true.
Proof.
  rewrite init_full_scale.
  assert (Hd : PyFloat.le (PyFloat.of_Z 1) default_full_scale = true
               /\ PyFloat.le default_full_scale (PyFloat.of_Z 1000000) = true)
    by (vm_compute; auto).
  destruct slave as [sl|]; [|exact Hd].
  destruct (sdo_read sl _ _ _) as [[data|]|e]; try exact Hd.
  destruct data as [|b0 [|b1 [|b2 [|b3 rest]]]]; try exact Hd.
  cbv zeta.
  set (v := Struct.float_of_word _).
  destruct (PyFloat.le (PyFloat.of_Z 1) v) eqn:H1; [|exact Hd].
  destruct (PyFloat.le v (PyFloat.of_Z 1000000)) eqn:H2; [|exact Hd].
  cbn [andb]. auto.
Qed.

(** Neither call changes the scale. *)
Lemma driver_step_full_scale (d : t) (c : DriverCall) :
  full_scale (driver_step d c) = full_scale d.
Proof.
  destruct c as [sp|sl]; [|reflexivity].
  unfold driver_step, write_setpoint.
  destruct (slave d) as [sl|]; [|reflexivity].
  destruct (negb (truthy_bytes (output sl))); [reflexivity|].
  destruct (Struct.pack_fBfI _ _ _ _) as [data|[]]; reflexivity.
Qed.

Lemma driver_run_full_scale (calls : list DriverCall) (d : t) :
  full_scale (driver_run d calls) = full_scale d.
Proof.
  revert d. induction calls as [|c calls IH]; intros d; [reflexivity|].
  unfold driver_run in *. cbn [foldl]. rewrite IH. apply driver_step_full_scale.
Qed.

(** After [write_setpoint] the stored setpoint is either the old one
    (call rejected) or the clamped argument. *)
Lemma write_setpoint_stored (d : t) (sp : float) :
  get_setpoint (fst (write_setpoint d sp)) =
    if truthy_bytes (output_buffer d)
    then PyFloat.max PyFloat.zero (PyFloat.min sp (full_scale d))
    else get_setpoint d.
Proof.
  unfold write_setpoint, output_buffer, get_setpoint.
  destruct (slave d) as [sl|]; [|reflexivity].
  cbn [mbind option_bind].
  destruct (truthy_bytes (output sl)); [|reflexivity].
  cbn [negb].
  destruct (Struct.pack_fBfI _ _ _ _) as [data|[]]; reflexivity.
Qed.

Lemma driver_step_in_range (d : t) (c : DriverCall) :
  PyFloat.le PyFloat.zero (full_scale d) = true ->
  in_range d -> in_range (driver_step d c).
Proof.
  intros Hfs Hd. unfold in_range. rewrite driver_step_full_scale.
  destruct c as [sp|sl]; [|exact Hd].
  unfold driver_step. rewrite write_setpoint_stored.
  destruct (truthy_bytes (output_buffer d)); [|exact Hd].
  apply clamp_in_range; exact Hfs.
Qed.

Lemma driver_run_in_range (calls : list DriverCall) (d : t) :
  PyFloat.le PyFloat.zero (full_scale d) = true ->
  in_range d -> in_range (driver_run d calls).
Proof.
  revert d. induction calls as [|c calls IH]; intros d Hfs Hd; [exact Hd|].
  unfold driver_run in *. cbn [foldl]. apply IH.
  - rewrite driver_step_full_scale; exact Hfs.
  - apply driver_step_in_range; assumption.
Qed.

End Driver.

(** C8. Scale discovery at construction: the reply of the 4-byte object
    read is decoded as a little-endian binary32 value, which becomes
    [full_scale] exactly when it lies in [[1.0, 1000000.0]]; an
    out-of-range value, a short or missing reply, an exception of the
    read, or a missing slave object leave the default 30000.0, and the
    constructor returns a driver in every case. *)
Theorem scale_discovery (slave : option Slave) (id : Z) :
  let d := BrooksDriver.__init__ slave id in
  BrooksDriver.slave d = slave
  /\ BrooksDriver.controller_id d = id
  /\ BrooksDriver.get_setpoint d = PyFloat.zero
  /\ BrooksDriver.default_full_scale = PyFloat.of_Z 30000
  /\ BrooksDriver.full_scale d =
      match slave with
      | None => BrooksDriver.default_full_scale
      | Some sl =>
          match sdo_read sl Config.SDO_FULL_SCALE_INDEX
                         Config.SDO_FULL_SCALE_SUBINDEX 4 with
          | Returns (Some (b0 :: b1 :: b2 :: b3 :: _)) =>
              let v := Struct.float_of_word (Struct.word_of_bytes b0 b1 b2 b3) in
              if PyFloat.le (PyFloat.of_Z 1) v && PyFloat.le v (PyFloat.of_Z 1000000)
              then v
              else BrooksDriver.default_full_scale
          | Returns (Some _) => BrooksDriver.default_full_scale
          | Returns None => BrooksDriver.default_full_scale
          | Raises _ => BrooksDriver.default_full_scale
          end
      end.
Proof.
  intros d. subst d.
  destruct (init_fields slave id) as (Hs & Hc & Hp).
  repeat split; auto. apply init_full_scale.
Qed.

(** The two replies of the specification's example: 30000.0 is accepted,
    0.5 is rejected. *)
Example scale_discovery_examples :
  BrooksDriver.full_scale
    (BrooksDriver.__init__ (Some (mkSlave None None Examples.sdo_30000)) 0)
    = PyFloat.of_Z 30000
  /\ BrooksDriver.full_scale
    (BrooksDriver.__init__ (Some (mkSlave None None Examples.sdo_half)) 0)
    = BrooksDriver.default_full_scale
  /\ Struct.unpack_f [x00; x00; x00; x3f]
     = Returns (PyFloat.div (PyFloat.of_Z 1) (PyFloat.of_Z 2)).
Proof. vm_compute. repeat split. Qed.

(** C2. Whatever sequence of [write_setpoint] calls (any float argument,
    NaN and infinities included) and buffer updates a constructed driver
    goes through, [get_setpoint] stays within [[0, full_scale]]; with
    [full_scale = 30000] an accepted [write_setpoint(-5)] stores 0.0 and
    an accepted [write_setpoint(50000)] stores 30000.0. *)
Theorem setpoint_always_in_range (slave : option Slave) (id : Z)
    (calls : list DriverCall) :
  let d := driver_run (BrooksDriver.__init__ slave id) calls in
  (PyFloat.le PyFloat.zero (BrooksDriver.get_setpoint d) = true
   /\ PyFloat.le (BrooksDriver.get_setpoint d) (BrooksDriver.full_scale d) = true)
  /\ (BrooksDriver.full_scale d = PyFloat.of_Z 30000 ->
      truthy_bytes (output_buffer d) = true ->
      BrooksDriver.get_setpoint
        (fst (BrooksDriver.write_setpoint d (PyFloat.of_Z (-5)))) = PyFloat.zero
      /\ BrooksDriver.get_setpoint
        (fst (BrooksDriver.write_setpoint d (PyFloat.of_Z 50000))) = PyFloat.of_Z 30000).
Proof.
  intros d. split.
  - subst d. apply driver_run_in_range.
    + apply one_le_zero_le, init_full_scale_range.
    + destruct (init_fields slave id) as (_ & _ & Hp).
      unfold in_range. rewrite Hp. split; [reflexivity|].
      apply one_le_zero_le, init_full_scale_range.
  - intros Hfs Hout. rewrite !write_setpoint_stored, Hout, Hfs.
    split; vm_compute; reflexivity.
Qed.

Lemma setpoint_always_in_range_witness :
  BrooksDriver.get_setpoint
    (fst (BrooksDriver.write_setpoint Examples.commanded_driver
            (PyFloat.of_Z (-5)))) = PyFloat.zero
  /\ BrooksDriver.get_setpoint
    (fst (BrooksDriver.write_setpoint Examples.commanded_driver
            (PyFloat.of_Z 50000))) = PyFloat.of_Z 30000.
Proof.
  apply (setpoint_always_in_range (Some Examples.mapped_slave) 0
           [WriteSetpoint (PyFloat.of_Z (-5)); WriteSetpoint PyFloat.nan]).
  - vm_compute; reflexivity.
  - vm_compute; reflexivity.
Defined.

(** C10. A driver without an output buffer (no slave object, or an
    [output] that is [None] or empty, as before process-data mapping)
    rejects every [write_setpoint]: the call returns [False] and the
    driver, its stored setpoint included, is unchanged. *)
Theorem write_setpoint_unmapped (d : BrooksDriver.t) (sp : float) :
  truthy_bytes (output_buffer d) = false ->
  BrooksDriver.write_setpoint d sp = (d, Returns false).
Proof.
  unfold output_buffer, BrooksDriver.write_setpoint.
  destruct (BrooksDriver.slave d) as [sl|]; [|reflexivity].
  cbn [mbind option_bind]. intros ->. reflexivity.
Qed.

Lemma write_setpoint_unmapped_witness :
  BrooksDriver.write_setpoint Examples.unmapped_driver (PyFloat.of_Z 1000)
  = (Examples.unmapped_driver, Returns false).
Proof.
  apply (write_setpoint_unmapped Examples.unmapped_driver (PyFloat.of_Z 1000)).
  reflexivity.
Defined.

(** C5. When the input frame is absent (no slave object, [input] is
    [None] or empty) or shorter than 13 bytes, [read_data] returns [None]
    and raises nothing. *)
Theorem read_data_no_frame (now : float) (d : BrooksDriver.t) :
  match input_frame d with
  | None => True
  | Some frame => (length frame < 13)%nat
  end ->
  BrooksDriver.read_data now d = Returns None.
Proof.
  unfold input_frame, BrooksDriver.read_data.
  destruct (BrooksDriver.slave d) as [sl|]; [|reflexivity].
  cbn [mbind option_bind].
  destruct (input sl) as [frame|]; [|reflexivity].
  intros H.
  replace (len frame <? 13) with true
    by (symmetry; apply Z.ltb_lt; unfold len; lia).
  rewrite orb_true_r. reflexivity.
Qed.

Lemma read_data_no_frame_witness :
  BrooksDriver.read_data Examples.now
    (BrooksDriver.__init__ (Some (mkSlave (Some [x00; x01; x02]) None Examples.no_sdo)) 0)
  = Returns None.
Proof.
  apply read_data_no_frame. vm_compute. lia.
Defined.

(** C1, as the code has it. With a slave object and an input frame of at
    least 13 bytes, [read_data] returns a sample: the three 4-byte fields
    at [[1:5)], [[5:9)] and [[9:13)] always decode, the flow is
    [((raw / 100.0) * full_scale) / 100.0] evaluated in binary64 in this
    order, pressure and temperature are the decoded fields, the setpoint
    is the stored one; with [full_scale = 30000] and [raw = 5000.0] the
    flow is 15000.0. *)
Theorem read_data_decodes (now : float) (d : BrooksDriver.t) (frame : bytes) :
  input_frame d = Some frame ->
  (13 <= length frame)%nat ->
  exists raw p t : float,
    Struct.unpack_f (slice 1 5 frame) = Returns raw
    /\ Struct.unpack_f (slice 5 9 frame) = Returns p
    /\ Struct.unpack_f (slice 9 13 frame) = Returns t
    /\ BrooksDriver.read_data now d =
       Returns (Some
         {| timestamp := now;
            flow := PyFloat.div
                      (PyFloat.mul (PyFloat.div raw (PyFloat.of_Z 100))
                                   (BrooksDriver.full_scale d))
                      (PyFloat.of_Z 100);
            pressure := p;
            temperature := t;
            setpoint := BrooksDriver.get_setpoint d |})
    /\ PyFloat.div
         (PyFloat.mul (PyFloat.div (PyFloat.of_Z 5000) (PyFloat.of_Z 100))
                      (PyFloat.of_Z 30000))
         (PyFloat.of_Z 100) = PyFloat.of_Z 15000.
Proof.
  unfold input_frame, BrooksDriver.read_data. intros Hin Hlen.
  destruct (BrooksDriver.slave d) as [sl|]; [|discriminate].
  cbn [mbind option_bind] in Hin. rewrite Hin.
  destruct (frame_fields frame Hlen)
    as (s0 & r0 & r1 & r2 & r3 & p0 & p1 & p2 & p3 & t0 & t1 & t2 & t3 & rest & ->).
  replace (len _ <? 13) with false
    by (symmetry; apply Z.ltb_ge; unfold len; simpl length; lia).
  cbn [truthy_bytes negb orb].
  unfold BrooksDriver.read_data_try.
  change (slice 1 5 _) with [r0; r1; r2; r3].
  change (slice 5 9 _) with [p0; p1; p2; p3].
  change (slice 9 13 _) with [t0; t1; t2; t3].
  rewrite !unpack_f_four.
  do 3 eexists. do 4 (split; [reflexivity|]).
  vm_compute. reflexivity.
Qed.

Lemma read_data_decodes_witness :
  exists raw p t : float,
    Struct.unpack_f (slice 1 5 Examples.frame_5000) = Returns raw
    /\ Struct.unpack_f (slice 5 9 Examples.frame_5000) = Returns p
    /\ Struct.unpack_f (slice 9 13 Examples.frame_5000) = Returns t
    /\ BrooksDriver.read_data Examples.now Examples.driver =
       Returns (Some
         {| timestamp := Examples.now;
            flow := PyFloat.div
                      (PyFloat.mul (PyFloat.div raw (PyFloat.of_Z 100))
                                   (BrooksDriver.full_scale Examples.driver))
                      (PyFloat.of_Z 100);
            pressure := p;
            temperature := t;
            setpoint := BrooksDriver.get_setpoint Examples.driver |})
    /\ PyFloat.div
         (PyFloat.mul (PyFloat.div (PyFloat.of_Z 5000) (PyFloat.of_Z 100))
                      (PyFloat.of_Z 30000))
         (PyFloat.of_Z 100) = PyFloat.of_Z 15000.
Proof.
  apply (read_data_decodes Examples.now Examples.driver Examples.frame_5000).
  - reflexivity.
  - vm_compute. lia.
Defined.

(** C1 as stated fails on its own example: with [full_scale = 30000] and
    a frame whose bytes [[1:5)] encode 5000.0, the decoded flow is
    15000.0, not 1500.0. *)
Lemma read_data_flow_5000_is_not_1500 :
  BrooksDriver.full_scale Examples.driver = PyFloat.of_Z 30000
  /\ Struct.unpack_f (slice 1 5 Examples.frame_5000) = Returns (PyFloat.of_Z 5000)
  /\ exists s : ControllerData,
       BrooksDriver.read_data Examples.now Examples.driver = Returns (Some s)
       /\ flow s = PyFloat.of_Z 15000
       /\ flow s <> PyFloat.of_Z 1500.
Proof.
  split; [vm_compute; reflexivity|].
  split; [vm_compute; reflexivity|].
  eexists. split; [vm_compute; reflexivity|].
  split; [vm_compute; reflexivity|].
  vm_compute. discriminate.
Qed.

(** The order of the operations matters in binary64: for [raw = 7.0] and
    [full_scale = 30000] the code's [((raw / 100) * fs) / 100] is 21.0,
    while [((raw / 100) / 100) * fs] is the next float above 21.0. *)
Example flow_operation_order :
  exists s : ControllerData,
    BrooksDriver.read_data Examples.now
      (driver_step Examples.driver
         (BusExchange (Some (mkSlave (Some Examples.frame_7) None Examples.no_sdo))))
    = Returns (Some s)
    /\ flow s = PyFloat.of_Z 21
    /\ PyFloat.mul
         (PyFloat.div (PyFloat.div (PyFloat.of_Z 7) (PyFloat.of_Z 100))
                      (PyFloat.of_Z 100))
         (PyFloat.of_Z 30000) <> flow s.
Proof.
  eexists. split; [vm_compute; reflexivity|].
  split; [vm_compute; reflexivity|].
  vm_compute. discriminate.
Qed.

(** ** DataManager *)

Section History.

Import DataManager.

Lemma tail_drop {A} (l : list A) : tail l = drop 1 l.
Proof. destruct l; reflexivity. Qed.

Lemma length_last_n {A} (n : nat) (l : list A) :
  (length (last_n n l) <= n)%nat.
Proof. unfold last_n. rewrite length_drop. lia. Qed.

(** Appending to a bounded deque keeps the last [cap] elements. *)
Lemma deque_append_last_n {A} (cap : nat) (d : Deque.t A) (all : list A) (x : A) :
  Deque.maxlen d = Z.of_nat cap ->
  Deque.items d = last_n cap all ->
  Deque.maxlen (Deque.append d x) = Z.of_nat cap
  /\ Deque.items (Deque.append d x) = last_n cap (all ++ [x]).
Proof.
  intros Hmax Hitems. unfold Deque.append. rewrite Hitems, Hmax.
  unfold len, last_n. rewrite !length_app, length_drop. cbn [length].
  destruct (Z.ltb_spec (Z.of_nat cap)
              (Z.of_nat (length all - (length all - cap) + 1))) as [H|H];
    cbn [Deque.items Deque.maxlen]; (split; [reflexivity|]).
  - rewrite tail_drop.
    rewrite <- (drop_app_le all [x]) by lia.
    rewrite drop_drop. f_equal. lia.
  - replace (length all - cap)%nat with 0%nat by lia.
    replace (length all + 1 - cap)%nat with 0%nat by lia.
    reflexivity.
Qed.

Lemma append_sample_holds (cap : nat) (h : History)
    (samples : list ControllerData) (d : ControllerData) :
  holds_last cap h samples ->
  holds_last cap (append_sample d h) (samples ++ [d]).
Proof.
  unfold holds_last, append_sample. cbn.
  intros ((?&?)&(?&?)&(?&?)&(?&?)&(?&?)).
  rewrite !fmap_app. cbn [fmap list_fmap].
  do 4 (split; [apply deque_append_last_n; assumption|]).
  apply deque_append_last_n; assumption.
Qed.

Lemma new_history_holds (cap : Z) (h : History) :
  new_history cap = Returns h -> 0 <= cap /\ holds_last (Z.to_nat cap) h [].
Proof.
  unfold new_history, Deque.create.
  destruct (Z.ltb_spec cap 0) as [H|H]; [discriminate|].
  rewrite !bind_Returns. intros [= <-]. split; [exact H|].
  unfold holds_last. cbn. rewrite Z2Nat.id by exact H.
  repeat split.
Qed.

Lemma init_history_holds (n : nat) (cap : Z) (hs : list History) :
  init_history n cap = Returns hs ->
  length hs = n
  /\ forall i h, hs !! i = Some h -> 0 <= cap /\ holds_last (Z.to_nat cap) h [].
Proof.
  revert hs. induction n as [|n IH]; intros hs; cbn [init_history].
  - intros [= <-]. split; [reflexivity|]. intros i h Hi. discriminate.
  - destruct (new_history cap) as [h0|e] eqn:Hh; [|discriminate].
    rewrite bind_Returns.
    destruct (init_history n cap) as [rest|e]; [|discriminate].
    rewrite bind_Returns. intros [= <-].
    destruct (IH rest eq_refl) as [Hlen Hrest].
    split; [cbn; congruence|].
    intros [|i] h Hi; cbn in Hi.
    + injection Hi as <-. apply new_history_holds; exact Hh.
    + eapply Hrest; exact Hi.
Qed.

Lemma update_one_params (i : nat) (data : option ControllerData) (dm : t) :
  num_controllers (update_one i data dm) = num_controllers dm
  /\ max_points (update_one i data dm) = max_points dm
  /\ length (history (update_one i data dm)) = length (history dm).
Proof.
  unfold update_one. destruct data as [d|]; [|auto].
  destruct (Z.of_nat i <? num_controllers dm); cbn; auto.
  rewrite length_alter. auto.
Qed.

Lemma update_from_params (batch : list (option ControllerData)) (i : nat) (dm : t) :
  num_controllers (update_from i batch dm) = num_controllers dm
  /\ max_points (update_from i batch dm) = max_points dm
  /\ length (history (update_from i batch dm)) = length (history dm).
Proof.
  revert i dm. induction batch as [|data rest IH]; intros i dm; cbn [update_from].
  - auto.
  - destruct (IH (S i) (update_one i data dm)) as (-> & -> & ->).
    apply update_one_params.
Qed.

(** Effect of the loop body on the history entry of channel [j]. *)
Lemma update_one_history (i j : nat) (data : option ControllerData) (dm : t) :
  (j < length (history dm))%nat ->
  Z.of_nat (length (history dm)) = Z.max 0 (num_controllers dm) ->
  history (update_one i data dm) !! j =
    match (if decide (i = j) then data else None) with
    | Some d => append_sample d <$> history dm !! j
    | None => history dm !! j
    end.
Proof.
  intros Hj Hlen. unfold update_one.
  destruct data as [d|]; [|destruct (decide (i = j)); reflexivity].
  destruct (decide (i = j)) as [->|Hne].
  - replace (Z.of_nat j <? num_controllers dm) with true
      by (symmetry; apply Z.ltb_lt; lia).
    cbn. apply list_lookup_alter_eq.
  - destruct (Z.of_nat i <? num_controllers dm); [|reflexivity].
    cbn. apply list_lookup_alter_ne; exact Hne.
Qed.

Lemma update_from_history (batch : list (option ControllerData)) (i j : nat) (dm : t) :
  (j < length (history dm))%nat ->
  Z.of_nat (length (history dm)) = Z.max 0 (num_controllers dm) ->
  history (update_from i batch dm) !! j =
    match (if decide (i <= j)%nat then delivered batch (j - i) else None) with
    | Some d => append_sample d <$> history dm !! j
    | None => history dm !! j
    end.
Proof.
  revert i dm. induction batch as [|data rest IH]; intros i dm Hj Hlen;
    cbn [update_from].
  - unfold delivered. rewrite lookup_nil. destruct (decide _); reflexivity.
  - destruct (update_one_params i data dm) as (Hn & _ & Hl).
    rewrite IH by (rewrite ?Hl, ?Hn; assumption).
    rewrite update_one_history by assumption.
    unfold delivered.
    destruct (decide (i = j)) as [->|Hne].
    + rewrite decide_False by lia. rewrite decide_True by lia.
      rewrite Nat.sub_diag. cbn. destruct data; reflexivity.
    + destruct (decide (S i <= j)%nat) as [Hle|Hgt].
      * rewrite decide_True by lia.
        replace (j - i)%nat with (S (j - S i)) by lia. reflexivity.
      * rewrite decide_False by lia. reflexivity.
Qed.

Lemma update_data_history (batch : list (option ControllerData)) (j : nat) (dm : t) :
  (j < length (history dm))%nat ->
  Z.of_nat (length (history dm)) = Z.max 0 (num_controllers dm) ->
  history (update_data dm batch) !! j =
    match delivered batch j with
    | Some d => append_sample d <$> history dm !! j
    | None => history dm !! j
    end.
Proof.
  intros Hj Hlen. unfold update_data.
  rewrite update_from_history by assumption.
  rewrite decide_True by lia. rewrite Nat.sub_0_r. reflexivity.
Qed.

Lemma update_data_params (batch : list (option ControllerData)) (dm : t) :
  num_controllers (update_data dm batch) = num_controllers dm
  /\ length (history (update_data dm batch)) = length (history dm).
Proof.
  unfold update_data.
  destruct (update_from_params batch 0 dm) as (H1 & _ & H2). auto.
Qed.

Lemma run_updates_params (batches : list (list (option ControllerData))) (dm : t) :
  num_controllers (run_updates dm batches) = num_controllers dm
  /\ length (history (run_updates dm batches)) = length (history dm).
Proof.
  unfold run_updates.
  induction batches as [|b bs IH] using rev_ind; [auto|].
  rewrite foldl_snoc.
  destruct (update_data_params b (foldl update_data dm bs)) as [-> ->].
  exact IH.
Qed.

(** The invariant of a series of updates. *)
Lemma run_updates_holds (cap : nat) (batches : list (list (option ControllerData)))
    (dm : t) :
  Z.of_nat (length (history dm)) = Z.max 0 (num_controllers dm) ->
  (forall j h, history dm !! j = Some h -> holds_last cap h []) ->
  forall j h, history (run_updates dm batches) !! j = Some h ->
              holds_last cap h (channel_samples j batches).
Proof.
  intros Hlen Hinit.
  induction batches as [|batch batches IH] using rev_ind; [exact Hinit|].
  intros j h.
  destruct (run_updates_params batches dm) as [Hn Hl].
  unfold run_updates, channel_samples in *.
  rewrite foldl_snoc, omap_app. intros Hj.
  assert (Hjl : (j < length (history (foldl update_data dm batches)))%nat).
  { apply lookup_lt_Some in Hj.
    destruct (update_data_params batch (foldl update_data dm batches)) as [_ Hl'].
    rewrite Hl' in Hj. exact Hj. }
  rewrite update_data_history in Hj
    by (try assumption; rewrite Hl, Hn; assumption).
  cbn [omap list_omap].
  destruct (delivered batch j) as [d|].
  - destruct (history (foldl update_data dm batches) !! j) as [h0|] eqn:H0;
      [|discriminate].
    injection Hj as <-. apply append_sample_holds. apply IH. exact H0.
  - rewrite app_nil_r. apply IH. exact Hj.
Qed.

End History.

(** C6. After any series of [update_data] calls on a freshly constructed
    [DataManager], every deque of every channel's history has at most
    [max_points] elements (200 in the application), and holds exactly the
    last [max_points] values delivered for that channel, in the order of
    delivery; so after [max_points + k] samples the first [k] are gone. *)
Theorem history_bounded (n cap : Z) (dm : DataManager.t)
    (batches : list (list (option ControllerData))) (i : nat)
    (h : DataManager.History) :
  DataManager.__init__ n cap = Returns dm ->
  DataManager.history (run_updates dm batches) !! i = Some h ->
  let samples := channel_samples i batches in
  let keeps (d : Deque.t float) (field : ControllerData -> float) :=
    len (Deque.items d) <= cap
    /\ Deque.items d = last_n (Z.to_nat cap) (field <$> samples)
    /\ (forall k : nat, length samples = (Z.to_nat cap + k)%nat ->
        Deque.items d = drop k (field <$> samples)) in
  Config.MAX_HISTORY_POINTS = 200
  /\ keeps (DataManager.h_time h) timestamp
  /\ keeps (DataManager.h_flow h) flow
  /\ keeps (DataManager.h_pressure h) pressure
  /\ keeps (DataManager.h_temperature h) temperature
  /\ keeps (DataManager.h_setpoint h) setpoint.
Proof.
  unfold DataManager.__init__. intros Hinit Hh.
  destruct (DataManager.init_history (Z.to_nat n) cap) as [hs|e] eqn:Hhs;
    [|discriminate].
  rewrite bind_Returns in Hinit. injection Hinit as <-.
  destruct (init_history_holds _ _ _ Hhs) as [Hlen Hall].
  set (dm0 := DataManager.mk n cap hs _ _) in *.
  assert (Hi : (i < length hs)%nat).
  { apply lookup_lt_Some in Hh.
    destruct (run_updates_params batches dm0) as [_ Hl].
    rewrite Hl in Hh. exact Hh. }
  destruct (lookup_lt_is_Some_2 hs i Hi) as [h0 Hh0].
  destruct (Hall i h0 Hh0) as [Hcap _].
  assert (Hok : holds_last (Z.to_nat cap) h (channel_samples i batches)).
  { apply (run_updates_holds (Z.to_nat cap) batches dm0).
    - subst dm0. cbn. lia.
    - intros j hj Hj. apply (Hall j hj Hj).
    - exact Hh. }
  cbv zeta. split; [reflexivity|].
  assert (Hk : forall (d : Deque.t float) (field : ControllerData -> float),
             Deque.maxlen d = Z.of_nat (Z.to_nat cap)
             /\ Deque.items d
                = last_n (Z.to_nat cap) (field <$> channel_samples i batches) ->
             len (Deque.items d) <= cap
             /\ Deque.items d
                = last_n (Z.to_nat cap) (field <$> channel_samples i batches)
             /\ (forall k : nat,
                   length (channel_samples i batches) = (Z.to_nat cap + k)%nat ->
                   Deque.items d = drop k (field <$> channel_samples i batches))).
  { intros d field [_ Hitems]. rewrite Hitems. split; [|split].
    - unfold len. pose proof (length_last_n (Z.to_nat cap)
                                (field <$> channel_samples i batches)). lia.
    - reflexivity.
    - intros k Hk. unfold last_n. rewrite length_fmap, Hk. f_equal. lia. }
  destruct Hok as (H1 & H2 & H3 & H4 & H5).
  repeat (split; [apply Hk; assumption|]). apply Hk; assumption.
Qed.

Lemma history_bounded_witness :
  DataManager.history
    (run_updates Examples.data_manager Examples.three_batches) !! 0%nat
  = Some Examples.final_history
  /\ Deque.items (DataManager.h_flow Examples.final_history)
     = [PyFloat.of_Z 2; PyFloat.of_Z 3].
Proof.
  split; [vm_compute; reflexivity|].
  destruct (history_bounded 1 2 Examples.data_manager Examples.three_batches 0
              Examples.final_history) as (_ & _ & (_ & _ & Hdrop) & _).
  - vm_compute; reflexivity.
  - vm_compute; reflexivity.
  - rewrite (Hdrop 1%nat); vm_compute; reflexivity.
Defined.

(** ** DataRecorder *)

(** C7, as the code has it. [start_recording] returns [False] when the
    destination cannot be opened and the recorder is idle: the recording
    flag stays inactive and only the remembered path changes.  There is no
    guard against an active session: whenever the destination opens and
    the header is written and flushed, the call returns [True] with the
    new file, a fresh buffer and the flag set, whatever the previous
    state was. *)
Theorem start_recording_outcomes (fs : DataRecorder.FsScript) (filepath : string)
    (num_controllers : Z) (r : DataRecorder.t) :
  (forall e, DataRecorder.open_result fs = Raises e -> idle r ->
     DataRecorder.start_recording fs filepath num_controllers r
     = (DataRecorder.set_filepath (Some filepath) r, Returns false)
     /\ idle (DataRecorder.set_filepath (Some filepath) r))
  /\ (DataRecorder.open_result fs = Returns tt ->
      DataRecorder.writerow_result fs = Returns tt ->
      DataRecorder.flush_result fs = Returns tt ->
      DataRecorder.start_recording fs filepath num_controllers r
      = (DataRecorder.mk (DataRecorder.buffer_size r)
           (Some (DataRecorder.mkFile filepath false
                    [DataRecorder.header num_controllers]))
           (Some DataRecorder.csv_writer) [] true (Some filepath),
         Returns true)).
Proof.
  split.
  - intros e Hopen [Hrec Hfile]. split; [|split; assumption].
    unfold DataRecorder.start_recording, DataRecorder.close_file. step_action.
    rewrite Hopen.
    destruct r as [bs [f|] w b rec fp]; cbn in *; [|reflexivity].
    rewrite Hfile. reflexivity.
  - intros Hopen Hrow Hflush.
    unfold DataRecorder.start_recording. step_action.
    rewrite Hopen, Hrow, Hflush. reflexivity.
Qed.

Lemma start_recording_outcomes_witness :
  (DataRecorder.start_recording Examples.no_open_fs "b.csv" 2
     (DataRecorder.__init__ 100)
   = (DataRecorder.set_filepath (Some "b.csv"%string) (DataRecorder.__init__ 100),
      Returns false)
   /\ idle (DataRecorder.set_filepath (Some "b.csv"%string)
              (DataRecorder.__init__ 100)))
  /\ DataRecorder.start_recording Examples.ok_fs "b.csv" 2 Examples.recording
     = (DataRecorder.mk (DataRecorder.buffer_size Examples.recording)
          (Some (DataRecorder.mkFile "b.csv" false [DataRecorder.header 2]))
          (Some DataRecorder.csv_writer) [] true (Some "b.csv"%string),
        Returns true).
Proof.
  split.
  - apply (proj1 (start_recording_outcomes Examples.no_open_fs "b.csv" 2
                    (DataRecorder.__init__ 100)) OSError).
    + reflexivity.
    + split; [reflexivity | exact I].
  - apply (proj2 (start_recording_outcomes Examples.ok_fs "b.csv" 2
                    Examples.recording)); reflexivity.
Defined.

(** C7 as stated fails: a recorder that is already recording accepts a
    second [start_recording] and reports success. *)
Lemma start_recording_while_recording_succeeds :
  DataRecorder.is_recording Examples.recording = true
  /\ snd (DataRecorder.start_recording Examples.ok_fs "b.csv" 2 Examples.recording)
     = Returns true.
Proof. split; vm_compute; reflexivity. Qed.

(** ** EtherCATManager *)

Section Manager.

Import EtherCATManager.

Lemma set_drivers_same (self : t) : set_drivers (drivers self) self = self.
Proof. destruct self; reflexivity. Qed.

(** With enough discovered slaves the driver loop completes; it only
    assigns [self.drivers]. *)
Lemma create_drivers_ok (found : list Slave) (ids : list nat)
    (acc : list BrooksDriver.t) (self : t) :
  Forall (fun i => (i < length found)%nat) ids ->
  exists ds, create_drivers found ids acc self = (set_drivers ds self, Returns tt).
Proof.
  intros Hids. revert acc self.
  induction Hids as [|i ids Hi Hids IH]; intros acc self; cbn [create_drivers].
  - exists (drivers self). rewrite set_drivers_same. reflexivity.
  - destruct (lookup_lt_is_Some_2 found i Hi) as [sl ->].
    step_action.
    destruct (IH (acc ++ [BrooksDriver.__init__ (Some sl) (Z.of_nat i)])
                 (set_drivers (acc ++ [BrooksDriver.__init__ (Some sl) (Z.of_nat i)])
                    self)) as (ds & ->).
    exists ds. reflexivity.
Qed.

Lemma same_frame_refl (s : t) : same_frame s s.
Proof. repeat split. Qed.

Lemma same_frame_trans (s1 s2 s3 : t) :
  same_frame s1 s2 -> same_frame s2 s3 -> same_frame s1 s3.
Proof. unfold same_frame. intuition congruence. Qed.

(** The zero-setpoint loop only assigns to driver objects. *)
Lemma zero_setpoints_frame (sc : DisconnectScript) (todo : list BrooksDriver.t)
    (i : nat) (done : list BrooksDriver.t) (self : t) :
  same_frame self (fst (zero_setpoints sc i todo done self)).
Proof.
  revert i done self.
  induction todo as [|driver rest IH]; intros i done self; cbn [zero_setpoints].
  - apply same_frame_refl.
  - destruct (zero_write_fault sc i) as [e|]; [apply same_frame_refl|].
    destruct (BrooksDriver.write_setpoint driver PyFloat.zero) as [driver' r].
    step_action.
    assert (Hs : same_frame self
                   (share_slave driver'
                      (set_drivers (done ++ driver' :: rest) self)))
      by (unfold share_slave; destruct (BrooksDriver.slave driver');
          repeat split).
    destruct r as [b|e]; [|exact Hs].
    eapply same_frame_trans; [exact Hs|apply IH].
Qed.

(** The guarded teardown block never lets an exception out and leaves
    the frame attributes alone. *)
Lemma teardown_frame (sc : DisconnectScript) (self : t) :
  snd (teardown sc self) = Returns tt
  /\ same_frame self (fst (teardown sc self)).
Proof.
  unfold teardown, master_close. step_action.
  pose proof (zero_setpoints_frame sc (drivers self) 0 [] self) as Hz.
  destruct (zero_setpoints sc 0 (drivers self) [] self) as [s1 [[]|e]];
    cbn [fst snd] in *; [|split; [reflexivity|exact Hz]].
  destruct (init_write_state_result sc) as [[]|e]; cbn [fst snd].
  - destruct (final_close_result sc) as [[]|e]; cbn [fst snd];
      (split; [reflexivity|]);
      (eapply same_frame_trans; [exact Hz|repeat split]).
  - split; [reflexivity|].
    eapply same_frame_trans; [exact Hz|repeat split].
Qed.

Lemma disconnect_result (sc : DisconnectScript) (self : t) :
  disconnect sc self
  = (mk (adapter self) None [] (_cyclic_thread self) true DISCONNECTED,
     Returns tt).
Proof.
  destruct self as [a [m|] ds th se st]; unfold disconnect; step_action;
    unfold set_stop_event;
    cbn [master adapter drivers _cyclic_thread _state _stop_event];
    [|reflexivity].
  destruct (teardown_frame sc (mk a (Some m) ds th true st)) as [Hr Hf].
  destruct (teardown sc (mk a (Some m) ds th true st)) as [s1 r].
  cbn [fst snd] in Hr, Hf. subst r.
  destruct s1 as [a1 m1 ds1 th1 se1 st1].
  destruct Hf as (Ha & Ht & Hs & _). cbn in Ha, Ht, Hs. subst.
  reflexivity.
Qed.

End Manager.

(** C9. [disconnect] always returns normally and leaves the manager with
    state [DISCONNECTED], an empty driver list and no master, whatever the
    zero-setpoint writes, the Init-state request and the adapter close do
    (return or raise); a second [disconnect] changes nothing, and on a
    manager that is already disconnected the call only sets the stop
    flag. *)
Theorem disconnect_always_disconnects (sc : EtherCATManager.DisconnectScript)
    (self : EtherCATManager.t) :
  (exists self',
     EtherCATManager.disconnect sc self = (self', Returns tt)
     /\ EtherCATManager._state self' = DISCONNECTED
     /\ EtherCATManager.drivers self' = []
     /\ EtherCATManager.master self' = None
     /\ forall sc', EtherCATManager.disconnect sc' self' = (self', Returns tt))
  /\ (disconnected self ->
      EtherCATManager.disconnect sc self
      = (EtherCATManager.set_stop_event true self, Returns tt)).
Proof.
  split.
  - eexists. split; [apply disconnect_result|].
    do 3 (split; [reflexivity|]).
    intros sc'. rewrite disconnect_result. reflexivity.
  - intros (Hm & Hd & Hs). rewrite disconnect_result.
    destruct self; cbn in *; subst; reflexivity.
Qed.

Lemma disconnect_always_disconnects_witness :
  EtherCATManager.disconnect Examples.failing_teardown Examples.fresh_manager
  = (EtherCATManager.set_stop_event true Examples.fresh_manager, Returns tt).
Proof.
  apply (proj2 (disconnect_always_disconnects Examples.failing_teardown
                  Examples.fresh_manager)).
  repeat split.
Defined.

(** A connected manager whose teardown fails, at the first zero write or
    at the final close, still ends up disconnected. *)
Example disconnect_after_failed_teardown :
  EtherCATManager._state Examples.connected_manager = CONNECTED
  /\ length (EtherCATManager.drivers Examples.connected_manager) = 2%nat
  /\ EtherCATManager.disconnect Examples.failing_teardown Examples.connected_manager
     = (EtherCATManager.mk "eth0" None [] (Some EtherCATManager.cyclic_thread)
          true DISCONNECTED,
        Returns tt)
  /\ EtherCATManager.disconnect Examples.failing_close Examples.connected_manager
     = (EtherCATManager.mk "eth0" None [] (Some EtherCATManager.cyclic_thread)
          true DISCONNECTED,
        Returns tt).
Proof. vm_compute. repeat split. Qed.

(** C3. When the adapter opens, at least [num_controllers] devices are
    found, mapping, clock configuration, the Safe-Operational check, the
    thread start and the Operational request all return, and the final
    state check returns a state other than [OP_STATE], [connect] returns
    [(True, message)] and the connection state is [CONNECTED], with one
    driver per expected controller. *)
Theorem connect_degraded_is_connected (sc : EtherCATManager.ConnectScript)
    (num_controllers : Z) (self : EtherCATManager.t)
    (found : list Slave) (mapping : Slave -> Slave) (safeop actual_state : Z) :
  EtherCATManager.open_result sc = Returns tt ->
  EtherCATManager.config_init_result sc = Returns found ->
  num_controllers <= len found ->
  EtherCATManager.config_map_result sc = Returns mapping ->
  EtherCATManager.config_dc_result sc = Returns tt ->
  EtherCATManager.safeop_check_result sc = Returns safeop ->
  EtherCATManager.thread_start_result sc = Returns tt ->
  EtherCATManager.write_state_result sc = Returns tt ->
  EtherCATManager.op_check_result sc = Returns actual_state ->
  actual_state <> EtherCATManager.OP_STATE ->
  exists self',
    EtherCATManager.connect sc num_controllers self
    = (self', Returns (true, EtherCATManager.MsgState actual_state))
    /\ EtherCATManager._state self' = CONNECTED
    /\ EtherCATManager._state self' <> ERROR.
Proof.
  intros Hopen Hinit Hn Hmap Hdc Hsafe Hth Hws Hop Hne.
  unfold EtherCATManager.connect, EtherCATManager.connect_try,
    EtherCATManager.master_close.
  step_action. rewrite Hopen, Hinit.
  replace (len found <? num_controllers) with false
    by (symmetry; apply Z.ltb_ge; exact Hn).
  match goal with |- context [EtherCATManager.create_drivers ?f ?i ?a ?s0] =>
    destruct (create_drivers_ok f i a s0) as [ds ->] end.
  { apply Forall_forall. intros i Hi. apply elem_of_seq in Hi.
    unfold len in Hn. lia. }
  rewrite Hmap, Hdc, Hsafe, Hth, Hws, Hop.
  replace (actual_state =? EtherCATManager.OP_STATE) with false
    by (symmetry; apply Z.eqb_neq; exact Hne).
  eexists. split; [reflexivity|]. split; [reflexivity|discriminate].
Qed.

Lemma connect_degraded_is_connected_witness :
  exists self',
    EtherCATManager.connect Examples.degraded_bus 2 Examples.fresh_manager
    = (self', Returns (true, EtherCATManager.MsgState EtherCATManager.SAFEOP_STATE))
    /\ EtherCATManager._state self' = CONNECTED
    /\ EtherCATManager._state self' <> ERROR.
Proof.
  apply (connect_degraded_is_connected Examples.degraded_bus 2
           Examples.fresh_manager [Examples.unmapped_slave; Examples.unmapped_slave]
           (fun _ => Examples.mapped_slave) EtherCATManager.SAFEOP_STATE
           EtherCATManager.SAFEOP_STATE);
    first [reflexivity | vm_compute; discriminate].
Defined.

(** ** Non-finite setpoints *)

Section NonFinite.

Import BrooksDriver.

Lemma init_scale_ok (slave : option Slave) (id : Z) :
  scale_ok (full_scale (__init__ slave id)).
Proof.
  destruct (init_full_scale_range slave id) as [H1 H2].
  split; [|split; assumption].
  rewrite init_full_scale.
  destruct slave as [sl|]; [|reflexivity].
  destruct (sdo_read sl _ _ _) as [[data|]|e]; try reflexivity.
  destruct data as [|b0 [|b1 [|b2 [|b3 rest]]]]; try reflexivity.
  cbv zeta. destruct (_ && _); [apply float_of_word_valid|reflexivity].
Qed.

(** An accepted [write_setpoint] whose clamped value packs returns
    [True] and stores the clamped value. *)
Lemma write_setpoint_accepts (d : t) (sp : float) (b : bytes) :
  truthy_bytes (output_buffer d) = true ->
  Struct.pack_fBfI (PyFloat.max PyFloat.zero (PyFloat.min sp (full_scale d)))
                   0 PyFloat.zero 0 = Returns b ->
  exists d', write_setpoint d sp = (d', Returns true)
             /\ get_setpoint d'
                = PyFloat.max PyFloat.zero (PyFloat.min sp (full_scale d))
             /\ output_buffer d' = Some b.
Proof.
  unfold output_buffer, write_setpoint. intros Hout Hpack.
  destruct (slave d) as [sl|]; [|discriminate].
  cbn [mbind option_bind] in Hout. rewrite Hout. cbn [negb].
  cbn [full_scale set_setpoint] in *. rewrite Hpack.
  eexists. repeat split.
Qed.

End NonFinite.

(** C4, as the code has it. A non-finite argument is not rejected: on a
    constructed driver with an output buffer, [write_setpoint] clamps it
    like any other value and returns [True]; NaN and negative infinity
    store 0.0, positive infinity stores [full_scale]. *)
Theorem nonfinite_setpoint_is_clamped (slave : option Slave) (id : Z)
    (calls : list DriverCall) :
  let d := driver_run (BrooksDriver.__init__ slave id) calls in
  truthy_bytes (output_buffer d) = true ->
  (exists d', BrooksDriver.write_setpoint d PyFloat.nan = (d', Returns true)
              /\ BrooksDriver.get_setpoint d' = PyFloat.zero)
  /\ (exists d', BrooksDriver.write_setpoint d PyFloat.neg_inf = (d', Returns true)
                 /\ BrooksDriver.get_setpoint d' = PyFloat.zero)
  /\ (exists d', BrooksDriver.write_setpoint d PyFloat.inf = (d', Returns true)
                 /\ BrooksDriver.get_setpoint d' = BrooksDriver.full_scale d).
Proof.
  intros d Hout.
  assert (Hok : scale_ok (BrooksDriver.full_scale d)).
  { subst d. rewrite driver_run_full_scale. apply init_scale_ok. }
  destruct (scale_ok_finite _ Hok) as (m & e & Hfs & _).
  destruct (pack_frame_scale _ Hok) as [b Hb].
  assert (Hnan : PyFloat.max PyFloat.zero
                   (PyFloat.min PyFloat.nan (BrooksDriver.full_scale d))
                 = PyFloat.zero) by (rewrite Hfs; reflexivity).
  assert (Hninf : PyFloat.max PyFloat.zero
                    (PyFloat.min PyFloat.neg_inf (BrooksDriver.full_scale d))
                  = PyFloat.zero) by (rewrite Hfs; reflexivity).
  assert (Hinf : PyFloat.max PyFloat.zero
                   (PyFloat.min PyFloat.inf (BrooksDriver.full_scale d))
                 = BrooksDriver.full_scale d) by (rewrite Hfs; reflexivity).
  split; [|split].
  - destruct (write_setpoint_accepts d PyFloat.nan (replicate 13 x00) Hout)
      as (d' & Hw & Hs & _); [rewrite Hnan; vm_compute; reflexivity|].
    exists d'. rewrite Hs, Hnan. auto.
  - destruct (write_setpoint_accepts d PyFloat.neg_inf (replicate 13 x00) Hout)
      as (d' & Hw & Hs & _); [rewrite Hninf; vm_compute; reflexivity|].
    exists d'. rewrite Hs, Hninf. auto.
  - destruct (write_setpoint_accepts d PyFloat.inf b Hout)
      as (d' & Hw & Hs & _); [rewrite Hinf; exact Hb|].
    exists d'. rewrite Hs, Hinf. auto.
Qed.

Lemma nonfinite_setpoint_is_clamped_witness :
  (exists d', BrooksDriver.write_setpoint Examples.driver_at_100 PyFloat.nan
              = (d', Returns true)
              /\ BrooksDriver.get_setpoint d' = PyFloat.zero)
  /\ (exists d', BrooksDriver.write_setpoint Examples.driver_at_100 PyFloat.neg_inf
                 = (d', Returns true)
                 /\ BrooksDriver.get_setpoint d' = PyFloat.zero)
  /\ (exists d', BrooksDriver.write_setpoint Examples.driver_at_100 PyFloat.inf
                 = (d', Returns true)
                 /\ BrooksDriver.get_setpoint d'
                    = BrooksDriver.full_scale Examples.driver_at_100).
Proof.
  apply (nonfinite_setpoint_is_clamped (Some Examples.mapped_slave) 0
           [WriteSetpoint (PyFloat.of_Z 100)]).
  vm_compute; reflexivity.
Defined.

(** C4 as stated fails: with 100.0 stored and [full_scale = 30000],
    [write_setpoint(NaN)] returns [True] and replaces the stored setpoint
    by 0.0, and [write_setpoint(inf)] returns [True] and stores 30000.0. *)
Lemma write_setpoint_nan_is_accepted :
  BrooksDriver.get_setpoint Examples.driver_at_100 = PyFloat.of_Z 100
  /\ snd (BrooksDriver.write_setpoint Examples.driver_at_100 PyFloat.nan)
     = Returns true
  /\ BrooksDriver.get_setpoint
       (fst (BrooksDriver.write_setpoint Examples.driver_at_100 PyFloat.nan))
     = PyFloat.zero
  /\ PyFloat.zero <> PyFloat.of_Z 100
  /\ snd (BrooksDriver.write_setpoint Examples.driver_at_100 PyFloat.inf)
     = Returns true
  /\ BrooksDriver.get_setpoint
       (fst (BrooksDriver.write_setpoint Examples.driver_at_100 PyFloat.inf))
     = PyFloat.of_Z 30000.
Proof.
  repeat split; try (vm_compute; reflexivity).
  vm_compute. discriminate.
Qed.


(* ===================================================================== *)
(** * Further properties                                                 *)
(* ===================================================================== *)

(** ** BrooksDriver: the output frame and the stored setpoint *)

Section DriverFrame.

Import BrooksDriver.

Lemma pack_f_length (x : float) (b : bytes) :
  Struct.pack_f x = Returns b -> length b = 4%nat.
Proof.
  unfold Struct.pack_f. destruct (_ && _); [discriminate|].
  intros [= <-]. reflexivity.
Qed.

(** The 13-byte frame: the packed setpoint followed by nine zero bytes. *)
Lemma pack_frame_layout (a : float) (b : bytes) :
  Struct.pack_fBfI a 0 PyFloat.zero 0 = Returns b <->
  exists b4, Struct.pack_f a = Returns b4 /\ b = b4 ++ replicate 9 x00.
Proof.
  unfold Struct.pack_fBfI.
  destruct (Struct.pack_f a) as [b4|e]; rewrite ?bind_Returns, ?bind_Raises.
  - change (Struct.pack_B 0) with (Returns [x00]). rewrite bind_Returns.
    change (Struct.pack_f PyFloat.zero) with (Returns [x00; x00; x00; x00]).
    rewrite bind_Returns.
    change (Struct.pack_I 0) with (Returns [x00; x00; x00; x00]).
    rewrite bind_Returns.
    split.
    + intros [= <-]. exists b4. split; reflexivity.
    + intros (b4' & [= <-] & ->). reflexivity.
  - split; [discriminate|]. intros (b4' & H & _). discriminate.
Qed.

(** What any [write_setpoint] call leaves alone. *)
Lemma write_setpoint_frame_rule (d : t) (sp : float) :
  full_scale (fst (write_setpoint d sp)) = full_scale d
  /\ controller_id (fst (write_setpoint d sp)) = controller_id d
  /\ input_frame (fst (write_setpoint d sp)) = input_frame d.
Proof.
  unfold write_setpoint, input_frame.
  destruct (slave d) as [sl|] eqn:Hs; [|cbn [fst]; rewrite ?Hs; auto].
  destruct (negb (truthy_bytes (output sl))); [cbn [fst]; rewrite ?Hs; auto|].
  destruct (Struct.pack_fBfI _ _ _ _) as [data|[]]; cbn; rewrite ?Hs; auto.
Qed.

Lemma write_setpoint_true (d d' : t) (sp : float) :
  write_setpoint d sp = (d', Returns true) ->
  truthy_bytes (output_buffer d) = true
  /\ get_setpoint d' = clamp (full_scale d) sp
  /\ exists b, Struct.pack_fBfI (clamp (full_scale d) sp) 0 PyFloat.zero 0
               = Returns b
               /\ output_buffer d' = Some b.
Proof.
  unfold write_setpoint, output_buffer, clamp.
  destruct (slave d) as [sl|]; [|discriminate].
  cbn [mbind option_bind].
  destruct (truthy_bytes (output sl)); [|discriminate]. cbn [negb].
  destruct (Struct.pack_fBfI _ _ _ _) as [data|[]] eqn:Hp; try discriminate.
  intros [= <-]. split; [reflexivity|]. split; [reflexivity|].
  exists data. split; reflexivity.
Qed.

Lemma clamp_fixed (fs v : float) :
  PyFloat.lt fs PyFloat.zero = false ->
  v = PyFloat.zero \/ (PyFloat.lt PyFloat.zero v = true /\ PyFloat.le v fs = true) ->
  clamp fs v = v.
Proof.
  intros Hfs [->|[Hpos Hle]]; unfold clamp, PyFloat.max, PyFloat.min, PyFloat.gt.
  - rewrite Hfs. reflexivity.
  - assert (Hlt : PyFloat.lt fs v = false).
    { unfold PyFloat.lt, PyFloat.le, SFltb, SFleb in *.
      rewrite (SFcompare_antisym v fs).
      destruct (SFcompare v fs) as [[]|]; cbn; congruence. }
    rewrite Hlt. fold (PyFloat.lt PyFloat.zero v). rewrite Hpos. reflexivity.
Qed.

Lemma clamp_settled (fs sp : float) :
  PyFloat.le PyFloat.zero fs = true ->
  clamp fs sp = PyFloat.zero
  \/ (PyFloat.lt PyFloat.zero (clamp fs sp) = true
      /\ PyFloat.le (clamp fs sp) fs = true).
Proof.
  intros Hfs. destruct (clamp_in_range sp fs Hfs) as [_ Hle].
  fold (clamp fs sp) in Hle. revert Hle.
  unfold clamp, PyFloat.max, PyFloat.gt.
  fold (PyFloat.lt PyFloat.zero (PyFloat.min sp fs)).
  destruct (PyFloat.lt PyFloat.zero (PyFloat.min sp fs)) eqn:Hpos; auto.
Qed.

Lemma zero_le_not_lt (fs : float) :
  PyFloat.le PyFloat.zero fs = true -> PyFloat.lt fs PyFloat.zero = false.
Proof.
  unfold PyFloat.lt, PyFloat.le, SFltb, SFleb.
  rewrite (SFcompare_antisym PyFloat.zero fs).
  destruct (SFcompare PyFloat.zero fs) as [[]|]; cbn; congruence.
Qed.

Lemma driver_run_app (d : t) (l1 l2 : list DriverCall) :
  driver_run d (l1 ++ l2) = driver_run (driver_run d l1) l2.
Proof. unfold driver_run. apply foldl_app. Qed.

(** Every constructed driver keeps its setpoint in settled form. *)
Lemma driver_run_settled (slave : option Slave) (id : Z) (calls : list DriverCall) :
  settled (driver_run (__init__ slave id) calls).
Proof.
  assert (Hfs : forall l, PyFloat.le PyFloat.zero
                   (full_scale (driver_run (__init__ slave id) l)) = true).
  { intros l. rewrite driver_run_full_scale.
    apply one_le_zero_le, init_full_scale_range. }
  induction calls as [|c calls IH] using rev_ind.
  - left. apply init_fields.
  - rewrite driver_run_app. unfold driver_run at 1. cbn [foldl].
    set (d := driver_run (__init__ slave id) calls) in *.
    specialize (Hfs calls). fold d in Hfs.
    unfold settled. rewrite driver_step_full_scale.
    destruct c as [sp|sl]; [|exact IH].
    unfold driver_step. rewrite write_setpoint_stored.
    destruct (truthy_bytes (output_buffer d)); [|exact IH].
    apply clamp_settled; exact Hfs.
Qed.

(** A well-formed number in [(0, fs]] packs whenever the scale does. *)
Lemma pack_f_below_scale (fs sp : float) :
  scale_ok fs -> PyFloat.valid sp = true ->
  PyFloat.lt PyFloat.zero sp = true -> PyFloat.le sp fs = true ->
  exists b, Struct.pack_f sp = Returns b.
Proof.
  intros Hok Hv Hpos Hle.
  destruct (scale_ok_finite fs Hok) as (m & e & -> & _ & He).
  destruct sp as [s|s| |s m' e']; try destruct s;
    try (cbv [PyFloat.lt SFltb SFcompare PyFloat.zero] in Hpos; discriminate Hpos);
    try (cbv [PyFloat.le SFleb SFcompare] in Hle; discriminate Hle).
  unfold Struct.pack_f. rewrite to_single_finite.
  - eexists. reflexivity.
  - apply (valid_digits _ _ _ Hv).
  - unfold PyFloat.le, SFleb, SFcompare in Hle.
    destruct (Z.compare_spec e' e); try lia; discriminate Hle.
Qed.

(** The clamped value of a well-formed argument always packs. *)
Lemma clamp_packs (fs sp : float) :
  scale_ok fs -> PyFloat.valid sp = true ->
  exists b4, Struct.pack_f (clamp fs sp) = Returns b4.
Proof.
  intros Hok Hv.
  assert (Hfs : PyFloat.le PyFloat.zero fs = true)
    by (apply one_le_zero_le, Hok).
  destruct (clamp_settled fs sp Hfs) as [->|[Hpos Hle]].
  - eexists. vm_compute. reflexivity.
  - unfold clamp, PyFloat.max, PyFloat.gt in *.
    fold (PyFloat.lt PyFloat.zero (PyFloat.min sp fs)) in *.
    destruct (PyFloat.lt PyFloat.zero (PyFloat.min sp fs)) eqn:H0;
      [|vm_compute in Hpos; discriminate].
    unfold PyFloat.min in *.
    destruct (PyFloat.lt fs sp); [apply pack_f_scale; exact Hok|].
    apply (pack_f_below_scale fs sp); assumption.
Qed.

End DriverFrame.

(** X1. Whenever [write_setpoint] returns [True], the slave's output
    buffer is exactly 13 bytes: the binary32 little-endian encoding of
    the newly stored setpoint followed by nine zero bytes; the stored
    setpoint is the clamped argument, and the input frame and the scale
    are untouched. *)
Theorem write_setpoint_output_frame (d d' : BrooksDriver.t) (sp : float) :
  BrooksDriver.write_setpoint d sp = (d', Returns true) ->
  exists b4 : bytes,
    Struct.pack_f (BrooksDriver.get_setpoint d') = Returns b4
    /\ output_buffer d' = Some (b4 ++ replicate 9 x00)
    /\ length (b4 ++ replicate 9 x00) = 13%nat
    /\ BrooksDriver.get_setpoint d' = clamp (BrooksDriver.full_scale d) sp
    /\ input_frame d' = input_frame d
    /\ BrooksDriver.full_scale d' = BrooksDriver.full_scale d.
Proof.
  intros Hw. pose proof (write_setpoint_frame_rule d sp) as Hf.
  rewrite Hw in Hf. cbn [fst] in Hf. destruct Hf as (Hfs & _ & Hin).
  destruct (write_setpoint_true d d' sp Hw) as (_ & Hsp & b & Hp & Hout).
  apply pack_frame_layout in Hp as (b4 & Hb4 & ->).
  exists b4. rewrite Hsp. repeat split; try assumption.
  rewrite length_app, (pack_f_length _ _ Hb4). reflexivity.
Qed.

Lemma write_setpoint_output_frame_witness :
  exists b4 : bytes,
    Struct.pack_f (BrooksDriver.get_setpoint Examples.driver_at_100) = Returns b4
    /\ output_buffer Examples.driver_at_100 = Some (b4 ++ replicate 9 x00)
    /\ length (b4 ++ replicate 9 x00) = 13%nat
    /\ BrooksDriver.get_setpoint Examples.driver_at_100
       = clamp (BrooksDriver.full_scale Examples.driver) (PyFloat.of_Z 100)
    /\ input_frame Examples.driver_at_100 = input_frame Examples.driver
    /\ BrooksDriver.full_scale Examples.driver_at_100
       = BrooksDriver.full_scale Examples.driver.
Proof.
  apply (write_setpoint_output_frame Examples.driver Examples.driver_at_100
           (PyFloat.of_Z 100)).
  vm_compute. reflexivity.
Defined.

(** X2. On a constructed driver with an output buffer, [write_setpoint]
    stores its argument unchanged when it lies in [(0, full_scale]],
    stores [full_scale] when the argument is above it, and stores 0.0
    when the argument is not above zero (negative numbers, either zero,
    NaN). *)
Theorem write_setpoint_stores (slave : option Slave) (id : Z)
    (calls : list DriverCall) (sp : float) :
  let d := driver_run (BrooksDriver.__init__ slave id) calls in
  let stored := BrooksDriver.get_setpoint (fst (BrooksDriver.write_setpoint d sp)) in
  truthy_bytes (output_buffer d) = true ->
  (PyFloat.lt PyFloat.zero sp = true ->
   PyFloat.le sp (BrooksDriver.full_scale d) = true -> stored = sp)
  /\ (PyFloat.lt (BrooksDriver.full_scale d) sp = true ->
      stored = BrooksDriver.full_scale d)
  /\ (PyFloat.lt PyFloat.zero sp = false -> stored = PyFloat.zero).
Proof.
  intros d stored Hout. subst stored. rewrite write_setpoint_stored, Hout.
  assert (Hok : scale_ok (BrooksDriver.full_scale d))
    by (subst d; rewrite driver_run_full_scale; apply init_scale_ok).
  destruct (scale_ok_finite _ Hok) as (m & e & Hfs & _).
  assert (H0 : PyFloat.le PyFloat.zero (BrooksDriver.full_scale d) = true)
    by (apply one_le_zero_le, Hok).
  fold (clamp (BrooksDriver.full_scale d) sp).
  split; [|split].
  - intros Hpos Hle. apply clamp_fixed; [apply zero_le_not_lt; exact H0|].
    right. split; assumption.
  - intros Hlt. unfold clamp, PyFloat.min. rewrite Hlt, Hfs. reflexivity.
  - intros Hneg. unfold clamp, PyFloat.min.
    destruct (PyFloat.lt (BrooksDriver.full_scale d) sp) eqn:Hlt.
    + exfalso. rewrite Hfs in Hlt.
      destruct sp as [s|s| |s m' e']; try destruct s;
        cbv [PyFloat.lt SFltb SFcompare PyFloat.zero] in Hlt, Hneg;
        congruence.
    + unfold PyFloat.max, PyFloat.gt. fold (PyFloat.lt PyFloat.zero sp).
      rewrite Hneg. reflexivity.
Qed.

Lemma write_setpoint_stores_witness :
  BrooksDriver.get_setpoint
    (fst (BrooksDriver.write_setpoint Examples.driver (PyFloat.of_Z 100)))
  = PyFloat.of_Z 100
  /\ BrooksDriver.get_setpoint
       (fst (BrooksDriver.write_setpoint Examples.driver (PyFloat.of_Z 50000)))
     = BrooksDriver.full_scale Examples.driver
  /\ BrooksDriver.get_setpoint
       (fst (BrooksDriver.write_setpoint Examples.driver (PyFloat.of_Z (-5))))
     = PyFloat.zero.
Proof.
  split; [|split].
  - apply (write_setpoint_stores (Some Examples.mapped_slave) 0 []
             (PyFloat.of_Z 100)); vm_compute; reflexivity.
  - apply (write_setpoint_stores (Some Examples.mapped_slave) 0 []
             (PyFloat.of_Z 50000)); vm_compute; reflexivity.
  - apply (write_setpoint_stores (Some Examples.mapped_slave) 0 []
             (PyFloat.of_Z (-5))); vm_compute; reflexivity.
Defined.

Section DriverCalls.

Import BrooksDriver.

(** On a constructed, mapped driver a well-formed argument is always
    accepted, and the buffer stays mapped. *)
Lemma write_setpoint_valid (slave : option Slave) (id : Z)
    (calls : list DriverCall) (sp : float) :
  let d := driver_run (__init__ slave id) calls in
  truthy_bytes (output_buffer d) = true ->
  PyFloat.valid sp = true ->
  exists d', write_setpoint d sp = (d', Returns true)
             /\ get_setpoint d' = clamp (full_scale d) sp
             /\ truthy_bytes (output_buffer d') = true.
Proof.
  intros d Hout Hv.
  assert (Hok : scale_ok (full_scale d))
    by (subst d; rewrite driver_run_full_scale; apply init_scale_ok).
  destruct (clamp_packs _ sp Hok Hv) as [b4 Hb4].
  destruct (write_setpoint_accepts d sp (b4 ++ replicate 9 x00) Hout)
    as (d' & Hw & Hs & Hb).
  { apply pack_frame_layout. exists b4. split; [exact Hb4|reflexivity]. }
  exists d'. split; [exact Hw|]. split; [exact Hs|].
  rewrite Hb. apply pack_f_length in Hb4.
  destruct b4; [discriminate|reflexivity].
Qed.

Lemma read_data_some (now : float) (d : t) (frame : bytes) :
  input_frame d = Some frame -> (13 <= length frame)%nat ->
  exists s, read_data now d = Returns (Some s).
Proof.
  unfold input_frame, read_data. intros Hin Hlen.
  destruct (slave d) as [sl|]; [|discriminate].
  cbn [mbind option_bind] in Hin. rewrite Hin.
  destruct (frame_fields frame Hlen)
    as (s0 & r0 & r1 & r2 & r3 & p0 & p1 & p2 & p3 & t0 & t1 & t2 & t3 & rest & ->).
  replace (len _ <? 13) with false
    by (symmetry; apply Z.ltb_ge; unfold len; simpl length; lia).
  cbn [truthy_bytes negb orb]. unfold read_data_try.
  change (slice 1 5 _) with [r0; r1; r2; r3].
  change (slice 5 9 _) with [p0; p1; p2; p3].
  change (slice 9 13 _) with [t0; t1; t2; t3].
  rewrite !unpack_f_four. eexists. reflexivity.
Qed.

Lemma read_data_none (now : float) (d : t) :
  match input_frame d with
  | None => True
  | Some frame => (length frame < 13)%nat
  end ->
  read_data now d = Returns None.
Proof.
  unfold input_frame, read_data.
  destruct (slave d) as [sl|]; [|reflexivity].
  cbn [mbind option_bind].
  destruct (input sl) as [frame|]; [|reflexivity].
  intros H.
  replace (len frame <? 13) with true
    by (symmetry; apply Z.ltb_lt; unfold len; lia).
  rewrite orb_true_r. reflexivity.
Qed.

End DriverCalls.

(** X3. Writing back the stored setpoint, as the cyclic task does every
    cycle with [write_setpoint(get_setpoint())], never changes it: on any
    constructed driver, after any calls, the stored setpoint is a fixed
    point of the clamp. *)
Theorem rewriting_setpoint_is_stable (slave : option Slave) (id : Z)
    (calls : list DriverCall) :
  let d := driver_run (BrooksDriver.__init__ slave id) calls in
  BrooksDriver.get_setpoint
    (fst (BrooksDriver.write_setpoint d (BrooksDriver.get_setpoint d)))
  = BrooksDriver.get_setpoint d.
Proof.
  intros d. rewrite write_setpoint_stored.
  destruct (truthy_bytes (output_buffer d)); [|reflexivity].
  apply (clamp_fixed (BrooksDriver.full_scale d)).
  - apply zero_le_not_lt. subst d. rewrite driver_run_full_scale.
    apply one_le_zero_le, init_full_scale_range.
  - apply driver_run_settled.
Qed.

(** X4. Once the output buffer is mapped, [write_setpoint] on a
    constructed driver neither raises nor reports failure for any
    well-formed float argument (NaN and infinities included): it returns
    [True], and the buffer is still mapped afterwards. *)
Theorem write_setpoint_never_fails (slave : option Slave) (id : Z)
    (calls : list DriverCall) (sp : float) :
  let d := driver_run (BrooksDriver.__init__ slave id) calls in
  truthy_bytes (output_buffer d) = true ->
  PyFloat.valid sp = true ->
  exists d', BrooksDriver.write_setpoint d sp = (d', Returns true)
             /\ truthy_bytes (output_buffer d') = true.
Proof.
  intros d Hout Hv.
  destruct (write_setpoint_valid slave id calls sp Hout Hv) as (d' & Hw & _ & Hb).
  exists d'. split; assumption.
Qed.

Lemma write_setpoint_never_fails_witness :
  exists d', BrooksDriver.write_setpoint Examples.driver_at_100
               (PyFloat.div (PyFloat.of_Z 1) (PyFloat.of_Z 3))
             = (d', Returns true)
             /\ truthy_bytes (output_buffer d') = true.
Proof.
  apply (write_setpoint_never_fails (Some Examples.mapped_slave) 0
           [WriteSetpoint (PyFloat.of_Z 100)]
           (PyFloat.div (PyFloat.of_Z 1) (PyFloat.of_Z 3)));
    vm_compute; reflexivity.
Defined.

(** X5. Of two successive [write_setpoint] calls with well-formed
    arguments on a mapped, constructed driver, the last one wins: the
    stored setpoint is the clamp of the second argument, exactly as if the
    first call had not happened. *)
Theorem last_write_wins (slave : option Slave) (id : Z)
    (calls : list DriverCall) (sp1 sp2 : float) :
  let d := driver_run (BrooksDriver.__init__ slave id) calls in
  truthy_bytes (output_buffer d) = true ->
  PyFloat.valid sp1 = true ->
  PyFloat.valid sp2 = true ->
  BrooksDriver.get_setpoint (driver_run d [WriteSetpoint sp1; WriteSetpoint sp2])
  = clamp (BrooksDriver.full_scale d) sp2
  /\ BrooksDriver.get_setpoint (driver_run d [WriteSetpoint sp1; WriteSetpoint sp2])
     = BrooksDriver.get_setpoint (driver_run d [WriteSetpoint sp2]).
Proof.
  intros d Hout Hv1 Hv2. subst d.
  set (d := driver_run (BrooksDriver.__init__ slave id) calls) in *.
  destruct (write_setpoint_valid slave id calls sp1 Hout Hv1)
    as (d1 & Hw1 & _ & Hout1).
  fold d in Hw1.
  assert (Hd1 : driver_run (BrooksDriver.__init__ slave id)
                  (calls ++ [WriteSetpoint sp1]) = d1).
  { rewrite driver_run_app. fold d.
    change (driver_run d [WriteSetpoint sp1])
      with (fst (BrooksDriver.write_setpoint d sp1)).
    rewrite Hw1. reflexivity. }
  assert (Hfs1 : BrooksDriver.full_scale d1 = BrooksDriver.full_scale d).
  { rewrite <- Hd1. unfold d. rewrite !driver_run_full_scale. reflexivity. }
  pose proof (write_setpoint_valid slave id (calls ++ [WriteSetpoint sp1]) sp2)
    as H2. cbv zeta in H2. rewrite Hd1 in H2.
  destruct (H2 Hout1 Hv2) as (d2 & Hw2 & Hs2 & _).
  destruct (write_setpoint_valid slave id calls sp2 Hout Hv2)
    as (d2' & Hw2' & Hs2' & _).
  fold d in Hw2', Hs2'.
  change (driver_run d [WriteSetpoint sp1; WriteSetpoint sp2])
    with (fst (BrooksDriver.write_setpoint
                 (fst (BrooksDriver.write_setpoint d sp1)) sp2)).
  change (driver_run d [WriteSetpoint sp2])
    with (fst (BrooksDriver.write_setpoint d sp2)).
  rewrite Hw1. cbn [fst]. rewrite Hw2, Hw2'. cbn [fst].
  rewrite Hs2, Hs2', Hfs1. split; reflexivity.
Qed.

Lemma last_write_wins_witness :
  BrooksDriver.get_setpoint
    (driver_run Examples.driver
       [WriteSetpoint (PyFloat.of_Z 100); WriteSetpoint (PyFloat.of_Z 250)])
  = clamp (BrooksDriver.full_scale Examples.driver) (PyFloat.of_Z 250)
  /\ BrooksDriver.get_setpoint
       (driver_run Examples.driver
          [WriteSetpoint (PyFloat.of_Z 100); WriteSetpoint (PyFloat.of_Z 250)])
     = BrooksDriver.get_setpoint
         (driver_run Examples.driver [WriteSetpoint (PyFloat.of_Z 250)]).
Proof.
  apply (last_write_wins (Some Examples.mapped_slave) 0 []
           (PyFloat.of_Z 100) (PyFloat.of_Z 250)); vm_compute; reflexivity.
Defined.

(** X6. The scale chosen at construction is a well-formed number in
    [[1.0, 1000000.0]] whatever the device replied, and no later call
    changes it. *)
Theorem full_scale_is_fixed_and_usable (slave : option Slave) (id : Z)
    (calls : list DriverCall) :
  let d0 := BrooksDriver.__init__ slave id in
  let d := driver_run d0 calls in
  BrooksDriver.full_scale d = BrooksDriver.full_scale d0
  /\ PyFloat.valid (BrooksDriver.full_scale d) = true
  /\ PyFloat.le (PyFloat.of_Z 1) (BrooksDriver.full_scale d) = true
  /\ PyFloat.le (BrooksDriver.full_scale d) (PyFloat.of_Z 1000000) = true
  /\ PyFloat.is_nan (BrooksDriver.full_scale d) = false.
Proof.
  intros d0 d. subst d d0. rewrite driver_run_full_scale.
  destruct (init_scale_ok slave id) as (Hv & H1 & H2).
  repeat split; try assumption.
  apply (le_not_nan_r _ _ H1).
Qed.

(** X7. [read_data] never raises, whatever the slave object holds: it
    returns a sample exactly when there is an input frame of at least 13
    bytes, and [None] otherwise. *)
Theorem read_data_total (now : float) (d : BrooksDriver.t) :
  exists r, BrooksDriver.read_data now d = Returns r
            /\ (is_Some r <->
                exists frame, input_frame d = Some frame
                              /\ (13 <= length frame)%nat).
Proof.
  destruct (input_frame d) as [frame|] eqn:Hin.
  - destruct (le_lt_dec 13 (length frame)) as [Hlen|Hlen].
    + destruct (read_data_some now d frame Hin Hlen) as [s Hs].
      exists (Some s). split; [exact Hs|]. split; [|eauto].
      intros _. exists frame. auto.
    + exists None. split; [apply read_data_none; rewrite Hin; exact Hlen|].
      split; [intros [x Hx]; discriminate|].
      intros (f & [= <-] & Hf). lia.
  - exists None. split; [apply read_data_none; rewrite Hin; exact I|].
    split; [intros [x Hx]; discriminate|].
    intros (f & Hf & _). discriminate.
Qed.


Lemma read_data_total_witness :
  exists r, BrooksDriver.read_data Examples.now Examples.driver = Returns r
            /\ (is_Some r <->
                exists frame, input_frame Examples.driver = Some frame
                              /\ (13 <= length frame)%nat).
Proof. exact (read_data_total Examples.now Examples.driver). Defined.

(** ** DataRecorder: rows, buffering, flushing *)

Section Recorder.

Import DataRecorder.

Lemma header_length (n : Z) : len (header n) = 2 + 4 * Z.max 0 n.
Proof.
  unfold header, len. rewrite length_app. cbn [length].
  assert (H : forall (l : list nat) (g : nat -> string),
            length (flat_map (fun i : nat =>
              [ "Controller" +:+ g i +:+ "_Flow_SCCM";
                "Controller" +:+ g i +:+ "_Pressure_psi";
                "Controller" +:+ g i +:+ "_Temperature_C";
                "Controller" +:+ g i +:+ "_Setpoint_SCCM" ]%string) l)
            = (4 * length l)%nat).
  { intros l g. induction l as [|i l IH]; [reflexivity|].
    cbn [flat_map length app]. rewrite IH. lia. }
  rewrite (H _ (fun i => pretty (Z.of_nat i + 1))), length_seq. lia.
Qed.

Lemma make_row_length (fm : Formats) (now : float)
    (data : list (option ControllerData)) (r : row) :
  make_row fm now data = Returns r -> len r = 2 + 4 * len data.
Proof.
  unfold make_row. destruct (datetime_str fm now) as [dt|e]; [|discriminate].
  rewrite bind_Returns. intros [= <-]. unfold len. cbn [length app].
  assert (H : length (flat_map (data_fields fm) data) = (4 * length data)%nat).
  { induction data as [|d data IH]; [reflexivity|].
    cbn [flat_map]. rewrite length_app, IH. destruct d; cbn [data_fields length]; lia. }
  rewrite H. lia.
Qed.

(** [_flush_buffer] with a writer on a healthy file system. *)
Lemma flush_buffer_healthy (fs : FsScript) (N : Z) (f : File) (w : CsvWriter)
    (b : list row) (rec : bool) (fp : option string) :
  healthy fs ->
  _flush_buffer fs (mk N (Some f) (Some w) b rec fp)
  = (mk N (Some (mkFile (f_path f) (f_closed f) (f_rows f ++ b))) (Some w) []
        rec fp, Returns tt).
Proof.
  intros (_ & Hrow & Hflush & _). unfold _flush_buffer. step_action.
  cbn [_writer _buffer]. destruct b as [|r0 b].
  - rewrite app_nil_r. destruct f; reflexivity.
  - rewrite Hrow, Hflush. reflexivity.
Qed.


Lemma start_recording_healthy (fs : FsScript) (filepath : string) (n : Z) (r : t) :
  healthy fs ->
  start_recording fs filepath n r
  = (mk (buffer_size r) (Some (mkFile filepath false [header n]))
        (Some csv_writer) [] true (Some filepath), Returns true).
Proof.
  intros (Hopen & Hrow & Hflush & _).
  unfold start_recording. step_action.
  rewrite Hopen, Hrow, Hflush. reflexivity.
Qed.

(** One [record_data] call during an active session. *)
Lemma record_data_active (fs : FsScript) (fm : Formats) (now : float)
    (data : list (option ControllerData)) (N : Z) (f : File) (w : CsvWriter)
    (b : list row) (fp : option string) :
  healthy fs ->
  record_data fs fm now data (mk N (Some f) (Some w) b true fp)
  = match make_row fm now data with
    | Returns row =>
        if N <=? len (b ++ [row])
        then (mk N (Some (mkFile (f_path f) (f_closed f)
                            (f_rows f ++ b ++ [row]))) (Some w) [] true fp,
              Returns tt)
        else (mk N (Some f) (Some w) (b ++ [row]) true fp, Returns tt)
    | Raises _ => (mk N (Some f) (Some w) b true fp, Returns tt)
    end.
Proof.
  intros Hfs. unfold record_data. step_action. cbn [_is_recording _writer].
  destruct (make_row fm now data) as [row|e]; [|reflexivity].
  unfold set_buffer. cbn [_buffer buffer_size _file _writer _is_recording _filepath].
  destruct (N <=? len (b ++ [row])); [|reflexivity].
  pose proof (flush_buffer_healthy fs N f w (b ++ [row]) true fp Hfs) as Hf.
  unfold mret, Action_ret in *. rewrite Hf. reflexivity.
Qed.

Lemma record_data_inactive (fs : FsScript) (fm : Formats) (now : float)
    (data : list (option ControllerData)) (r : t) :
  _is_recording r = false \/ _writer r = None ->
  record_data fs fm now data r = (r, Returns tt).
Proof.
  unfold record_data. step_action.
  intros [H|H]; rewrite H; [reflexivity|].
  destruct (_is_recording r); reflexivity.
Qed.

(** [stop_recording] on a healthy file system. *)
Lemma stop_recording_healthy (fs : FsScript) (r : t) :
  healthy fs -> consistent r ->
  stop_recording fs r
  = (mk (buffer_size r) None None [] false (_filepath r), Returns tt).
Proof.
  intros Hfs Hc. destruct r as [N [f|] [w|] b rec fp]; cbn in Hc; try tauto.
  - destruct Hc as [Hopen _]. unfold stop_recording. step_action.
    unfold set_is_recording. cbn [_buffer buffer_size _file _writer _filepath].
    pose proof (flush_buffer_healthy fs N f w b false fp Hfs) as Hf.
    destruct Hfs as (_ & _ & _ & Hclose).
    destruct b as [|r0 b].
    + unfold close_file. step_action. cbn [_file].
      rewrite Hopen, Hclose. reflexivity.
    + rewrite Hf. unfold close_file. step_action. cbn [_file f_closed].
      rewrite Hopen, Hclose. reflexivity.
  - destruct Hc as [-> ->]. reflexivity.
Qed.

Lemma recorder_step_consistent (fs : FsScript) (fm : Formats) (r : t)
    (c : RecorderCall) :
  healthy fs -> consistent r -> consistent (recorder_step fs fm r c).
Proof.
  intros Hfs Hc. destruct c as [filepath n|now data|]; cbn [recorder_step].
  - rewrite start_recording_healthy by exact Hfs. cbn. auto.
  - destruct r as [N [f|] [w|] b rec fp]; cbn in Hc; try tauto.
    + destruct Hc as [Hopen ->]. rewrite record_data_active by exact Hfs.
      destruct (make_row fm now data) as [row|e]; [|cbn; auto].
      destruct (N <=? len (b ++ [row])); cbn; auto.
    + rewrite record_data_inactive; [exact Hc|right; reflexivity].
  - rewrite stop_recording_healthy by assumption. cbn. auto.
Qed.

End Recorder.

(** X8. A row built by [record_data] from a batch with one slot per
    controller has exactly as many fields as the header written by
    [start_recording], namely [2 + 4 * num_controllers], whether or not
    the slots hold a sample. *)
Theorem row_has_header_width (fm : DataRecorder.Formats) (now : float)
    (data : list (option ControllerData)) (r : DataRecorder.row) (n : Z) :
  DataRecorder.make_row fm now data = Returns r ->
  len data = n ->
  len r = len (DataRecorder.header n) /\ len (DataRecorder.header n) = 2 + 4 * n.
Proof.
  intros Hr Hn. rewrite header_length, (make_row_length _ _ _ _ Hr), Hn.
  unfold len in Hn. lia.
Qed.

Lemma row_has_header_width_witness :
  len ["0.00"; "2026-01-01 00:00:00.000"; ""; ""; ""; "";
       "0.00"; "0.00"; "0.00"; "0.00"]%string
  = len (DataRecorder.header 2)
  /\ len (DataRecorder.header 2) = 2 + 4 * 2.
Proof.
  apply (row_has_header_width Examples.formats Examples.now
           [None; Some (Examples.sample 1)]); reflexivity.
Defined.

(** X9. During a session on a healthy file system with buffer size
    [N >= 1], no row is lost, duplicated or reordered: after any number
    of [record_data] calls the file rows followed by the buffered rows
    are the header followed by all rows built so far; rows reach the file
    only in whole groups of [N], so the buffer holds [k mod N] rows and
    the file [1 + N * (k / N)] after [k] rows. *)
Theorem record_data_buffering (fs : DataRecorder.FsScript)
    (fm : DataRecorder.Formats) (r0 : DataRecorder.t) (filepath : string)
    (n : Z) (ticks : list (float * list (option ControllerData))) :
  healthy fs ->
  1 <= DataRecorder.buffer_size r0 ->
  let r := record_all fs fm
             (fst (DataRecorder.start_recording fs filepath n r0)) ticks in
  let rows := rows_of fm ticks in
  let N := DataRecorder.buffer_size r0 in
  written r ++ DataRecorder._buffer r = DataRecorder.header n :: rows
  /\ len (DataRecorder._buffer r) = len rows mod N
  /\ len (written r) = 1 + N * (len rows / N)
  /\ DataRecorder.is_recording r = true.
Proof.
  intros Hfs HN r rows N. subst r rows N.
  rewrite start_recording_healthy by exact Hfs. cbn [fst].
  set (N := DataRecorder.buffer_size r0) in *.
  assert (Hinv : exists f w b fp q,
    record_all fs fm
      (DataRecorder.mk N (Some (DataRecorder.mkFile filepath false
                                  [DataRecorder.header n]))
         (Some DataRecorder.csv_writer) [] true (Some filepath)) ticks
    = DataRecorder.mk N (Some f) (Some w) b true fp
    /\ DataRecorder.f_rows f ++ b = DataRecorder.header n :: rows_of fm ticks
    /\ 0 <= q /\ len b < N
    /\ len (DataRecorder.f_rows f) = 1 + N * q
    /\ len (rows_of fm ticks) = N * q + len b).
  { induction ticks as [|tick ticks IH] using rev_ind.
    - eexists _, _, _, _, 0. split; [reflexivity|].
      cbn. unfold len. cbn. repeat split; lia.
    - destruct IH as (f & w & b & fp & q & Hst & Hrows & Hq & Hb & Hf & Hk).
      unfold record_all, rows_of in *. rewrite foldl_snoc, omap_app, Hst.
      rewrite record_data_active by exact Hfs.
      cbn [omap list_omap].
      destruct (DataRecorder.make_row fm tick.1 tick.2) as [row|e].
      + destruct (Z.leb_spec N (len (b ++ [row]))) as [Hfull|Hroom].
        * eexists _, _, _, _, (q + 1). split; [reflexivity|].
          cbn [DataRecorder.f_rows].
          split; [rewrite app_nil_r, app_assoc, Hrows; reflexivity|].
          unfold len in *. rewrite ?length_app in *. cbn [length] in *.
          repeat split; lia.
        * eexists _, _, _, _, q. split; [reflexivity|].
          split; [rewrite app_assoc, Hrows; reflexivity|].
          unfold len in *. rewrite ?length_app in *. cbn [length] in *.
          repeat split; lia.
      + eexists _, _, _, _, q. split; [reflexivity|].
        rewrite !app_nil_r. repeat split; assumption. }
  destruct Hinv as (f & w & b & fp & q & -> & Hrows & Hq & Hb & Hf & Hk).
  cbn [written DataRecorder._file DataRecorder._buffer DataRecorder.is_recording
       DataRecorder._is_recording].
  assert (Hb0 : 0 <= len b) by (unfold len; lia).
  split; [exact Hrows|]. split; [|split; [|reflexivity]].
  - apply (Z.mod_unique _ _ q); [left; lia|exact Hk].
  - rewrite Hf. f_equal. f_equal.
    apply (Z.div_unique _ _ q (len b)); [left; lia|exact Hk].
Qed.

Lemma record_data_buffering_witness :
  len (DataRecorder._buffer
         (record_all Examples.ok_fs Examples.formats
            (fst (DataRecorder.start_recording Examples.ok_fs "a.csv" 2
                    (DataRecorder.__init__ 100)))
            Examples.ticks_250)) = 50
  /\ len (written
           (record_all Examples.ok_fs Examples.formats
              (fst (DataRecorder.start_recording Examples.ok_fs "a.csv" 2
                      (DataRecorder.__init__ 100)))
              Examples.ticks_250)) = 201.
Proof.
  destruct (record_data_buffering Examples.ok_fs Examples.formats
              (DataRecorder.__init__ 100) "a.csv" 2 Examples.ticks_250)
    as (_ & Hb & Hw & _).
  - repeat split.
  - vm_compute. discriminate.
  - rewrite Hb, Hw. split; vm_compute; reflexivity.
Defined.



(** X11. On a healthy file system [stop_recording] ends any consistent
    recorder state in the same place: not recording, no file, no writer,
    empty buffer; a further [stop_recording] then changes nothing,
    whatever the file system does, and so does a [stop_recording] on a
    recorder that was never started. *)
Theorem stop_recording_is_idempotent (fs fs' : DataRecorder.FsScript)
    (r : DataRecorder.t) :
  healthy fs -> consistent r ->
  let stopped := DataRecorder.mk (DataRecorder.buffer_size r) None None []
                   false (DataRecorder._filepath r) in
  DataRecorder.stop_recording fs r = (stopped, Returns tt)
  /\ DataRecorder.stop_recording fs' stopped = (stopped, Returns tt)
  /\ DataRecorder.stop_recording fs'
       (DataRecorder.__init__ (DataRecorder.buffer_size r))
     = (DataRecorder.__init__ (DataRecorder.buffer_size r), Returns tt).
Proof.
  intros Hfs Hc stopped. split; [apply stop_recording_healthy; assumption|].
  split; reflexivity.
Qed.

Lemma stop_recording_is_idempotent_witness :
  DataRecorder.stop_recording Examples.ok_fs Examples.recording
  = (DataRecorder.mk 100 None None [] false (Some "a.csv"%string), Returns tt)
  /\ DataRecorder.stop_recording Examples.no_open_fs
       (DataRecorder.mk 100 None None [] false (Some "a.csv"%string))
     = (DataRecorder.mk 100 None None [] false (Some "a.csv"%string), Returns tt)
  /\ DataRecorder.stop_recording Examples.no_open_fs (DataRecorder.__init__ 100)
     = (DataRecorder.__init__ 100, Returns tt).
Proof.
  apply (stop_recording_is_idempotent Examples.ok_fs Examples.no_open_fs
           Examples.recording).
  - repeat split.
  - vm_compute. auto.
Defined.

(** X12. On a healthy file system, whatever sequence of
    [start_recording], [record_data] and [stop_recording] calls a new
    recorder receives, the recording flag is set exactly when the
    recorder holds an open file, and a writer exists exactly when a file
    does. *)
Theorem recording_iff_file_open (fs : DataRecorder.FsScript)
    (fm : DataRecorder.Formats) (buffer_size : Z) (calls : list RecorderCall) :
  healthy fs ->
  let r := recorder_run fs fm (DataRecorder.__init__ buffer_size) calls in
  (DataRecorder.is_recording r = true <->
   exists f, DataRecorder._file r = Some f /\ DataRecorder.f_closed f = false)
  /\ (DataRecorder._writer r = None <-> DataRecorder._file r = None)
  /\ (DataRecorder.is_recording r = false -> DataRecorder._buffer r = []).
Proof.
  intros Hfs r.
  assert (Hc : consistent r).
  { subst r. induction calls as [|c calls IH] using rev_ind.
    - cbn. auto.
    - unfold recorder_run in *. rewrite foldl_snoc.
      apply recorder_step_consistent; assumption. }
  unfold consistent, DataRecorder.is_recording in *.
  destruct (DataRecorder._file r) as [f|], (DataRecorder._writer r) as [w|];
    try tauto.
  - destruct Hc as [Ho Hr]. rewrite Hr. split; [|split].
    + split; [eauto|reflexivity].
    + split; discriminate.
    + discriminate.
  - destruct Hc as [Hr Hb]. rewrite Hr. split; [|split].
    + split; [discriminate|]. intros (f & Hf & _). discriminate.
    + split; reflexivity.
    + intros _. exact Hb.
Qed.

Lemma recording_iff_file_open_witness :
  DataRecorder._buffer
    (recorder_run Examples.ok_fs Examples.formats (DataRecorder.__init__ 100)
       [CallStart "a.csv" 2; CallRecord Examples.now [None; None]; CallStop])
  = [].
Proof.
  refine (proj2 (proj2 (recording_iff_file_open Examples.ok_fs Examples.formats
                          100
                          [CallStart "a.csv" 2;
                           CallRecord Examples.now [None; None]; CallStop] _)) _).
  - repeat split.
  - vm_compute. reflexivity.
Defined.

(** ** DataManager: current samples and history copies *)

Section Store.

Import DataManager.

Lemma update_one_current (i j : nat) (data : option ControllerData) (dm : t) :
  Z.of_nat (length (current_data dm)) = Z.max 0 (num_controllers dm) ->
  (j < length (current_data dm))%nat ->
  current_data (update_one i data dm) !! j =
    match (if decide (i = j) then data else None) with
    | Some d => Some (Some d)
    | None => current_data dm !! j
    end.
Proof.
  intros Hlen Hj. unfold update_one.
  destruct data as [d|]; [|destruct (decide (i = j)); reflexivity].
  destruct (decide (i = j)) as [->|Hne].
  - replace (Z.of_nat j <? num_controllers dm) with true
      by (symmetry; apply Z.ltb_lt; lia).
    cbn. apply list_lookup_insert_eq. exact Hj.
  - destruct (Z.of_nat i <? num_controllers dm); [|reflexivity].
    cbn. apply list_lookup_insert_ne. exact Hne.
Qed.

Lemma update_one_current_length (i : nat) (data : option ControllerData) (dm : t) :
  length (current_data (update_one i data dm)) = length (current_data dm).
Proof.
  unfold update_one. destruct data as [d|]; [|reflexivity].
  destruct (Z.of_nat i <? num_controllers dm); [|reflexivity].
  cbn. apply length_insert.
Qed.

Lemma update_from_current_length (batch : list (option ControllerData))
    (i : nat) (dm : t) :
  length (current_data (update_from i batch dm)) = length (current_data dm).
Proof.
  revert i dm. induction batch as [|data rest IH]; intros i dm; [reflexivity|].
  cbn [update_from]. rewrite IH. apply update_one_current_length.
Qed.

Lemma update_from_current (batch : list (option ControllerData)) (i j : nat)
    (dm : t) :
  Z.of_nat (length (current_data dm)) = Z.max 0 (num_controllers dm) ->
  (j < length (current_data dm))%nat ->
  current_data (update_from i batch dm) !! j =
    match (if decide (i <= j)%nat then delivered batch (j - i) else None) with
    | Some d => Some (Some d)
    | None => current_data dm !! j
    end.
Proof.
  revert i dm. induction batch as [|data rest IH]; intros i dm Hlen Hj;
    cbn [update_from].
  - unfold delivered. rewrite lookup_nil. destruct (decide _); reflexivity.
  - destruct (update_one_params i data dm) as (Hn & _ & _).
    pose proof (update_one_current_length i data dm) as Hl.
    rewrite IH by (rewrite ?Hl, ?Hn; assumption).
    rewrite update_one_current by assumption.
    unfold delivered.
    destruct (decide (i = j)) as [->|Hne].
    + rewrite decide_False by lia. rewrite decide_True by lia.
      rewrite Nat.sub_diag. cbn. destruct data; reflexivity.
    + destruct (decide (S i <= j)%nat) as [Hle|Hgt].
      * rewrite decide_True by lia.
        replace (j - i)%nat with (S (j - S i)) by lia. reflexivity.
      * rewrite decide_False by lia. reflexivity.
Qed.

(** A slot without a sample, or beyond the last channel, changes
    nothing. *)
Lemma update_from_noop (batch : list (option ControllerData)) (i : nat) (dm : t) :
  (forall k, Z.of_nat (i + k) < num_controllers dm -> delivered batch k = None) ->
  update_from i batch dm = dm.
Proof.
  revert i dm. induction batch as [|data rest IH]; intros i dm H; [reflexivity|].
  cbn [update_from].
  assert (H1 : update_one i data dm = dm).
  { unfold update_one. destruct data as [d|]; [|reflexivity].
    destruct (Z.ltb_spec (Z.of_nat i) (num_controllers dm)) as [Hlt|]; [|reflexivity].
    specialize (H 0%nat). rewrite Nat.add_0_r in H. specialize (H Hlt).
    discriminate. }
  rewrite H1. apply IH. intros k Hk.
  apply (H (S k)). rewrite Nat.add_succ_r. exact Hk.
Qed.

(** What a series of updates of a constructed store has established. *)
Lemma constructed_run (n cap : Z) (dm : t)
    (batches : list (list (option ControllerData))) :
  __init__ n cap = Returns dm ->
  num_controllers (run_updates dm batches) = n
  /\ length (history (run_updates dm batches)) = Z.to_nat n
  /\ length (current_data (run_updates dm batches)) = Z.to_nat n
  /\ (forall j h, history (run_updates dm batches) !! j = Some h ->
        holds_last (Z.to_nat cap) h (channel_samples j batches))
  /\ (forall j, (j < Z.to_nat n)%nat ->
        current_data (run_updates dm batches) !! j
        = Some (last (channel_samples j batches))).
Proof.
  unfold __init__. intros Hinit.
  destruct (init_history (Z.to_nat n) cap) as [hs|e] eqn:Hhs; [|discriminate].
  rewrite bind_Returns in Hinit. injection Hinit as <-.
  destruct (init_history_holds _ _ _ Hhs) as [Hlen Hall].
  set (dm0 := mk n cap hs _ _) in *.
  destruct (run_updates_params batches dm0) as [Hn Hl].
  split; [exact Hn|]. split; [rewrite Hl; exact Hlen|].
  assert (Hcur : length (current_data (run_updates dm0 batches)) = Z.to_nat n
                 /\ forall j, (j < Z.to_nat n)%nat ->
                      current_data (run_updates dm0 batches) !! j
                      = Some (last (channel_samples j batches))).
  { clear Hn Hl. induction batches as [|batch batches IH] using rev_ind.
    - split; [apply length_replicate|].
      intros j Hj. cbn. apply lookup_replicate_2. exact Hj.
    - destruct IH as [IHl IHc].
      destruct (run_updates_params batches dm0) as [Hn _].
      unfold run_updates, channel_samples in *. rewrite foldl_snoc.
      split.
      { unfold update_data at 1. rewrite update_from_current_length. exact IHl. }
      intros j Hj. rewrite omap_app. unfold update_data at 1.
      rewrite update_from_current
        by (rewrite ?IHl, ?Hn; subst dm0; cbn; lia).
      rewrite decide_True by lia. rewrite Nat.sub_0_r.
      cbn [omap list_omap].
      destruct (delivered batch j) as [d|].
      + rewrite last_snoc. reflexivity.
      + rewrite app_nil_r. apply IHc. exact Hj. }
  split; [apply Hcur|]. split; [|apply Hcur].
  intros j h Hj.
  assert (Hi : (j < length hs)%nat).
  { apply lookup_lt_Some in Hj. rewrite Hl in Hj. exact Hj. }
  destruct (lookup_lt_is_Some_2 hs j Hi) as [h0 Hh0].
  apply (run_updates_holds (Z.to_nat cap) batches dm0).
  - subst dm0. cbn. lia.
  - intros k hk Hk. apply (Hall k hk Hk).
  - exact Hj.
Qed.

End Store.

(** X13. After any series of [update_data] calls on a constructed store,
    [get_current_data] returns, for a channel index in range, the most
    recent sample delivered for that channel ([None] while none was
    delivered), and [None] for every index out of range; it never
    raises. *)
Theorem current_data_is_latest (n cap : Z) (dm : DataManager.t)
    (batches : list (list (option ControllerData))) (controller_index : Z) :
  DataManager.__init__ n cap = Returns dm ->
  DataManager.get_current_data (run_updates dm batches) controller_index
  = Returns (if (0 <=? controller_index) && (controller_index <? n)
             then last (channel_samples (Z.to_nat controller_index) batches)
             else None).
Proof.
  intros Hinit.
  destruct (constructed_run n cap dm batches Hinit) as (Hn & _ & _ & _ & Hcur).
  unfold DataManager.get_current_data. rewrite Hn.
  destruct (Z.leb_spec 0 controller_index) as [H0|H0]; [|reflexivity].
  destruct (Z.ltb_spec controller_index n) as [H1|H1]; [|reflexivity].
  cbn [andb]. rewrite Hcur by lia. reflexivity.
Qed.

Lemma current_data_is_latest_witness :
  DataManager.get_current_data
    (run_updates Examples.data_manager Examples.three_batches) 0
  = Returns (Some (Examples.sample 3))
  /\ DataManager.get_current_data
       (run_updates Examples.data_manager Examples.three_batches) 1
     = Returns None.
Proof.
  split.
  - rewrite (current_data_is_latest 1 2 Examples.data_manager
               Examples.three_batches 0); reflexivity.
  - rewrite (current_data_is_latest 1 2 Examples.data_manager
               Examples.three_batches 1); reflexivity.
Defined.

(** X14. [update_data] touches only the channels that delivered a sample:
    for every channel whose slot is [None] or missing, the history entry
    and the current sample are as before, and a batch that delivers
    nothing to the existing channels (empty, all [None], or samples only
    in slots beyond the last channel) leaves the whole store unchanged. *)
Theorem update_data_touches_only_delivered (n cap : Z) (dm : DataManager.t)
    (batches : list (list (option ControllerData)))
    (batch : list (option ControllerData)) :
  DataManager.__init__ n cap = Returns dm ->
  let dm' := run_updates dm batches in
  (forall j, delivered batch j = None ->
     DataManager.history (DataManager.update_data dm' batch) !! j
     = DataManager.history dm' !! j
     /\ DataManager.current_data (DataManager.update_data dm' batch) !! j
        = DataManager.current_data dm' !! j)
  /\ ((forall j, Z.of_nat j < n -> delivered batch j = None) ->
      DataManager.update_data dm' batch = dm').
Proof.
  intros Hinit dm'.
  destruct (constructed_run n cap dm batches Hinit) as (Hn & Hlh & Hlc & _ & _).
  fold dm' in Hn, Hlh, Hlc. split.
  - intros j Hj.
    destruct (update_data_params batch dm') as [_ Hlh'].
    destruct (le_lt_dec (Z.to_nat n) j) as [Hge|Hlt].
    + rewrite !lookup_ge_None_2; [auto| | | |];
        try (unfold DataManager.update_data;
             rewrite update_from_current_length); lia.
    + split.
      * rewrite update_data_history by (rewrite ?Hlh, ?Hn; lia).
        rewrite Hj. reflexivity.
      * unfold DataManager.update_data.
        rewrite update_from_current by (rewrite ?Hlc, ?Hn; lia).
        rewrite decide_True by lia. rewrite Nat.sub_0_r, Hj. reflexivity.
  - intros Hall. unfold DataManager.update_data. apply update_from_noop.
    intros k Hk. apply Hall. rewrite Hn in Hk. exact Hk.
Qed.

Lemma update_data_touches_only_delivered_witness :
  DataManager.update_data
    (run_updates Examples.data_manager Examples.three_batches)
    [None; Some (Examples.sample 9)]
  = run_updates Examples.data_manager Examples.three_batches.
Proof.
  apply (proj2 (update_data_touches_only_delivered 1 2 Examples.data_manager
                  Examples.three_batches [None; Some (Examples.sample 9)]
                  eq_refl)).
  intros [|j] Hj; [reflexivity|lia].
Defined.



(** ** EtherCATManager: drivers under the manager's operations *)

Section ManagerDrivers.

Import EtherCATManager.

Lemma steady_init (slave : option Slave) (id : Z) :
  steady (BrooksDriver.__init__ slave id).
Proof.
  split; [apply init_scale_ok|]. left. apply init_fields.
Qed.

Lemma steady_set_slave (d : BrooksDriver.t) (sl : option Slave) :
  steady d -> steady (BrooksDriver.set_slave d sl).
Proof. intros H. exact H. Qed.

Lemma steady_write (d : BrooksDriver.t) (sp : float) :
  steady d -> steady (fst (BrooksDriver.write_setpoint d sp)).
Proof.
  intros [Hok Hs].
  destruct (write_setpoint_frame_rule d sp) as (Hfs & _ & _).
  split; [rewrite Hfs; exact Hok|].
  unfold settled. rewrite Hfs, write_setpoint_stored.
  destruct (truthy_bytes (output_buffer d)); [|exact Hs].
  apply clamp_settled. apply one_le_zero_le, Hok.
Qed.

(** Writing back the stored setpoint of a steady driver keeps it. *)
Lemma steady_resend (d : BrooksDriver.t) :
  steady d ->
  BrooksDriver.get_setpoint
    (fst (BrooksDriver.write_setpoint d (BrooksDriver.get_setpoint d)))
  = BrooksDriver.get_setpoint d.
Proof.
  intros [Hok Hs]. rewrite write_setpoint_stored.
  destruct (truthy_bytes (output_buffer d)); [|reflexivity].
  apply (clamp_fixed (BrooksDriver.full_scale d)); [|exact Hs].
  apply zero_le_not_lt, one_le_zero_le, Hok.
Qed.

(** A steady driver with a well-formed setpoint takes it back without
    raising. *)
Lemma steady_resend_returns (d : BrooksDriver.t) :
  steady d -> PyFloat.valid (BrooksDriver.get_setpoint d) = true ->
  exists b, snd (BrooksDriver.write_setpoint d (BrooksDriver.get_setpoint d))
            = Returns b.
Proof.
  intros [Hok Hs] Hv. unfold BrooksDriver.write_setpoint.
  destruct (BrooksDriver.slave d) as [sl|]; [|eexists; reflexivity].
  destruct (negb (truthy_bytes (output sl))); [eexists; reflexivity|].
  fold (clamp (BrooksDriver.full_scale d) (BrooksDriver.get_setpoint d)).
  destruct (clamp_packs _ _ Hok Hv) as [b4 Hb4].
  assert (Hp : Struct.pack_fBfI
                 (clamp (BrooksDriver.full_scale d) (BrooksDriver.get_setpoint d))
                 0 PyFloat.zero 0 = Returns (b4 ++ replicate 9 x00))
    by (apply pack_frame_layout; eauto).
  rewrite Hp. eexists. reflexivity.
Qed.

Lemma share_slave_frame (d : BrooksDriver.t) (self : t) :
  drivers (share_slave d self) = drivers self
  /\ same_frame self (share_slave d self)
  /\ (master (share_slave d self) = None <-> master self = None).
Proof.
  unfold share_slave. destruct (BrooksDriver.slave d); [|repeat split; auto].
  destruct self as [a [m|] ds th se st]; cbn; repeat split; auto; discriminate.
Qed.

(** The loop that writes the stored setpoints back. *)
Lemma resend_setpoints_frame (todo done : list BrooksDriver.t) (self : t) :
  drivers self = done ++ todo ->
  Forall steady todo ->
  exists ds',
    drivers (fst (resend_setpoints todo done self)) = done ++ ds'
    /\ BrooksDriver.get_setpoint <$> ds' = BrooksDriver.get_setpoint <$> todo
    /\ BrooksDriver.full_scale <$> ds' = BrooksDriver.full_scale <$> todo
    /\ Forall steady ds'
    /\ same_frame self (fst (resend_setpoints todo done self))
    /\ (master (fst (resend_setpoints todo done self)) = None
        <-> master self = None).
Proof.
  revert done self. induction todo as [|driver rest IH]; intros done self Hds Hst.
  - exists []. cbn. rewrite Hds. repeat split; auto.
  - apply Forall_cons in Hst as [Hd Hrest]. cbn [resend_setpoints].
    pose proof (steady_resend driver Hd) as Hsp.
    pose proof (steady_write driver (BrooksDriver.get_setpoint driver) Hd) as Hst'.
    destruct (write_setpoint_frame_rule driver (BrooksDriver.get_setpoint driver))
      as (Hfs & _ & _).
    destruct (BrooksDriver.write_setpoint driver (BrooksDriver.get_setpoint driver))
      as [driver' r]. cbn [fst] in *.
    step_action.
    set (s1 := share_slave driver' (set_drivers (done ++ driver' :: rest) self)).
    destruct (share_slave_frame driver'
                (set_drivers (done ++ driver' :: rest) self)) as (Hd1 & Hf1 & Hm1).
    fold s1 in Hd1, Hf1, Hm1. cbn in Hd1.
    destruct r as [b|e].
    + destruct (IH (done ++ [driver']) s1) as (ds' & H1 & H2 & H3 & H4 & H5 & H6).
      { rewrite Hd1, <- app_assoc. reflexivity. }
      { exact Hrest. }
      exists (driver' :: ds'). rewrite H1, <- app_assoc. cbn [app fmap list_fmap].
      rewrite H2, H3, Hsp, Hfs.
      assert (Hf : same_frame self s1)
        by (destruct Hf1 as (?&?&?&?); repeat split; assumption).
      split; [reflexivity|]. split; [reflexivity|]. split; [reflexivity|].
      split; [constructor; assumption|].
      split; [eapply same_frame_trans; [exact Hf|exact H5]|].
      split; intros H; [apply Hm1, H6, H|apply H6, Hm1, H].
    + exists (driver' :: rest). cbn [fst fmap list_fmap].
      rewrite Hd1, Hsp, Hfs.
      split; [reflexivity|]. split; [reflexivity|]. split; [reflexivity|].
      split; [constructor; assumption|].
      split; [destruct Hf1 as (?&?&?&?); repeat split; assumption|].
      exact Hm1.
Qed.

Lemma refresh_frame (f : nat -> Slave -> Slave) (self : t) :
  BrooksDriver.get_setpoint <$> drivers (refresh f self)
  = BrooksDriver.get_setpoint <$> drivers self
  /\ BrooksDriver.full_scale <$> drivers (refresh f self)
     = BrooksDriver.full_scale <$> drivers self
  /\ (Forall steady (drivers self) -> Forall steady (drivers (refresh f self)))
  /\ same_frame self (refresh f self)
  /\ (master (refresh f self) = None <-> master self = None).
Proof.
  unfold refresh. destruct self as [a m ds th se st]. cbn.
  rewrite <- !list_fmap_compose. repeat split; auto.
  - intros H. apply Forall_fmap. eapply Forall_impl; [exact H|].
    intros d Hd. exact Hd.
  - destruct m; cbn; [discriminate|auto].
  - destruct m; cbn; [discriminate|auto].
Qed.

End ManagerDrivers.

(** ** EtherCATManager: [connect] on every path *)

Section ManagerConnect.

Import EtherCATManager.

(** The driver loop binds driver [i] to the discovered slave [i]. *)
Lemma create_drivers_spec (found : list Slave) (ids : list nat)
    (acc : list BrooksDriver.t) (self : t) :
  Forall (fun i => (i < length found)%nat) ids ->
  drivers self = acc ->
  create_drivers found ids acc self
  = (set_drivers
       (acc ++ ((fun i => BrooksDriver.__init__ (found !! i) (Z.of_nat i)) <$> ids))
       self,
     Returns tt).
Proof.
  intros Hids. revert acc self.
  induction Hids as [|i ids Hi Hids IH]; intros acc self Hacc;
    cbn [create_drivers].
  - rewrite fmap_nil, app_nil_r, <- Hacc, set_drivers_same. reflexivity.
  - destruct (lookup_lt_is_Some_2 found i Hi) as [sl Hsl].
    rewrite fmap_cons, Hsl. step_action.
    rewrite IH by reflexivity. rewrite <- app_assoc. reflexivity.
Qed.

Lemma seq_below (n : Z) (found : list Slave) :
  (len found <? n) = false ->
  Forall (fun i => (i < length found)%nat) (seq 0 (Z.to_nat n)).
Proof.
  intros H. apply Z.ltb_ge in H. unfold len in H.
  apply Forall_forall. intros i Hi. apply elem_of_seq in Hi. lia.
Qed.

Lemma steady_bound (found : list Slave) (ids : list nat) :
  Forall steady
    ((fun i => BrooksDriver.__init__ (found !! i) (Z.of_nat i)) <$> ids).
Proof. apply Forall_fmap, Forall_forall. intros i _. apply steady_init. Qed.

Lemma steady_remapped (f : Slave -> Slave) (ds : list BrooksDriver.t) :
  Forall steady ds ->
  Forall steady
    ((fun d => BrooksDriver.set_slave d (f <$> BrooksDriver.slave d)) <$> ds).
Proof.
  intros H. apply Forall_fmap. eapply Forall_impl; [exact H|].
  intros d Hd. exact Hd.
Qed.

Ltac manager_fields :=
  cbn [master drivers adapter _state _stop_event _cyclic_thread
       set_master set_drivers set_cyclic_thread set_stop_event set_state
       on_master remap app].

Ltac connect_fields :=
  cbv beta iota;
  split; [manager_fields; cbn [fmap option_fmap option_map]; discriminate|];
  split; [reflexivity|];
  split; [manager_fields; intros Hst;
          first [exact Hst | apply steady_bound
                | apply steady_remapped, steady_bound]|].

(** The [try] block of [connect] on every path. *)
Lemma connect_try_paths (sc : ConnectScript) (n : Z) (self : t) :
  let '(s1, r) := connect_try sc n self in
  master s1 <> None /\ adapter s1 = adapter self
  /\ (Forall steady (drivers self) -> Forall steady (drivers s1))
  /\ match r with
     | Returns (ok, _) =>
         (ok = true ->
          _state s1 = CONNECTED /\ _stop_event s1 = false
          /\ _cyclic_thread s1 = Some cyclic_thread)
         /\ (ok = false -> _state s1 = ERROR)
     | Raises _ => True
     end.
Proof.
  unfold connect_try, master_close. step_action.
  destruct (open_result sc) as [[]|e]; [|connect_fields; exact I].
  destruct (config_init_result sc) as [found|e]; [|connect_fields; exact I].
  destruct (len found <? n) eqn:Hn.
  - destruct (close_result sc) as [[]|e]; connect_fields;
      [split; [discriminate|reflexivity] | exact I].
  - rewrite create_drivers_spec by (reflexivity || apply seq_below, Hn).
    destruct (config_map_result sc) as [mapping|e]; [|connect_fields; exact I].
    destruct (config_dc_result sc) as [[]|e]; [|connect_fields; exact I].
    destruct (safeop_check_result sc) as [safeop|e]; [|connect_fields; exact I].
    destruct (thread_start_result sc) as [[]|e]; [|connect_fields; exact I].
    destruct (write_state_result sc) as [[]|e]; [|connect_fields; exact I].
    destruct (op_check_result sc) as [actual_state|e]; [|connect_fields; exact I].
    destruct (actual_state =? OP_STATE); connect_fields;
      (split; [intros _; repeat split|discriminate]).
Qed.

(** The handler of [connect]. *)
Lemma connect_handler (sc : ConnectScript) (e : PyExc) (s1 : t) :
  master s1 <> None ->
  exists s2,
    (update (set_state ERROR);;
     m ← read master;
     (match m with
      | Some _ =>
          except_Exception (master_close (close_result sc)) (fun _ => mret tt)
      | None => mret tt
      end);;
     mret (false, MsgError e)) s1 = (s2, Returns (false, MsgError e))
    /\ _state s2 = ERROR /\ master s2 <> None
    /\ adapter s2 = adapter s1 /\ drivers s2 = drivers s1.
Proof.
  intros Hm. destruct s1 as [a [m|] ds th se st]; [|contradiction].
  unfold master_close. step_action. manager_fields.
  destruct (close_result sc) as [[]|e']; eexists;
    (split; [reflexivity|]); repeat split; discriminate.
Qed.

(** Every path through [connect]: it returns a pair, the flag agrees
    with the connection state, and the drivers it leaves are steady. *)
Lemma connect_paths (sc : ConnectScript) (n : Z) (self : t) :
  exists self' ok msg,
    connect sc n self = (self', Returns (ok, msg))
    /\ (ok = true ->
        _state self' = CONNECTED /\ _stop_event self' = false
        /\ _cyclic_thread self' = Some cyclic_thread)
    /\ (ok = false -> _state self' = ERROR)
    /\ master self' <> None
    /\ adapter self' = adapter self
    /\ (Forall steady (drivers self) -> Forall steady (drivers self')).
Proof.
  pose proof (connect_try_paths sc n self) as Htry.
  unfold connect. unfold except_Exception at 1.
  destruct (connect_try sc n self) as [s1 [[ok msg]|e]].
  - destruct Htry as (Hm & Ha & Hd & Hok & Hno).
    exists s1, ok, msg. split; [reflexivity|]. split; [exact Hok|].
    split; [exact Hno|]. split; [exact Hm|]. split; [exact Ha|exact Hd].
  - destruct Htry as (Hm & Ha & Hd & _).
    destruct (connect_handler sc e s1 Hm) as (s2 & -> & H1 & H2 & H3 & H4).
    exists s2, false, (MsgError e).
    split; [reflexivity|]. split; [discriminate|]. split; [intros _; exact H1|].
    split; [exact H2|]. split; [congruence|]. rewrite H4. exact Hd.
Qed.

(** ** EtherCATManager: commands and cycles *)

Lemma set_setpoint_paths (i : Z) (sp : float) (self : t) :
  let '(s', r) := set_setpoint i sp self in
  same_frame self s'
  /\ (master s' = None <-> master self = None)
  /\ length (drivers s') = length (drivers self)
  /\ (Forall steady (drivers self) -> Forall steady (drivers s'))
  /\ (forall j, j <> Z.to_nat i -> drivers s' !! j = drivers self !! j).
Proof.
  unfold set_setpoint. step_action.
  destruct ((0 <=? i) && (i <? len (drivers self)));
    [|split; [apply same_frame_refl|]; repeat split; auto].
  destruct (drivers self !! Z.to_nat i) as [d|] eqn:Hd;
    [|split; [apply same_frame_refl|]; repeat split; auto].
  pose proof (steady_write d sp) as Hw.
  destruct (BrooksDriver.write_setpoint d sp) as [d' r]. cbn [fst] in Hw.
  destruct (share_slave_frame d'
              (set_drivers (<[Z.to_nat i := d']> (drivers self)) self))
    as (Hd1 & Hf1 & Hm1).
  assert (H : let s' := share_slave d'
                (set_drivers (<[Z.to_nat i := d']> (drivers self)) self) in
              same_frame self s'
              /\ (master s' = None <-> master self = None)
              /\ length (drivers s') = length (drivers self)
              /\ (Forall steady (drivers self) -> Forall steady (drivers s'))
              /\ (forall j, j <> Z.to_nat i -> drivers s' !! j = drivers self !! j)).
  { cbv zeta. rewrite Hd1. cbn [drivers set_drivers].
    split; [destruct Hf1 as (?&?&?&?); repeat split; assumption|].
    split; [exact Hm1|]. split; [apply length_insert|].
    split.
    - intros Hst. apply Forall_insert; [exact Hst|].
      apply Hw. eapply Forall_lookup_1 in Hst; [exact Hst|exact Hd].
    - intros j Hj. apply list_lookup_insert_ne. congruence. }
  destruct r; exact H.
Qed.

(** One pass of the cyclic loop assigns only to the slave buffers: the
    stored setpoints, the scales and the manager's own attributes stay. *)
Lemma cycle_body_frame (sc : CycleScript) (self : t) :
  Forall steady (drivers self) ->
  let s' := fst (cycle_body sc self) in
  BrooksDriver.get_setpoint <$> drivers s'
  = BrooksDriver.get_setpoint <$> drivers self
  /\ BrooksDriver.full_scale <$> drivers s'
     = BrooksDriver.full_scale <$> drivers self
  /\ Forall steady (drivers s')
  /\ same_frame self s'
  /\ (master s' = None <-> master self = None).
Proof.
  intros Hst. unfold cycle_body. step_action.
  destruct (resend_setpoints_frame (drivers self) [] self eq_refl Hst)
    as (ds' & H1 & H2 & H3 & H4 & H5 & H6).
  destruct (resend_setpoints (drivers self) [] self) as [s1 r].
  cbn [fst app] in H1, H5, H6.
  assert (Hbase : BrooksDriver.get_setpoint <$> drivers s1
                  = BrooksDriver.get_setpoint <$> drivers self
                  /\ BrooksDriver.full_scale <$> drivers s1
                     = BrooksDriver.full_scale <$> drivers self
                  /\ Forall steady (drivers s1)
                  /\ same_frame self s1
                  /\ (master s1 = None <-> master self = None))
    by (rewrite H1; auto).
  destruct r as [[]|e]; [|exact Hbase].
  destruct (master s1) as [m|] eqn:Hm; [|cbn [fst]; rewrite Hm; exact Hbase].
  destruct (send_result sc) as [[]|e];
    [|cbn [fst]; rewrite Hm; exact Hbase].
  destruct (receive_result sc) as [received|e];
    [|cbn [fst]; rewrite Hm; exact Hbase].
  destruct (refresh_frame received s1) as (R1 & R2 & R3 & R4 & R5).
  assert (Hafter : BrooksDriver.get_setpoint <$> drivers (refresh received s1)
                  = BrooksDriver.get_setpoint <$> drivers self
                  /\ BrooksDriver.full_scale <$> drivers (refresh received s1)
                     = BrooksDriver.full_scale <$> drivers self
                  /\ Forall steady (drivers (refresh received s1))
                  /\ same_frame self (refresh received s1)
                  /\ (master (refresh received s1) = None <-> master self = None)).
  { destruct Hbase as (B1 & B2 & B3 & B4 & B5).
    split; [congruence|]. split; [congruence|]. split; [auto|].
    split; [eapply same_frame_trans; eassumption|].
    rewrite R5, Hm. exact B5. }
  destruct (read_all (clock sc) 0 (drivers (refresh received s1))); exact Hafter.
Qed.

Lemma cyclic_iteration_frame (sc : CycleScript) (cb : Callbacks) (self : t) :
  Forall steady (drivers self) ->
  let s' := fst (cyclic_iteration sc cb self) in
  BrooksDriver.get_setpoint <$> drivers s'
  = BrooksDriver.get_setpoint <$> drivers self
  /\ BrooksDriver.full_scale <$> drivers s'
     = BrooksDriver.full_scale <$> drivers self
  /\ Forall steady (drivers s')
  /\ same_frame self s'
  /\ (master s' = None <-> master self = None).
Proof.
  intros Hst. pose proof (cycle_body_frame sc self Hst) as H.
  unfold cyclic_iteration. step_action.
  destruct (cycle_body sc self) as [s1 [batch|e]]; cbn [fst] in H.
  - destruct (_on_data_callback cb) as [k|]; [|exact H].
    destruct (k batch) as [[]|e]; [exact H|].
    destruct (_on_error_callback cb) as [h|]; [|exact H].
    destruct (h e); exact H.
  - destruct (_on_error_callback cb) as [h|]; [|exact H].
    destruct (h e); exact H.
Qed.

Lemma cyclic_task_cons (cb : Callbacks) (sc : CycleScript)
    (rest : list CycleScript) (self : t) :
  _cyclic_task cb (sc :: rest) self
  = if _stop_event self then (self, Returns tt)
    else match cyclic_iteration sc cb self with
         | (s1, Returns _) => _cyclic_task cb rest s1
         | (s1, Raises e) => (s1, Raises e)
         end.
Proof.
  cbn [_cyclic_task]. step_action. destruct (_stop_event self); reflexivity.
Qed.


Lemma read_data_returns (now : float) (d : BrooksDriver.t) :
  exists r, BrooksDriver.read_data now d = Returns r.
Proof.
  destruct (input_frame d) as [frame|] eqn:Hin.
  - destruct (le_lt_dec 13 (length frame)) as [Hlen|Hlen].
    + destruct (read_data_some now d frame Hin Hlen) as [x Hx]. eauto.
    + exists None. apply read_data_none. rewrite Hin. exact Hlen.
  - exists None. apply read_data_none. rewrite Hin. exact I.
Qed.

(** The reading loop returns one slot per driver, in driver order. *)
Lemma read_all_spec (clock : nat -> float) (i : nat) (ds : list BrooksDriver.t) :
  exists batch,
    read_all clock i ds = Returns batch
    /\ length batch = length ds
    /\ forall j d, ds !! j = Some d ->
         exists x, batch !! j = Some x
                   /\ BrooksDriver.read_data (clock (i + j)%nat) d = Returns x.
Proof.
  revert i. induction ds as [|d0 rest IH]; intros i; cbn [read_all].
  - exists []. split; [reflexivity|]. split; [reflexivity|].
    intros j d Hj. discriminate Hj.
  - destruct (read_data_returns (clock i) d0) as [x0 Hx0].
    destruct (IH (S i)) as (more & Hm & Hlen & Hslots).
    rewrite Hx0, bind_Returns, Hm, bind_Returns.
    exists (x0 :: more). split; [reflexivity|].
    split; [cbn [length]; rewrite Hlen; reflexivity|].
    intros [|j] d Hj.
    + injection Hj as <-. exists x0. rewrite Nat.add_0_r. auto.
    + destruct (Hslots j d Hj) as (x & Hx & Hr).
      exists x. rewrite Nat.add_succ_r. auto.
Qed.

(** With well-formed stored setpoints the write-back loop never raises. *)
Lemma resend_setpoints_returns (todo done : list BrooksDriver.t) (self : t) :
  Forall (fun d => steady d
                   /\ PyFloat.valid (BrooksDriver.get_setpoint d) = true) todo ->
  snd (resend_setpoints todo done self) = Returns tt.
Proof.
  intros H. revert done self.
  induction H as [|driver rest [Hd Hv] _ IH]; intros done self;
    cbn [resend_setpoints]; [reflexivity|].
  destruct (steady_resend_returns driver Hd Hv) as [b Hb].
  destruct (BrooksDriver.write_setpoint driver (BrooksDriver.get_setpoint driver))
    as [driver' r]. cbn [snd] in Hb. subst r.
  step_action. apply IH.
Qed.

Lemma sound_init (a : string) : sound (__init__ a).
Proof.
  split; [constructor|]. split; [discriminate|].
  split; [intros _; split; reflexivity|discriminate].
Qed.

Lemma same_length_nil {A B} (f : A -> B) (l l' : list A) :
  f <$> l' = f <$> l -> l = [] -> l' = [].
Proof.
  intros H ->. destruct l'; [reflexivity|discriminate H].
Qed.

(** Every call of the manager keeps it sound. *)
Lemma manager_step_sound (m : t) (c : ManagerCall) :
  sound m -> sound (manager_step m c).
Proof.
  intros (Hst & Hcon & Hdis & Hing).
  destruct c as [sc n|sc|i sp|sc cb]; cbn [manager_step].
  - destruct (connect_paths sc n m) as (m' & ok & msg & -> & Hok & Hno & Hm & _ & Hd).
    cbn [fst]. split; [auto|].
    destruct ok.
    + destruct (Hok eq_refl) as (S1 & S2 & S3).
      split; [intros _; split; [exact Hm|rewrite S3; discriminate]|].
      rewrite S1. split; discriminate.
    + rewrite (Hno eq_refl). split; [discriminate|]. split; discriminate.
  - rewrite disconnect_result. cbn [fst].
    split; [constructor|]. split; [discriminate|].
    split; [intros _; split; reflexivity|discriminate].
  - pose proof (set_setpoint_paths i sp m) as H.
    destruct (set_setpoint i sp m) as [m' r]. cbn [fst].
    destruct H as ((_ & Hth & _ & Hs) & Hm & Hlen & Hd & _).
    split; [auto|]. rewrite Hs, Hth.
    split; [intros H; destruct (Hcon H) as [H1 H2]; split; [|exact H2];
            intros H3; apply H1, Hm, H3|].
    split; [|exact Hing].
    intros H. destruct (Hdis H) as [H1 H2]. split; [apply Hm, H1|].
    rewrite H2 in Hlen. destruct (drivers m'); [reflexivity|discriminate Hlen].
  - destruct (cyclic_iteration_frame sc cb m Hst) as (H1 & _ & H3 & (_ & Hth & _ & Hs) & Hm).
    split; [exact H3|]. rewrite Hs, Hth.
    split; [intros H; destruct (Hcon H) as [H4 H5]; split; [|exact H5];
            intros H6; apply H4, Hm, H6|].
    split; [|exact Hing].
    intros H. destruct (Hdis H) as [H4 H5]. split; [apply Hm, H4|].
    eapply same_length_nil; [exact H1|exact H5].
Qed.

Lemma manager_run_sound (m : t) (calls : list ManagerCall) :
  sound m -> sound (manager_run m calls).
Proof.
  revert m. induction calls as [|c rest IH]; intros m H; [exact H|].
  apply IH, manager_step_sound, H.
Qed.

Lemma guard_empty (i : Z) : (0 <=? i) && (i <? 0) = false.
Proof.
  destruct (Z.leb_spec 0 i), (Z.ltb_spec i 0); try reflexivity; lia.
Qed.

End ManagerConnect.

(** ** EtherCATManager: properties *)

(** X16. [connect] never raises, whatever the master stack does: it
    returns a pair whose flag is [True] exactly when the connection state
    it leaves is [CONNECTED] and [False] exactly when it is [ERROR]; the
    state is never left at [CONNECTING], the master object is kept (also
    after a failure) and the adapter name is untouched. *)
Theorem connect_flag_agrees_with_state (sc : EtherCATManager.ConnectScript)
    (num_controllers : Z) (self : EtherCATManager.t) :
  exists self' ok msg,
    EtherCATManager.connect sc num_controllers self = (self', Returns (ok, msg))
    /\ EtherCATManager._state self' = (if ok then CONNECTED else ERROR)
    /\ EtherCATManager.master self' <> None
    /\ EtherCATManager.adapter self' = EtherCATManager.adapter self.
Proof.
  destruct (connect_paths sc num_controllers self)
    as (self' & ok & msg & H & Hok & Hno & Hm & Ha & _).
  exists self', ok, msg. split; [exact H|].
  split; [destruct ok; [apply Hok|apply Hno]; reflexivity|].
  split; assumption.
Qed.

(** X17. When the adapter opens but fewer devices than requested are
    found, [connect] returns [False] and leaves the state [ERROR], the
    driver list, the thread handle and the stop flag as they were, and
    the master holding the devices found.  The message names the two
    counts, unless closing the master raises: then the message is that
    of the close failure. *)
Theorem connect_too_few_devices (sc : EtherCATManager.ConnectScript)
    (num_controllers : Z) (self : EtherCATManager.t) (found : list Slave) :
  EtherCATManager.open_result sc = Returns tt ->
  EtherCATManager.config_init_result sc = Returns found ->
  len found < num_controllers ->
  exists self',
    EtherCATManager.connect sc num_controllers self
    = (self',
       Returns (false,
                match EtherCATManager.close_result sc with
                | Returns _ => EtherCATManager.MsgFound (len found) num_controllers
                | Raises e => EtherCATManager.MsgError e
                end))
    /\ EtherCATManager._state self' = ERROR
    /\ EtherCATManager.drivers self' = EtherCATManager.drivers self
    /\ EtherCATManager._cyclic_thread self' = EtherCATManager._cyclic_thread self
    /\ EtherCATManager._stop_event self' = EtherCATManager._stop_event self
    /\ EtherCATManager.slaves <$> EtherCATManager.master self' = Some found.
Proof.
  intros Hopen Hinit Hn.
  unfold EtherCATManager.connect, EtherCATManager.connect_try,
    EtherCATManager.master_close.
  step_action. rewrite Hopen, Hinit.
  replace (len found <? num_controllers) with true
    by (symmetry; apply Z.ltb_lt; exact Hn).
  destruct (EtherCATManager.close_result sc) as [[]|e];
    eexists; (split; [reflexivity|]); repeat split.
Qed.

Lemma connect_too_few_devices_witness :
  exists self',
    EtherCATManager.connect Examples.short_bus 2 Examples.fresh_manager
    = (self', Returns (false, EtherCATManager.MsgFound 1 2))
    /\ EtherCATManager._state self' = ERROR
    /\ EtherCATManager.drivers self' = []
    /\ EtherCATManager._cyclic_thread self' = None
    /\ EtherCATManager._stop_event self' = false
    /\ EtherCATManager.slaves <$> EtherCATManager.master self'
       = Some [Examples.unmapped_slave].
Proof.
  exact (connect_too_few_devices Examples.short_bus 2 Examples.fresh_manager
           [Examples.unmapped_slave] eq_refl eq_refl eq_refl).
Defined.

(** X18. When every master-stack call of [connect] returns and at least
    [num_controllers] devices are found, [connect] returns [True] and
    leaves exactly [num_controllers] drivers: driver [i] has controller
    id [i], the scale read from device [i] before the process data are
    mapped, and the mapped buffers of device [i]; devices beyond
    [num_controllers] get no driver.  The stop flag is cleared and the
    master holds the mapped devices with the Operational state
    requested. *)
Theorem connect_binds_drivers_in_order (sc : EtherCATManager.ConnectScript)
    (num_controllers : Z) (self : EtherCATManager.t)
    (found : list Slave) (mapping : Slave -> Slave) (safeop actual_state : Z) :
  EtherCATManager.open_result sc = Returns tt ->
  EtherCATManager.config_init_result sc = Returns found ->
  num_controllers <= len found ->
  EtherCATManager.config_map_result sc = Returns mapping ->
  EtherCATManager.config_dc_result sc = Returns tt ->
  EtherCATManager.safeop_check_result sc = Returns safeop ->
  EtherCATManager.thread_start_result sc = Returns tt ->
  EtherCATManager.write_state_result sc = Returns tt ->
  EtherCATManager.op_check_result sc = Returns actual_state ->
  exists self' msg,
    EtherCATManager.connect sc num_controllers self = (self', Returns (true, msg))
    /\ length (EtherCATManager.drivers self') = Z.to_nat num_controllers
    /\ (forall i sl, (i < Z.to_nat num_controllers)%nat -> found !! i = Some sl ->
        EtherCATManager.drivers self' !! i
        = Some (BrooksDriver.set_slave
                  (BrooksDriver.__init__ (Some sl) (Z.of_nat i))
                  (Some (mapping sl))))
    /\ EtherCATManager._stop_event self' = false
    /\ EtherCATManager.master self'
       = Some (EtherCATManager.mkMaster (mapping <$> found)
                 EtherCATManager.OP_STATE true).
Proof.
  intros Hopen Hinit Hn Hmap Hdc Hsafe Hth Hws Hop.
  unfold EtherCATManager.connect, EtherCATManager.connect_try,
    EtherCATManager.master_close.
  step_action. rewrite Hopen, Hinit.
  assert (Hlt : (len found <? num_controllers) = false)
    by (apply Z.ltb_ge; exact Hn).
  rewrite Hlt.
  rewrite create_drivers_spec by (reflexivity || apply seq_below, Hlt).
  rewrite Hmap, Hdc, Hsafe, Hth, Hws, Hop.
  assert (Hdrivers :
    forall ds : list BrooksDriver.t,
      ds = (fun d => BrooksDriver.set_slave d (mapping <$> BrooksDriver.slave d))
             <$> ((fun i => BrooksDriver.__init__ (found !! i) (Z.of_nat i))
                    <$> seq 0 (Z.to_nat num_controllers)) ->
      length ds = Z.to_nat num_controllers
      /\ (forall i sl, (i < Z.to_nat num_controllers)%nat -> found !! i = Some sl ->
          ds !! i = Some (BrooksDriver.set_slave
                            (BrooksDriver.__init__ (Some sl) (Z.of_nat i))
                            (Some (mapping sl))))).
  { intros ds ->. split; [rewrite !length_fmap, length_seq; reflexivity|].
    intros i sl Hi Hsl. rewrite !list_lookup_fmap.
    rewrite (lookup_seq_lt 0 _ i Hi). cbn [fmap option_fmap option_map Nat.add].
    rewrite Hsl, (proj1 (init_fields (Some sl) (Z.of_nat i))). reflexivity. }
  destruct (actual_state =? EtherCATManager.OP_STATE);
    eexists _, _; (split; [reflexivity|]);
    (split; [apply Hdrivers; reflexivity|]);
    (split; [apply Hdrivers; reflexivity|]);
    (split; reflexivity).
Qed.

Lemma connect_binds_drivers_in_order_witness :
  exists self' msg,
    EtherCATManager.connect Examples.degraded_bus 2 Examples.fresh_manager
    = (self', Returns (true, msg))
    /\ length (EtherCATManager.drivers self') = 2%nat
    /\ (forall i sl, (i < 2)%nat ->
        [Examples.unmapped_slave; Examples.unmapped_slave] !! i = Some sl ->
        EtherCATManager.drivers self' !! i
        = Some (BrooksDriver.set_slave
                  (BrooksDriver.__init__ (Some sl) (Z.of_nat i))
                  (Some Examples.mapped_slave)))
    /\ EtherCATManager._stop_event self' = false
    /\ EtherCATManager.master self'
       = Some (EtherCATManager.mkMaster
                 [Examples.mapped_slave; Examples.mapped_slave]
                 EtherCATManager.OP_STATE true).
Proof.
  refine (connect_binds_drivers_in_order Examples.degraded_bus 2
            Examples.fresh_manager
            [Examples.unmapped_slave; Examples.unmapped_slave]
            (fun _ => Examples.mapped_slave)
            EtherCATManager.SAFEOP_STATE EtherCATManager.SAFEOP_STATE
            eq_refl eq_refl _ eq_refl eq_refl eq_refl eq_refl eq_refl eq_refl).
  vm_compute. discriminate.
Defined.


(** X20. The cyclic task survives every failure of a pass.  If the error
    callback, when one is set, returns, then the task returns normally
    for any bus outcomes and any data callback: an exception of the
    setpoint write-back, of the bus exchange or of the data callback ends
    the pass, not the task. *)
Theorem cyclic_task_survives_failures (cb : EtherCATManager.Callbacks)
    (cycles : list EtherCATManager.CycleScript) (self : EtherCATManager.t) :
  (forall on_error e,
     EtherCATManager._on_error_callback cb = Some on_error ->
     on_error e = Returns tt) ->
  snd (EtherCATManager._cyclic_task cb cycles self) = Returns tt.
Proof.
  intros Hcb. revert self.
  induction cycles as [|sc rest IH]; intros self; [reflexivity|].
  rewrite cyclic_task_cons.
  destruct (EtherCATManager._stop_event self); [reflexivity|].
  assert (Hpass : snd (EtherCATManager.cyclic_iteration sc cb self) = Returns tt).
  { unfold EtherCATManager.cyclic_iteration. step_action.
    destruct (EtherCATManager.cycle_body sc self) as [s1 [batch|e]].
    - destruct (EtherCATManager._on_data_callback cb) as [k|]; [|reflexivity].
      destruct (k batch) as [[]|e]; [reflexivity|].
      destruct (EtherCATManager._on_error_callback cb) as [h|] eqn:Hh;
        [|reflexivity].
      rewrite (Hcb h e eq_refl). reflexivity.
    - destruct (EtherCATManager._on_error_callback cb) as [h|] eqn:Hh;
        [|reflexivity].
      rewrite (Hcb h e eq_refl). reflexivity. }
  destruct (EtherCATManager.cyclic_iteration sc cb self) as [s1 r].
  cbn [snd] in Hpass. subst r. apply IH.
Qed.

Lemma cyclic_task_survives_failures_witness :
  snd (EtherCATManager._cyclic_task Examples.quiet
         [Examples.bad_cycle; Examples.good_cycle] Examples.connected_manager)
  = Returns tt.
Proof.
  apply (cyclic_task_survives_failures Examples.quiet
           [Examples.bad_cycle; Examples.good_cycle] Examples.connected_manager).
  intros on_error e H. injection H as <-. reflexivity.
Defined.

(** X21. A pass whose bus exchange succeeds reads every driver.  With
    steady drivers holding well-formed setpoints, a master object and
    both bus calls returning, the [try] block of the pass returns a
    batch with one slot per driver, in driver order: slot [i] is what
    [read_data] returns for driver [i] after the reception, at the time
    its turn comes. *)
Theorem cycle_reads_every_driver (sc : EtherCATManager.CycleScript)
    (self : EtherCATManager.t) (received : nat -> Slave -> Slave) :
  Forall (fun d => steady d
                   /\ PyFloat.valid (BrooksDriver.get_setpoint d) = true)
         (EtherCATManager.drivers self) ->
  EtherCATManager.master self <> None ->
  EtherCATManager.send_result sc = Returns tt ->
  EtherCATManager.receive_result sc = Returns received ->
  exists batch,
    snd (EtherCATManager.cycle_body sc self) = Returns batch
    /\ length batch = length (EtherCATManager.drivers self)
    /\ forall i d,
         EtherCATManager.drivers (fst (EtherCATManager.cycle_body sc self)) !! i
         = Some d ->
         exists x, batch !! i = Some x
                   /\ BrooksDriver.read_data (EtherCATManager.clock sc i) d
                      = Returns x.
Proof.
  intros Hall Hm Hsend Hrecv.
  assert (Hst : Forall steady (EtherCATManager.drivers self))
    by (eapply Forall_impl; [exact Hall|]; intros d [Hd _]; exact Hd).
  unfold EtherCATManager.cycle_body. step_action.
  pose proof (resend_setpoints_returns (EtherCATManager.drivers self) [] self Hall)
    as Hr.
  destruct (resend_setpoints_frame (EtherCATManager.drivers self) [] self
              eq_refl Hst) as (ds' & H1 & H2 & _ & _ & _ & H6).
  destruct (EtherCATManager.resend_setpoints (EtherCATManager.drivers self) [] self)
    as [s1 r]. cbn [fst snd app] in Hr, H1, H6. subst r.
  destruct (EtherCATManager.master s1) as [m|] eqn:Hm1;
    [|exfalso; apply Hm, H6; reflexivity].
  rewrite Hsend, Hrecv.
  destruct (read_all_spec (EtherCATManager.clock sc) 0
              (EtherCATManager.drivers (EtherCATManager.refresh received s1)))
    as (batch & Hb & Hlen & Hslots).
  rewrite Hb. exists batch. cbn [fst snd].
  split; [reflexivity|]. split; [|exact Hslots].
  rewrite Hlen. destruct (refresh_frame received s1) as (R1 & _).
  apply (f_equal length) in R1, H2. rewrite !length_fmap in R1, H2.
  rewrite R1, H1. exact H2.
Qed.

Lemma cycle_reads_every_driver_witness :
  exists batch,
    snd (EtherCATManager.cycle_body Examples.good_cycle Examples.connected_manager)
    = Returns batch
    /\ length batch = length (EtherCATManager.drivers Examples.connected_manager)
    /\ forall i d,
         EtherCATManager.drivers
           (fst (EtherCATManager.cycle_body Examples.good_cycle
                   Examples.connected_manager)) !! i = Some d ->
         exists x, batch !! i = Some x
                   /\ BrooksDriver.read_data Examples.now d = Returns x.
Proof.
  refine (cycle_reads_every_driver Examples.good_cycle Examples.connected_manager
            (fun _ sl => mkSlave (Some Examples.frame_5000) (output sl) (sdo_read sl))
            _ _ eq_refl eq_refl).
  - repeat constructor; vm_compute; auto.
  - vm_compute. discriminate.
Defined.



(** X23. After [disconnect], whatever the teardown did, the manager
    refuses everything: [set_setpoint] returns [False] for every index
    and value and changes nothing, [get_full_scale] answers the default
    30000.0 for every index, and the cyclic task makes no further pass
    because the stop flag is set. *)
Theorem disconnected_manager_is_inert (sc : EtherCATManager.DisconnectScript)
    (self : EtherCATManager.t) (controller_index : Z) (setpoint : float)
    (cb : EtherCATManager.Callbacks) (cycles : list EtherCATManager.CycleScript) :
  let m := fst (EtherCATManager.disconnect sc self) in
  EtherCATManager.set_setpoint controller_index setpoint m = (m, Returns false)
  /\ EtherCATManager.get_full_scale m controller_index
     = BrooksDriver.default_full_scale
  /\ EtherCATManager._cyclic_task cb cycles m = (m, Returns tt).
Proof.
  rewrite disconnect_result. cbn [fst].
  split; [|split].
  - unfold EtherCATManager.set_setpoint. step_action.
    cbn [EtherCATManager.drivers]. change (len []) with 0.
    rewrite guard_empty. reflexivity.
  - unfold EtherCATManager.get_full_scale.
    cbn [EtherCATManager.drivers]. change (len []) with 0.
    rewrite guard_empty. reflexivity.
  - destruct cycles as [|c rest]; [reflexivity|].
    rewrite cyclic_task_cons. reflexivity.
Qed.

(** X24. What holds of a manager between any two calls.  On a manager
    reached from [__init__] by any calls of [connect], [disconnect],
    [set_setpoint] and cyclic passes, with any outcomes of the master
    stack: every driver has a scale in [[1.0, 1000000.0]] and a stored
    setpoint that is 0.0 or lies in (0, scale]; state [CONNECTED] comes
    with a master object and a cyclic thread; state [DISCONNECTED] comes
    with no master and no drivers; the state is never [CONNECTING]. *)
Theorem manager_stays_sound (adapter : string) (calls : list ManagerCall) :
  sound (manager_run (EtherCATManager.__init__ adapter) calls).
Proof. apply manager_run_sound, sound_init. Qed.

(** X25. [get_full_scale] always answers a usable scale: on a manager
    reached from [__init__] by any calls, for every index (no driver at
    that index included) the value is a well-formed number in
    [[1.0, 1000000.0]]. *)
Theorem get_full_scale_is_usable (adapter : string) (calls : list ManagerCall)
    (controller_index : Z) :
  scale_ok (EtherCATManager.get_full_scale
              (manager_run (EtherCATManager.__init__ adapter) calls)
              controller_index).
Proof.
  destruct (manager_run_sound (EtherCATManager.__init__ adapter) calls
              (sound_init adapter)) as [Hst _].
  unfold EtherCATManager.get_full_scale.
  assert (Hdef : scale_ok BrooksDriver.default_full_scale)
    by exact (init_scale_ok None 0).
  destruct (_ && _); [|exact Hdef].
  destruct (EtherCATManager.drivers _ !! Z.to_nat controller_index) as [d|] eqn:Hd;
    [|exact Hdef].
  eapply Forall_lookup_1 in Hst; [|exact Hd]. apply Hst.
Qed.
